(** * Document registry, metadata search and compliance checks

    A shallow embedding of [backend/app/services.py] and of the models of
    [backend/app/schemas.py] it works on: the file-backed [DocumentRegistry],
    the [QueryEngine] and the [ComplianceService].

    Conventions of the embedding.
    - A Python [str] is a [string]; each character stands for the code point
      of the same number, so the texts covered are those with code points
      below 256.  [lower], [strip] and [split] follow Python's [str] methods
      on that range.
    - Python exceptions are values of [exn]; a function that can raise
      returns a [result].
    - The clock ([datetime.utcnow]), [uuid4] and [perf_counter] are inputs of
      the functions that read them; an instant is carried as its
      [isoformat()] text.
    - The lock of the registry serialises its operations; the embedding is
      sequential and does not mention it.
    - The scores are Python floats; they are embedded as the rationals they
      approximate.  Where the code rounds a score to two decimals, the
      rounding is taken on the double nearest to the rational
      ([to_double]), as [round] takes it. *)

From Stdlib Require Import String Ascii ZArith QArith Qround Qpower List Lia Lqa.
From Stdlib Require Import DecimalString Permutation Sorted.
From stdpp Require Import base option list strings gmap.

Set Warnings "-register-all".
Local Close Scope Q_scope.
Local Open Scope Z_scope.

(** ** Python strings *)

Module PyStr.

(** [str.isspace] on one character: the code points below 256 for which
    CPython's [_PyUnicode_IsWhitespace] holds. *)
Definition is_space (c : ascii) : bool :=
  let n := N_of_ascii c in
  ((9 <=? n) && (n <=? 13) || (28 <=? n) && (n <=? 32)
   || (n =? 133) || (n =? 160))%N.

(** [str.lower] on one character: A-Z, and the upper-case letters of the
    Latin-1 supplement (192..222 without the multiplication sign). *)
Definition lower_char (c : ascii) : ascii :=
  let n := N_of_ascii c in
  if ((65 <=? n) && (n <=? 90)
      || (192 <=? n) && (n <=? 222) && negb (n =? 215))%N
  then ascii_of_N (n + 32) else c.

Fixpoint lower (s : string) : string :=
  match s with
  | EmptyString => EmptyString
  | String c r => String (lower_char c) (lower r)
  end.

Fixpoint lstrip (s : string) : string :=
  match s with
  | EmptyString => EmptyString
  | String c r => if is_space c then lstrip r else s
  end.

Fixpoint rstrip (s : string) : string :=
  match s with
  | EmptyString => EmptyString
  | String c r =>
      match rstrip r with
      | EmptyString => if is_space c then EmptyString else String c EmptyString
      | t => String c t
      end
  end.

(** [s.strip()] *)
Definition strip (s : string) : string := rstrip (lstrip s).

(** [s.split()]: the maximal runs of characters that are not white space. *)
Fixpoint split (s : string) : list string :=
  match s with
  | EmptyString => []
  | String c r =>
      if is_space c then split r
      else match r with
           | EmptyString => [String c EmptyString]
           | String c' _ =>
               if is_space c' then String c EmptyString :: split r
               else match split r with
                    | t :: ts => String c t :: ts
                    | [] => [String c EmptyString]
                    end
           end
  end.

(** [needle in hay] *)
Fixpoint contains (hay needle : string) : bool :=
  String.prefix needle hay
  || match hay with
     | EmptyString => false
     | String _ r => contains r needle
     end.

(** [sep.join(parts)] *)
Definition join (sep : string) (parts : list string) : string :=
  String.concat sep parts.

(** Every character of [s] is white space. *)
Fixpoint blank (s : string) : bool :=
  match s with
  | EmptyString => true
  | String c r => is_space c && blank r
  end.

(** Some character of [s] is white space. *)
Fixpoint has_space (s : string) : bool :=
  match s with
  | EmptyString => false
  | String c r => is_space c || has_space r
  end.

(** [str(n)] for an [int]. *)
Definition of_int (n : Z) : string := NilZero.string_of_int (Z.to_int n).

(** [not s] for a [str]. *)
Definition is_empty (s : string) : bool :=
  match s with EmptyString => true | _ => false end.

End PyStr.

(** ** Exceptions *)

Inductive exn :=
| TypeError
| AttributeError
| KeyError
| ValidationError
| UnicodeDecodeError
| RecursionError
| OSError.

Inductive result (A : Type) :=
| Ok (a : A)
| Raise (e : exn).
Arguments Ok {A} a.
Arguments Raise {A} e.

Definition bind {A B} (r : result A) (k : A -> result B) : result B :=
  match r with
  | Ok a => k a
  | Raise e => Raise e
  end.

Notation "'try!' x := r 'in' k" := (bind r (fun x => k))
  (at level 10, x name, r at level 100, k at level 200).

(** A loop that builds a list and stops at the first exception. *)
Fixpoint for_each {A B} (f : A -> result B) (l : list A) : result (list B) :=
  match l with
  | [] => Ok []
  | a :: r => try! b := f a in try! bs := for_each f r in Ok (b :: bs)
  end.

(** ** Dictionaries with string keys, in insertion order *)

Section Dict.
Context {A : Type}.

(** [d.get(k)] *)
Fixpoint dict_get (k : string) (d : list (string * A)) : option A :=
  match d with
  | [] => None
  | (k', v) :: r => if String.eqb k k' then Some v else dict_get k r
  end.

(** [d[k] = v]: the value of a present key is replaced where it stands, a new
    key goes to the end. *)
Fixpoint dict_set (k : string) (v : A) (d : list (string * A)) : list (string * A) :=
  match d with
  | [] => [(k, v)]
  | (k', v') :: r =>
      if String.eqb k k' then (k, v) :: r else (k', v') :: dict_set k v r
  end.

(** [d.values()] *)
Definition dict_values (d : list (string * A)) : list A := map snd d.

(** [sorted(d.items())], as [json.dumps(..., sort_keys=True)] orders the
    items of a dictionary: by key, on code points; the sort is stable. *)
Fixpoint insert_item (kv : string * A) (d : list (string * A)) : list (string * A) :=
  match d with
  | [] => [kv]
  | kv' :: r =>
      if String.leb (fst kv) (fst kv') then kv :: d else kv' :: insert_item kv r
  end.

Definition sort_items (d : list (string * A)) : list (string * A) :=
  foldr insert_item [] d.

End Dict.

(** ** JSON values

    What [json.loads] returns and [json.dumps] takes.  Numbers with a
    fraction or an exponent are left out: the registry writes none. *)

Inductive json :=
| JNull
| JBool (b : bool)
| JInt (z : Z)
| JStr (s : string)
| JList (l : list json)
| JObj (m : list (string * json)).

(** [bool(v)] *)
Definition truthy (v : json) : bool :=
  match v with
  | JNull => false
  | JBool b => b
  | JInt z => negb (z =? 0)
  | JStr s => negb (PyStr.is_empty s)
  | JList l => match l with [] => false | _ => true end
  | JObj m => match m with [] => false | _ => true end
  end.

(** The value [json.loads (json.dumps (v, sort_keys=True))]: [v] with the
    items of every dictionary in key order. *)
Fixpoint sort_keys (v : json) : json :=
  match v with
  | JList l => JList (map sort_keys l)
  | JObj m => JObj (sort_items (map (fun kv => (fst kv, sort_keys (snd kv))) m))
  | _ => v
  end.

(** [v[k]] for a string [k] *)
Definition getitem (v : json) (k : string) : result json :=
  match v with
  | JObj m => match dict_get k m with Some x => Ok x | None => Raise KeyError end
  | _ => Raise TypeError
  end.

(** [v[k] = x] for a string [k] *)
Definition setitem (v : json) (k : string) (x : json) : result json :=
  match v with
  | JObj m => Ok (JObj (dict_set k x m))
  | _ => Raise TypeError
  end.

(** [v.get(k)] *)
Definition get_method (v : json) (k : string) : result (option json) :=
  match v with
  | JObj m => Ok (dict_get k m)
  | _ => Raise AttributeError
  end.

(** [v.values()] *)
Definition values_method (v : json) : result (list json) :=
  match v with
  | JObj m => Ok (dict_values m)
  | _ => Raise AttributeError
  end.

(** ** Calendar dates ([datetime.date]) *)

Record date := { year : Z; month : Z; day : Z }.

Definition is_leap (y : Z) : bool :=
  (y mod 4 =? 0) && (negb (y mod 100 =? 0) || (y mod 400 =? 0)).

Definition days_in_month (y m : Z) : Z :=
  if (m =? 2) then (if is_leap y then 29 else 28)
  else if (m =? 4) || (m =? 6) || (m =? 9) || (m =? 11) then 30
  else 31.

(** The dates a [date] object can hold. *)
Definition date_ok (d : date) : bool :=
  (1 <=? year d) && (year d <=? 9999)
  && (1 <=? month d) && (month d <=? 12)
  && (1 <=? day d) && (day d <=? days_in_month (year d) (month d)).

Definition digit (n : Z) : ascii := ascii_of_N (Z.to_N (48 + n)).

Definition digit_value (c : ascii) : option Z :=
  let n := Z.of_N (N_of_ascii c) in
  if (48 <=? n) && (n <=? 57) then Some (n - 48) else None.

(** [d.isoformat()], that is ["%04d-%02d-%02d"]. *)
Definition isoformat (d : date) : string :=
  let y := year d in let m := month d in let a := day d in
  String (digit (y / 1000)) (String (digit (y / 100 mod 10))
    (String (digit (y / 10 mod 10)) (String (digit (y mod 10))
    (String "-" (String (digit (m / 10)) (String (digit (m mod 10))
    (String "-" (String (digit (a / 10)) (String (digit (a mod 10))
    EmptyString))))))))).

(** The date a ["YYYY-MM-DD"] text stands for, if any. *)
Definition parse_date (s : string) : option date :=
  match s with
  | String y1 (String y2 (String y3 (String y4 (String sep1
      (String m1 (String m2 (String sep2 (String d1 (String d2
      EmptyString))))))))) =>
      match digit_value y1, digit_value y2, digit_value y3, digit_value y4,
            digit_value m1, digit_value m2, digit_value d1, digit_value d2 with
      | Some a, Some b, Some c, Some e, Some f, Some g, Some h, Some i =>
          let d := {| year := 1000 * a + 100 * b + 10 * c + e;
                      month := 10 * f + g; day := 10 * h + i |} in
          if Ascii.eqb sep1 "-" && Ascii.eqb sep2 "-" && date_ok d
          then Some d else None
      | _, _, _, _, _, _, _, _ => None
      end
  | _ => None
  end.

(** ** The models of [schemas.py] *)

Inductive DocumentSource := upload | sftp | email | api.
Inductive DocumentStatus := received | processing | processed | error.
Inductive AlertSeverity := low | medium | high | critical.
Inductive AlertStatus := new | in_review | resolved | false_positive.

Definition source_str (s : DocumentSource) : string :=
  match s with
  | upload => "upload" | sftp => "sftp" | email => "email" | api => "api"
  end.

Definition source_of_str (s : string) : option DocumentSource :=
  if String.eqb s "upload" then Some upload
  else if String.eqb s "sftp" then Some sftp
  else if String.eqb s "email" then Some email
  else if String.eqb s "api" then Some api
  else None.

(** [DocumentIngestionRequest], with the fields of [DocumentMetadata] it
    inherits.  A value of this type is a validated model: the defaults of the
    schema (language ["en"], source [upload], version [1]) are already in
    place, and [content_url] holds the text of a validated URL. *)
Record DocumentIngestionRequest := {
  document_id : option string;
  tenant_id : string;
  issuer : string;
  product : string;
  document_type : string;
  reporting_period : option date;
  language : string;
  source : DocumentSource;
  version : Z;
  filename : string;
  content_url : option string
}.

Definition set_document_id (p : DocumentIngestionRequest) (i : string)
  : DocumentIngestionRequest :=
  {| document_id := Some i; tenant_id := tenant_id p; issuer := issuer p;
     product := product p; document_type := document_type p;
     reporting_period := reporting_period p; language := language p;
     source := source p; version := version p; filename := filename p;
     content_url := content_url p |}.

Record DocumentIngestionResponse := {
  resp_document_id : string;
  resp_status : DocumentStatus;
  received_at : string
}.

Record QueryRequest := {
  query : string;
  document_filters : option (gmap string string);
  max_results : Z
}.

Record QueryResultSnippet := {
  snip_document_id : string;
  section_heading : option string;
  page : option Z;
  excerpt : string;
  score : Q
}.

Record QueryResponse := {
  answer_text : string;
  citations : list QueryResultSnippet;
  latency_ms : Z
}.

Record ComplianceAlert := {
  alert_id : string;
  alert_document_id : string;
  rule_id : string;
  severity : AlertSeverity;
  status : AlertStatus;
  summary : string;
  created_at : string;
  assignee : option string
}.

Record ComplianceAlertList := {
  alerts : list ComplianceAlert;
  total : Z
}.

(** *** [model_dump(mode="json")] and [model_validate] *)

(** The values the fields of a dumped request take. *)
Inductive scalar :=
| SNone
| SStr (s : string)
| SInt (z : Z).

Definition json_of_scalar (v : scalar) : json :=
  match v with
  | SNone => JNull
  | SStr s => JStr s
  | SInt z => JInt z
  end.

(** [str(v)] *)
Definition py_str (v : scalar) : string :=
  match v with
  | SNone => "None"
  | SStr s => s
  | SInt z => PyStr.of_int z
  end.

Definition opt_str (o : option string) : scalar :=
  match o with Some s => SStr s | None => SNone end.

(** [payload.model_dump(mode="json")]: every field of the model, in the order
    of declaration, absent optional fields as [None]. *)
Definition model_dump (p : DocumentIngestionRequest) : list (string * scalar) :=
  [ ("document_id", opt_str (document_id p));
    ("tenant_id", SStr (tenant_id p));
    ("issuer", SStr (issuer p));
    ("product", SStr (product p));
    ("document_type", SStr (document_type p));
    ("reporting_period", opt_str (isoformat <$> reporting_period p));
    ("language", SStr (language p));
    ("source", SStr (source_str (source p)));
    ("version", SInt (version p));
    ("filename", SStr (filename p));
    ("content_url", opt_str (content_url p)) ].

Definition model_dump_json (p : DocumentIngestionRequest) : json :=
  JObj (map (fun kv => (fst kv, json_of_scalar (snd kv))) (model_dump p)).

(** Validators of single fields. [None] stands for a failed validation. *)
Definition required_str (o : option json) : option string :=
  match o with Some (JStr s) => Some s | _ => None end.

Definition optional_str (o : option json) : option (option string) :=
  match o with
  | None | Some JNull => Some None
  | Some (JStr s) => Some (Some s)
  | _ => None
  end.

Definition optional_date (o : option json) : option (option date) :=
  match o with
  | None | Some JNull => Some None
  | Some (JStr s) => Some <$> parse_date s
  | _ => None
  end.

Definition str_or (dflt : string) (o : option json) : option string :=
  match o with
  | None => Some dflt
  | Some (JStr s) => Some s
  | _ => None
  end.

Definition source_or (dflt : DocumentSource) (o : option json) : option DocumentSource :=
  match o with
  | None => Some dflt
  | Some (JStr s) => source_of_str s
  | _ => None
  end.

Definition int_or (dflt : Z) (o : option json) : option Z :=
  match o with
  | None => Some dflt
  | Some (JInt z) => Some z
  | _ => None
  end.

(** [DocumentIngestionRequest.model_validate(v)] on a value read from the
    store.  It covers the dictionaries whose fields hold what [model_dump]
    writes for them, with the defaults of the schema for missing keys and
    with further keys ignored: on these it is pydantic's result.  What
    pydantic converts from other types (a numeric text or a boolean for
    [version], a timestamp or a date with a time of zero for a date) and its
    check and normal form of a URL are outside the embedding: the first is a
    [ValidationError] here, the second takes every text as it is.  The
    properties below use [model_validate] on what [model_dump] wrote, or
    assume its result; none rests on a [ValidationError] of it. *)
Definition model_validate (v : json) : result DocumentIngestionRequest :=
  match v with
  | JObj m =>
      match optional_str (dict_get "document_id" m),
            required_str (dict_get "tenant_id" m),
            required_str (dict_get "issuer" m),
            required_str (dict_get "product" m),
            required_str (dict_get "document_type" m),
            optional_date (dict_get "reporting_period" m),
            str_or "en" (dict_get "language" m),
            source_or upload (dict_get "source" m),
            int_or 1 (dict_get "version" m),
            required_str (dict_get "filename" m),
            optional_str (dict_get "content_url" m) with
      | Some i, Some t, Some iss, Some p, Some ty, Some rp, Some l, Some s,
        Some ver, Some f, Some u =>
          Ok {| document_id := i; tenant_id := t; issuer := iss; product := p;
                document_type := ty; reporting_period := rp; language := l;
                source := s; version := ver; filename := f; content_url := u |}
      | _, _, _, _, _, _, _, _, _, _, _ => Raise ValidationError
      end
  | _ => Raise ValidationError
  end.

(** ** The registry ([DocumentRegistry]) *)

(** The content of the store file, by what [read_text] and [json.loads]
    make of it in [_load]. *)
Inductive file_text :=
| Whitespace
    (** [read_text().strip()] is empty *)
| Undecodable
    (** [json.loads] raises [JSONDecodeError] on it *)
| Encoded (v : json)
    (** [json.loads] returns [v] *)
| Unreadable (e : exn)
    (** [read_text] or [json.loads] raises [e], which is no
        [JSONDecodeError]: [UnicodeDecodeError] on bytes that are no text in
        the encoding of the file, [RecursionError] on a text that nests too
        deep, [OSError] when the file cannot be read *).

Module DocumentRegistry.

(** [_ensure_store]: a missing file is created holding [json.dumps({})]. *)
Definition _ensure_store (f : option file_text) : file_text :=
  match f with
  | None => Encoded (JObj [])
  | Some t => t
  end.

(** [_load]: a blank text and a [JSONDecodeError] give the empty dictionary;
    every other exception gets through the [except] clause. *)
Definition _load (f : file_text) : result json :=
  match f with
  | Whitespace => Ok (JObj [])
  | Undecodable => Ok (JObj [])
  | Encoded v => Ok v
  | Unreadable e => Raise e
  end.

(** [_save]: the file then holds [json.dumps(payload, indent=2,
    sort_keys=True)], which [json.loads] reads back as [sort_keys payload]. *)
Definition _save (payload : json) : file_text := Encoded (sort_keys payload).

(** [register].  [now] is [datetime.utcnow().isoformat()] and [uuid] is
    [str(uuid4())].  The call also assigns the identifier to the
    [document_id] of the payload it was given. *)
Definition register (f : file_text) (now uuid : string)
    (payload : DocumentIngestionRequest)
  : result (file_text * DocumentIngestionResponse) :=
  try! data := _load f in
  let document_id :=
    match document_id payload with
    | Some i => if PyStr.is_empty i then uuid else i
    | None => uuid
    end in
  let payload := set_document_id payload document_id in
  let document_payload :=
    JObj [("created_at", JStr now); ("document", model_dump_json payload)] in
  try! data := setitem data document_id document_payload in
  Ok (_save data,
      {| resp_document_id := document_id; resp_status := received;
         received_at := now |}).

Definition get (f : file_text) (document_id : string)
  : result (option DocumentIngestionRequest) :=
  try! data := _load f in
  try! stored := get_method data document_id in
  match stored with
  | None => Ok None
  | Some stored =>
      if negb (truthy stored) then Ok None
      else
        try! d := getitem stored "document" in
        try! r := model_validate d in
        Ok (Some r)
  end.

Definition list (f : file_text) : result (Datatypes.list DocumentIngestionRequest) :=
  try! payload := _load f in
  try! items := values_method payload in
  for_each (fun item => try! d := getitem item "document" in model_validate d)
           items.

Definition clear (f : file_text) : file_text := _save (JObj []).

End DocumentRegistry.

(** ** The query engine ([QueryEngine]) *)

Definition Qlt_bool (a b : Q) : bool := negb (Qle_bool b a).

(** [max(a, b)] and [min(a, b)] of two numbers: the first argument unless
    the second is strictly beyond it. *)
Definition py_max (a b : Q) : Q := if Qlt_bool a b then b else a.
Definition py_min (a b : Q) : Q := if Qlt_bool b a then b else a.

(** The integer nearest to [x], the even one of two that are equally near. *)
Definition round_half_even (x : Q) : Z :=
  let f := Qfloor x in
  match Qcompare (x - inject_Z f) (1 # 2) with
  | Lt => f
  | Gt => f + 1
  | Eq => if Z.even f then f else f + 1
  end.

(** [2 ** e] for an integer [e] of either sign. *)
Definition pow2 (e : Z) : Q := (2 ^ e)%Q.

(** The binary exponent [e] of a positive [x]: [2 ** e <= x < 2 ** (e + 1)]. *)
Definition binade (x : Q) : Z :=
  let e := Z.log2 (Qnum x) - Z.log2 (Zpos (Qden x)) in
  if Qlt_bool x (pow2 e) then e - 1 else e.

(** The double nearest to a positive [x], the one with the even significand
    of two that are equally near.  A double has 53 significant bits, and the
    doubles below [2 ** -1022] are the multiples of [2 ** -1074]. *)
Definition nearest_double (x : Q) : Q :=
  let ulp := pow2 (Z.max (binade x - 52) (-1074)) in
  (inject_Z (round_half_even (x / ulp)) * ulp)%Q.

(** The float that stands for the rational [x]: what [k / n] gives for the
    integers [k] and [n] of the quotient [x], and what the literals [0.05],
    [0.1] and [1.0] denote.  The scores are at most 1, far from the largest
    double. *)
Definition to_double (x : Q) : Q :=
  match Qcompare x 0 with
  | Eq => 0%Q
  | Gt => nearest_double x
  | Lt => (- nearest_double (- x))%Q
  end.

(** [round(x, 2)] for the float of [x]: the multiple of 0.01 nearest to the
    exact value of that float, the even one of two that are equally near.
    The result stands for the float nearest to it. *)
Definition round2 (x : Q) : Q :=
  (inject_Z (round_half_even (to_double x * inject_Z 100)) / inject_Z 100)%Q.

(** [l[:n]] *)
Definition slice_to {A} (l : list A) (n : Z) : list A :=
  if n <? 0 then take (length l - Z.to_nat (- n)) l else take (Z.to_nat n) l.

Module QueryEngine.

(** One filter of [document_filters] against a dumped document. *)
Definition filter_holds (doc_data : Datatypes.list (string * scalar))
    (kv : string * string) : bool :=
  String.eqb
    (PyStr.lower (py_str (default (SStr "") (dict_get (fst kv) doc_data))))
    (PyStr.lower (snd kv)).

Definition _filter_documents (documents : Datatypes.list DocumentIngestionRequest)
    (filters : option (gmap string string))
  : Datatypes.list DocumentIngestionRequest :=
  match filters with
  | None => documents
  | Some fs =>
      if bool_decide (fs = ∅) then documents
      else
        List.filter
          (fun document =>
             let doc_data := model_dump document in
             forallb (filter_holds doc_data) (map_to_list fs))
          documents
  end.

(** [filter(None, parts)]: the parts that are neither [None] nor empty. *)
Definition filter_None (parts : Datatypes.list (option string)) : Datatypes.list string :=
  omap (fun o => match o with
                 | Some s => if PyStr.is_empty s then None else Some s
                 | None => None
                 end) parts.

Definition searchable (document : DocumentIngestionRequest) : string :=
  PyStr.lower
    (PyStr.join " "
       (filter_None
          [ Some (issuer document);
            Some (product document);
            Some (document_type document);
            Some (language document);
            Some (source_str (source document));
            Some (filename document);
            isoformat <$> reporting_period document ])).

(** The number of tokens of the query found in the searchable text. *)
Definition hits (query text : string) : nat :=
  length (List.filter (fun token => PyStr.contains text token) (PyStr.split query)).

(** The variable [score] after the [if not query ... else ...] of the loop. *)
Definition raw_score (query text : string) : Q :=
  if PyStr.is_empty query then 0%Q
  else (inject_Z (Z.of_nat (hits query text))
        / inject_Z (Z.max (Z.of_nat (length (PyStr.split query))) 1))%Q.

(** The body of the scoring loop: the pair it appends to [matches], if any. *)
Definition score_document (query : string) (document : DocumentIngestionRequest)
  : option (DocumentIngestionRequest * Q) :=
  let text := searchable document in
  let score := raw_score query text in
  if PyStr.is_empty query || PyStr.contains text query || Qlt_bool 0 score
  then Some (document,
             py_min 1 (py_max score (if PyStr.is_empty query then 1 # 10 else 5 # 100)))
  else None.

(** [matches.sort(key=lambda item: item[1], reverse=True)]: by score, the
    highest first; the sort is stable. *)
Fixpoint insert_match (x : DocumentIngestionRequest * Q)
    (l : Datatypes.list (DocumentIngestionRequest * Q))
  : Datatypes.list (DocumentIngestionRequest * Q) :=
  match l with
  | [] => [x]
  | y :: r => if Qle_bool (snd y) (snd x) then x :: l else y :: insert_match x r
  end.

Definition sort_matches (l : Datatypes.list (DocumentIngestionRequest * Q))
  : Datatypes.list (DocumentIngestionRequest * Q) :=
  foldr insert_match [] l.

(** The list [matches] when the scoring loop, the sort and the cut are done. *)
Definition ranked (documents : Datatypes.list DocumentIngestionRequest)
    (payload : QueryRequest) : Datatypes.list (DocumentIngestionRequest * Q) :=
  let documents := _filter_documents documents (document_filters payload) in
  let query := PyStr.lower (PyStr.strip (query payload)) in
  let matches := omap (score_document query) documents in
  let matches := sort_matches matches in
  slice_to matches (max_results payload).

Definition period_text (document : DocumentIngestionRequest) : string :=
  match reporting_period document with
  | Some d => isoformat d
  | None => "unspecified period"
  end.

Definition answer_line (m : DocumentIngestionRequest * Q) : string :=
  "- " +:+ product (fst m) +:+ " (" +:+ document_type (fst m) +:+ ") for "
  +:+ period_text (fst m).

Definition snippet (m : DocumentIngestionRequest * Q) : QueryResultSnippet :=
  {| snip_document_id :=
       match document_id (fst m) with
       | Some i => if PyStr.is_empty i then "unknown" else i
       | None => "unknown"
       end;
     section_heading := Some "Metadata";
     page := None;
     excerpt := "Issuer: " +:+ issuer (fst m) +:+ ". Product: "
                +:+ product (fst m) +:+ ". Filename: " +:+ filename (fst m)
                +:+ ".";
     score := round2 (snd m) |}.

Definition no_match : string :=
  "No documents matched your query. Try adjusting the query text or filters once documents have been processed.".

(** [answer].  [elapsed] is [int((perf_counter() - start_time) * 1000)]. *)
Definition answer (f : file_text) (elapsed : Z) (payload : QueryRequest)
  : result QueryResponse :=
  try! documents := DocumentRegistry.list f in
  let matches := ranked documents payload in
  let '(answer, snippets) :=
    match matches with
    | [] => (no_match, [])
    | _ =>
        (PyStr.join (String "010" EmptyString)
           ("Found the following documents matching your request:"
            :: map answer_line matches),
         map snippet matches)
    end in
  Ok {| answer_text := answer; citations := snippets;
        latency_ms := Z.max 1 elapsed |}.

End QueryEngine.

(** ** The compliance checks ([ComplianceService]) *)

Module ComplianceService.

(** [f"{document.document_id}"] *)
Definition id_text (document : DocumentIngestionRequest) : string :=
  py_str (opt_str (document_id document)).

(** [document.document_id or "unknown"] *)
Definition id_or_unknown (document : DocumentIngestionRequest) : string :=
  match document_id document with
  | Some i => if PyStr.is_empty i then "unknown" else i
  | None => "unknown"
  end.

Definition verified_languages : Datatypes.list string :=
  ["en"; "es"; "fr"; "de"; "it"; "zh"].

Definition language_verified (document : DocumentIngestionRequest) : bool :=
  existsb (String.eqb (PyStr.lower (language document))) verified_languages.

Definition missing_period_alert (now : string) (document : DocumentIngestionRequest)
  : ComplianceAlert :=
  {| alert_id := id_text document +:+ "-missing-reporting-period";
     alert_document_id := id_or_unknown document;
     rule_id := "missing_reporting_period";
     severity := medium;
     status := new;
     summary := "Document metadata is missing a reporting period.";
     created_at := now;
     assignee := None |}.

Definition language_alert (now : string) (document : DocumentIngestionRequest)
  : ComplianceAlert :=
  {| alert_id := id_text document +:+ "-unverified-language";
     alert_document_id := id_or_unknown document;
     rule_id := "unverified_language";
     severity := low;
     status := new;
     summary := "Language code is outside the verified set; ensure translated disclosures are available.";
     created_at := now;
     assignee := None |}.

(** The alerts one turn of the loop appends. *)
Definition document_alerts (now : string) (document : DocumentIngestionRequest)
  : Datatypes.list ComplianceAlert :=
  (match reporting_period document with
   | None => [missing_period_alert now document]
   | Some _ => []
   end)
  ++ (if language_verified document then [] else [language_alert now document]).

(** [list_alerts].  [now] is [datetime.utcnow()]. *)
Definition list_alerts (f : file_text) (now : string) : result ComplianceAlertList :=
  try! documents := DocumentRegistry.list f in
  let alerts := flat_map (document_alerts now) documents in
  Ok {| alerts := alerts; total := Z.of_nat (length alerts) |}.

End ComplianceService.

(** ** Notions used in the statements *)

(** [v] is a dictionary. *)
Definition is_dict (v : json) : bool :=
  match v with JObj _ => true | _ => false end.

(** The number of entries of a dictionary. *)
Definition dict_size (v : json) : nat :=
  match v with JObj m => length m | _ => 0%nat end.

(** The content does not parse: it is blank, or [read_text] or [json.loads]
    raise on it, whatever the exception. *)
Definition malformed (f : file_text) : bool :=
  match f with
  | Whitespace | Undecodable | Unreadable _ => true
  | Encoded _ => false
  end.

(** The content is a text that is no JSON document: it is blank, or
    [json.loads] raises [JSONDecodeError] on it. *)
Definition not_json (f : file_text) : bool :=
  match f with
  | Whitespace | Undecodable => true
  | Encoded _ | Unreadable _ => false
  end.

(** The dates of the request are dates of the calendar, as those of a
    [datetime.date] are. *)
Definition request_ok (p : DocumentIngestionRequest) : bool :=
  match reporting_period p with
  | Some d => date_ok d
  | None => true
  end.

(** The identifier [register] files a request under. *)
Definition assigned_id (uuid : string) (p : DocumentIngestionRequest) : string :=
  match document_id p with
  | Some i => if PyStr.is_empty i then uuid else i
  | None => uuid
  end.

(** The entry [register] stores for a request. *)
Definition stored_entry (now : string) (payload : DocumentIngestionRequest) : json :=
  JObj [("created_at", JStr now); ("document", model_dump_json payload)].

(** The stores the registry gets to from a missing file. *)
Inductive reachable : file_text -> Prop :=
| reachable_new : reachable (DocumentRegistry._ensure_store None)
| reachable_clear f : reachable f -> reachable (DocumentRegistry.clear f)
| reachable_register f now uuid body r f' resp :
    reachable f ->
    uuid <> "" ->
    model_validate body = Ok r ->
    DocumentRegistry.register f now uuid r = Ok (f', resp) ->
    reachable f'.

(** An entry as [register] leaves it in the file. *)
Definition kept_entry (kv : string * json) : Prop :=
  fst kv <> ""
  /\ exists now p,
       request_ok p = true /\ document_id p = Some (fst kv)
       /\ snd kv = sort_keys (stored_entry now p).

Definition well_kept (f : file_text) : Prop :=
  exists m, f = Encoded (JObj m) /\ Forall kept_entry m.

(** The text a filter is compared with: the field of that name of the dumped
    document as [str] renders it, and the empty text when the dumped document
    has no field of that name. *)
Definition field_text (document : DocumentIngestionRequest) (name : string) : string :=
  match dict_get name (model_dump document) with
  | Some v => py_str v
  | None => ""
  end.

(** The document agrees with every filter, letter case apart. *)
Definition passes_filters (fs : gmap string string)
    (document : DocumentIngestionRequest) : Prop :=
  map_Forall (fun name value =>
                PyStr.lower (field_text document name) = PyStr.lower value) fs.

(** The text of a field as the specification has it for the filters: a field
    that is absent, be it that it holds [None] or that the dumped document
    has no field of that name, gives the empty text. *)
Definition absent_as_empty (document : DocumentIngestionRequest) (name : string)
  : string :=
  match dict_get name (model_dump document) with
  | Some SNone | None => ""
  | Some v => py_str v
  end.

(** The text a filter is compared with, field by field: a text as it is, the
    source by its name, the reporting period in ISO form, the version in
    decimal, the text None for an optional field that is not set, and the
    empty text for a name that is no field. *)
Definition compared_text (document : DocumentIngestionRequest) (name : string)
  : string :=
  if String.eqb name "document_id"
  then match document_id document with Some i => i | None => "None" end
  else if String.eqb name "tenant_id" then tenant_id document
  else if String.eqb name "issuer" then issuer document
  else if String.eqb name "product" then product document
  else if String.eqb name "document_type" then document_type document
  else if String.eqb name "reporting_period"
  then match reporting_period document with
       | Some d => isoformat d
       | None => "None"
       end
  else if String.eqb name "language" then language document
  else if String.eqb name "source" then source_str (source document)
  else if String.eqb name "version" then PyStr.of_int (version document)
  else if String.eqb name "filename" then filename document
  else if String.eqb name "content_url"
  then match content_url document with Some u => u | None => "None" end
  else "".

(** [x] brought into the interval from [lo] to [hi]. *)
Definition clamp (lo hi x : Q) : Q :=
  if Qlt_le_dec x lo then lo else if Qlt_le_dec hi x then hi else x.

Definition with_query (payload : QueryRequest) (q : string) : QueryRequest :=
  {| query := q; document_filters := document_filters payload;
     max_results := max_results payload |}.

(** The documents the scoring loop appends, with their scores, in the order
    of the loop. *)
Definition qualifying (documents : list DocumentIngestionRequest)
    (payload : QueryRequest) : list (DocumentIngestionRequest * Q) :=
  omap (QueryEngine.score_document (PyStr.lower (PyStr.strip (query payload))))
       (QueryEngine._filter_documents documents (document_filters payload)).

(** The scores go down along the list. *)
Definition descending (l : list (DocumentIngestionRequest * Q)) : Prop :=
  StronglySorted (fun a b => (snd b <= snd a)%Q) l.

#[global] Instance date_eq_dec : EqDecision date.
Proof. solve_decision. Defined.

(** The language of the document, in lower case, is none of the verified
    ones. *)
Definition unverified (document : DocumentIngestionRequest) : Prop :=
  PyStr.lower (language document) ∉ ["en"; "es"; "fr"; "de"; "it"; "zh"].

(** The alerts of a rule. *)
Definition of_rule (rule : string) (l : list ComplianceAlert) : list ComplianceAlert :=
  filter (fun a => rule_id a = rule) l.

(** ** Sample data *)

Definition sample_request : DocumentIngestionRequest :=
  {| document_id := None; tenant_id := "tenant-123";
     issuer := "Example Asset Manager"; product := "Fund A";
     document_type := "factsheet";
     reporting_period := Some {| year := 2023; month := 12; day := 31 |};
     language := "en"; source := upload; version := 1;
     filename := "fund-a-factsheet.pdf"; content_url := None |}.

Definition fund_b : DocumentIngestionRequest :=
  {| document_id := Some "d-1"; tenant_id := "tenant-456";
     issuer := "Global Investments"; product := "Fund B";
     document_type := "annual report"; reporting_period := None;
     language := "en"; source := upload; version := 1;
     filename := "fund-b-annual.pdf"; content_url := None |}.

Definition fund_z : DocumentIngestionRequest :=
  {| document_id := Some "d-3"; tenant_id := "tenant-456";
     issuer := "Global Investments"; product := "Fund Z";
     document_type := "annual report"; reporting_period := None;
     language := "en"; source := upload; version := 1;
     filename := "fund-z-annual.pdf"; content_url := None |}.

Definition unverified_draft : DocumentIngestionRequest :=
  {| document_id := Some "d-2"; tenant_id := "tenant-789";
     issuer := "Alpha Partners"; product := "Fund C";
     document_type := "factsheet"; reporting_period := None;
     language := "XX"; source := email; version := 2;
     filename := "fund-c-factsheet.pdf"; content_url := None |}.

Definition two_funds : file_text :=
  Encoded (JObj [("d-1", sort_keys (stored_entry "2024-01-01T00:00:00" fund_b));
                 ("d-3", sort_keys (stored_entry "2024-01-02T00:00:00" fund_z))]).

Definition filter_language_en : gmap string string := {[ "language" := "EN" ]}.

(** Filters on the reporting period: the empty text, and the text NONE. *)
Definition filter_period_empty : gmap string string := {[ "reporting_period" := "" ]}.
Definition filter_period_none : gmap string string := {[ "reporting_period" := "NONE" ]}.

Definition both_funds : QueryRequest :=
  {| query := "Fund Z"; document_filters := None; max_results := 1 |}.

(** A query of forty tokens, three of which are found in [fund_b]. *)
Definition forty_tokens : QueryRequest :=
  {| query := "fund b annual q q q q q q q q q q q q q q q q q q q q q q q q q q q q q q q q q q q q q";
     document_filters := None; max_results := 5 |}.


(** ** The route of [main.py] that fetches a document *)

(** What a route raises: the [HTTPException] it builds, or an exception of
    the service that it lets through. *)
Inductive http_exn :=
| HTTPException (status_code : Z) (detail : string)
| Uncaught (e : exn).

Module Api.

(** [get_document].  A fetched request is a model object, which [not] takes
    as true. *)
Definition get_document (f : file_text) (document_id : string)
  : http_exn + DocumentIngestionRequest :=
  match DocumentRegistry.get f document_id with
  | Raise e => inl (Uncaught e)
  | Ok None => inl (HTTPException 404 "Document not found")
  | Ok (Some document) => inr document
  end.

End Api.

(** ** Further notions used in the statements *)

(** The entry of the store that holds the request [p] under the key of
    [kv]. *)
Definition holds_request (kv : string * json) (p : DocumentIngestionRequest) : Prop :=
  fst kv <> "" /\ request_ok p = true /\ document_id p = Some (fst kv)
  /\ exists now, snd kv = sort_keys (stored_entry now p).

(** The keys go up along the list. *)
Definition ascending (keys : list string) : Prop :=
  StronglySorted (fun a b => String.leb a b = true) keys.

(** A store as the registry leaves it: a dictionary of entries written by
    [register], under distinct keys in ascending order. *)
Definition tidy (f : file_text) : Prop :=
  exists m,
    f = Encoded (JObj m)
    /\ Forall kept_entry m
    /\ NoDup (map fst m)
    /\ ascending (map fst m).

(** The identifier of a stored request. *)
Definition id_of (document : DocumentIngestionRequest) : string :=
  default "" (document_id document).

(** The last character of a text. *)
Fixpoint last_char (s : string) : option ascii :=
  match s with
  | EmptyString => None
  | String c EmptyString => Some c
  | String _ r => last_char r
  end.

(** The names of the fields of a dumped request. *)
Definition field_names : list string :=
  ["document_id"; "tenant_id"; "issuer"; "product"; "document_type";
   "reporting_period"; "language"; "source"; "version"; "filename";
   "content_url"].

(** The store after [fund_b] was registered in a new one. *)
Definition one_fund : file_text :=
  Encoded (JObj [("d-1", sort_keys (stored_entry "2024-01-01T00:00:00" fund_b))]).

(** The filters that set the document type and the issuer. *)
Definition filter_type : gmap string string := {[ "document_type" := "Annual Report" ]}.
Definition filter_issuer : gmap string string := {[ "issuer" := "global investments" ]}.
Definition filter_region : gmap string string := {[ "region" := "emea" ]}.

(** A store with one entry that has no document. *)
Definition broken_store : file_text :=
  Encoded (JObj [("d-1", sort_keys (stored_entry "2024-01-01T00:00:00" fund_b));
                 ("d-9", JObj [("created_at", JStr "2024-01-01T00:00:00")])]).

(** [fund_b] as another tenant holds it. *)
Definition fund_b_elsewhere : DocumentIngestionRequest :=
  {| document_id := Some "d-7"; tenant_id := "tenant-001";
     issuer := "Global Investments"; product := "Fund B";
     document_type := "annual report"; reporting_period := None;
     language := "en"; source := upload; version := 4;
     filename := "fund-b-annual.pdf";
     content_url := Some "https://example.com/b.pdf" |}.
(** * Properties *)

(** ** Strings *)

Example split_ex : PyStr.split "  fund  B " = ["fund"; "B"].
Proof. reflexivity. Qed.

Example strip_ex : PyStr.strip "  Fund  B " = "Fund  B".
Proof. reflexivity. Qed.

Example lower_ex : PyStr.lower "Fund B-12" = "fund b-12".
Proof. reflexivity. Qed.

Example contains_ex :
  PyStr.contains "acme fund b" "fund b" = true
  /\ PyStr.contains "ab" "" = true /\ PyStr.contains "ab" "ba" = false.
Proof. repeat split; reflexivity. Qed.

Lemma is_empty_true (s : string) : PyStr.is_empty s = true <-> s = "".
Proof. destruct s; simpl; split; congruence. Qed.

Lemma is_empty_false (s : string) : PyStr.is_empty s = false <-> s <> "".
Proof. destruct s; simpl; split; congruence. Qed.

Lemma is_space_lower_char (c : ascii) :
  PyStr.is_space (PyStr.lower_char c) = PyStr.is_space c.
Proof. destruct c as [[] [] [] [] [] [] [] []]; reflexivity. Qed.

Lemma blank_lower (s : string) : PyStr.blank (PyStr.lower s) = PyStr.blank s.
Proof.
  induction s as [|c r IH]; simpl; [reflexivity|].
  now rewrite is_space_lower_char, IH.
Qed.

Lemma lower_empty (s : string) : PyStr.lower s = "" <-> s = "".
Proof. destruct s; simpl; split; congruence. Qed.

Lemma lstrip_blank (s : string) : PyStr.blank s = true -> PyStr.lstrip s = "".
Proof.
  induction s as [|c r IH]; simpl; [reflexivity|].
  destruct (PyStr.is_space c); simpl; [exact IH | discriminate].
Qed.

(** What [lstrip] leaves starts with a character that is not white space. *)
Lemma lstrip_head (s : string) (c : ascii) (r : string) :
  PyStr.lstrip s = String c r -> PyStr.is_space c = false.
Proof.
  induction s as [|a t IH]; simpl; [discriminate|].
  destruct (PyStr.is_space a) eqn:E; [exact IH|].
  intros H. injection H as -> _. exact E.
Qed.

Lemma rstrip_head (c : ascii) (r : string) :
  PyStr.is_space c = false ->
  exists t, PyStr.rstrip (String c r) = String c t.
Proof.
  intros E. simpl. destruct (PyStr.rstrip r); rewrite ?E; eauto.
Qed.

(** A stripped text is empty or starts with a character that is not white
    space. *)
Lemma strip_head (s : string) :
  PyStr.strip s = ""
  \/ exists c t, PyStr.strip s = String c t /\ PyStr.is_space c = false.
Proof.
  unfold PyStr.strip. destruct (PyStr.lstrip s) as [|c r] eqn:E.
  - left. reflexivity.
  - right. pose proof (lstrip_head _ _ _ E) as Hc.
    destruct (rstrip_head c r Hc) as [t Ht]. eauto.
Qed.

Lemma strip_blank (s : string) : PyStr.blank s = true -> PyStr.strip s = "".
Proof. intros H. unfold PyStr.strip. now rewrite lstrip_blank. Qed.

Lemma split_head (c : ascii) (r : string) :
  PyStr.is_space c = false -> PyStr.split (String c r) <> [].
Proof.
  intros E. simpl. rewrite E. destruct r as [|c' r']; [discriminate|].
  destruct (PyStr.is_space c'); [discriminate|].
  destruct (PyStr.split (String c' r')); discriminate.
Qed.

Lemma split_blank (s : string) : PyStr.blank s = true -> PyStr.split s = [].
Proof.
  induction s as [|c r IH]; [reflexivity|].
  cbn [PyStr.blank PyStr.split]. intros H. apply andb_prop in H as [Hc Hr].
  rewrite Hc. now apply IH.
Qed.

Lemma split_cons (c : ascii) (r : string) :
  PyStr.split (String c r)
  = if PyStr.is_space c then PyStr.split r
    else match r with
         | EmptyString => [String c EmptyString]
         | String c' _ =>
             if PyStr.is_space c' then String c EmptyString :: PyStr.split r
             else match PyStr.split r with
                  | t :: ts => String c t :: ts
                  | [] => [String c EmptyString]
                  end
         end.
Proof. reflexivity. Qed.

(** The tokens are not empty and hold no white space. *)
Lemma split_tokens (s : string) :
  Forall (fun t => t <> "" /\ PyStr.has_space t = false) (PyStr.split s).
Proof.
  induction s as [|c r IH]; [constructor|].
  rewrite split_cons. destruct (PyStr.is_space c) eqn:Hc; [exact IH|].
  destruct r as [|c' r']; [repeat constructor; [discriminate | cbn; now rewrite Hc]|].
  destruct (PyStr.is_space c') eqn:Hc'.
  - constructor; [|exact IH]. split; [discriminate | cbn; now rewrite Hc].
  - destruct (PyStr.split (String c' r')) as [|t ts].
    + repeat constructor; [discriminate | cbn; now rewrite Hc].
    + apply Forall_cons in IH as [[_ Ht] Hts]. constructor; [|exact Hts].
      split; [discriminate | cbn; now rewrite Hc, Ht].
Qed.

(** The query of [answer], stripped and in lower case, has a token unless it
    is empty. *)
Lemma query_tokens (q : string) :
  PyStr.lower (PyStr.strip q) <> "" ->
  (1 <= length (PyStr.split (PyStr.lower (PyStr.strip q))))%nat.
Proof.
  intros Hne. destruct (strip_head q) as [E | (c & t & E & Hc)].
  - rewrite E in Hne. now elim Hne.
  - rewrite E. simpl PyStr.lower.
    pose proof (split_head (PyStr.lower_char c) (PyStr.lower t)) as H.
    rewrite is_space_lower_char in H. specialize (H Hc).
    destruct (PyStr.split _); [now elim H | simpl; lia].
Qed.

Lemma append_cons (a : ascii) (s t : string) :
  String a s +:+ t = String a (s +:+ t).
Proof. reflexivity. Qed.

Lemma append_empty (t : string) : "" +:+ t = t.
Proof. reflexivity. Qed.

Lemma string_length_append (a b : string) :
  String.length (a +:+ b) = (String.length a + String.length b)%nat.
Proof. induction a as [|c a IH]; [reflexivity|]. rewrite append_cons. cbn. now rewrite IH. Qed.

(** A common ending can be taken off. *)
Lemma append_cancel_r (a b t : string) : a +:+ t = b +:+ t -> a = b.
Proof.
  revert b. induction a as [|c a IH]; intros [|c' b] H.
  - reflexivity.
  - exfalso. apply (f_equal String.length) in H.
    rewrite append_empty, append_cons in H. cbn in H.
    rewrite string_length_append in H. lia.
  - exfalso. apply (f_equal String.length) in H.
    rewrite append_empty, append_cons in H. cbn in H.
    rewrite string_length_append in H. lia.
  - rewrite !append_cons in H. injection H as -> H. f_equal. now apply IH.
Qed.

(** [contains] is the substring relation. *)
Lemma prefix_app (n h : string) :
  String.prefix n h = true <-> exists post, h = n +:+ post.
Proof.
  revert h. induction n as [|a n IH]; intros h; simpl.
  - split; [intros _; exists h; reflexivity | intros _; now destruct h].
  - destruct h as [|b h]; simpl.
    + split; [discriminate | intros [post H]; discriminate].
    + destruct (ascii_dec a b) as [->|Hab].
      * rewrite IH. split; intros [post H]; exists post;
          rewrite append_cons in *; congruence.
      * split; [discriminate|].
        intros [post H]. rewrite append_cons in H. congruence.
Qed.

Lemma contains_nil (n : string) : PyStr.contains "" n = String.prefix n "".
Proof. cbn [PyStr.contains]. apply orb_false_r. Qed.

Lemma contains_cons (b : ascii) (h n : string) :
  PyStr.contains (String b h) n
  = String.prefix n (String b h) || PyStr.contains h n.
Proof. reflexivity. Qed.

Lemma contains_spec (h n : string) :
  PyStr.contains h n = true <-> exists pre post, h = pre +:+ n +:+ post.
Proof.
  induction h as [|b h IH].
  - rewrite contains_nil, prefix_app. split.
    + intros [post H]. exists "", post. exact H.
    + intros (pre & post & H). destruct pre; [eauto | discriminate].
  - rewrite contains_cons, orb_true_iff, IH, prefix_app. split.
    + intros [[post H] | (pre & post & H)].
      * exists "", post. exact H.
      * exists (String b pre), post. rewrite append_cons. now rewrite H.
    + intros (pre & post & H). destruct pre as [|a pre].
      * left. eauto.
      * right. exists pre, post. rewrite append_cons in H. congruence.
Qed.

(** ** Scoring *)

Lemma Qlt_bool_iff (a b : Q) : Qlt_bool a b = true <-> (a < b)%Q.
Proof.
  unfold Qlt_bool. rewrite negb_true_iff. split.
  - intros H. apply Qnot_le_lt. intros Hle.
    apply Qle_bool_iff in Hle. congruence.
  - intros H. destruct (Qle_bool b a) eqn:E; [|reflexivity].
    apply Qle_bool_iff in E. exfalso. exact (Qlt_not_le _ _ H E).
Qed.

Lemma Qlt_bool_false (a b : Q) : Qlt_bool a b = false <-> (b <= a)%Q.
Proof.
  unfold Qlt_bool. rewrite negb_false_iff. apply Qle_bool_iff.
Qed.

(** [min(hi, max(x, lo))] is [x] clamped. *)
Lemma py_min_max_clamp (lo hi x : Q) :
  (lo <= hi)%Q -> (py_min hi (py_max x lo) == clamp lo hi x)%Q.
Proof.
  intros Hlh. unfold py_min, py_max, clamp.
  destruct (Qlt_bool x lo) eqn:E1.
  - apply Qlt_bool_iff in E1.
    destruct (Qlt_le_dec x lo) as [_|H]; [|exfalso; exact (Qlt_not_le _ _ E1 H)].
    destruct (Qlt_bool lo hi) eqn:E2; [reflexivity|].
    apply Qlt_bool_false in E2. now apply Qle_antisym.
  - apply Qlt_bool_false in E1.
    destruct (Qlt_le_dec x lo) as [H|_]; [exfalso; exact (Qlt_not_le _ _ H E1)|].
    destruct (Qlt_bool x hi) eqn:E2.
    + apply Qlt_bool_iff in E2.
      destruct (Qlt_le_dec hi x) as [H|_]; [|reflexivity].
      exfalso. exact (Qlt_irrefl _ (Qlt_trans _ _ _ H E2)).
    + apply Qlt_bool_false in E2.
      destruct (Qlt_le_dec hi x) as [_|H]; [reflexivity|].
      now apply Qle_antisym.
Qed.

(** With an empty query every document is appended with the score 0.1. *)
Lemma score_document_empty (document : DocumentIngestionRequest) :
  QueryEngine.score_document "" document = Some (document, (1 # 10)%Q).
Proof. reflexivity. Qed.

Lemma list_filter_decide {A} (P : A -> Prop) `{Hdec : !forall x, Decision (P x)}
    (keep : A -> bool) (l : list A) :
  (forall x, keep x = true <-> P x) -> List.filter keep l = filter P l.
Proof.
  intros H. induction l as [|x l IH]; [reflexivity|].
  cbn [List.filter]. destruct (decide (P x)) as [Hp|Hp].
  - rewrite filter_cons_True by exact Hp.
    rewrite (proj2 (H x) Hp). now rewrite IH.
  - rewrite filter_cons_False by exact Hp.
    destruct (keep x) eqn:E; [|exact IH].
    apply H in E. contradiction.
Qed.

(** [filter(None, parts)] keeps the texts that are there and not empty. *)
Lemma filter_None_texts (parts : list (option string)) :
  QueryEngine.filter_None parts = filter (fun s => s <> "") (omap id parts).
Proof.
  unfold QueryEngine.filter_None.
  induction parts as [|[s|] r IH]; cbn [omap list_omap id]; [reflexivity| |exact IH].
  destruct (PyStr.is_empty s) eqn:E.
  - apply is_empty_true in E. subst s.
    rewrite filter_cons_False by (intros H; now apply H). exact IH.
  - apply is_empty_false in E. rewrite filter_cons_True by exact E.
    now rewrite <- IH.
Qed.

(** The searchable text of a document: its issuer, product, type, language,
    source and file name, and its reporting period when it has one, those
    that are not empty joined by single spaces, in lower case. *)
Lemma searchable_fields (document : DocumentIngestionRequest) :
  QueryEngine.searchable document
  = PyStr.lower
      (PyStr.join " "
         (filter (fun s => s <> "")
            ([issuer document; product document; document_type document;
              language document; source_str (source document);
              filename document]
             ++ match reporting_period document with
                | Some d => [isoformat d]
                | None => []
                end))).
Proof.
  unfold QueryEngine.searchable. rewrite filter_None_texts.
  now destruct (reporting_period document).
Qed.

(** The tokens of the query that are found in the text. *)
Lemma hits_found (query text : string) :
  QueryEngine.hits query text
  = length (filter (fun token => PyStr.contains text token = true)
              (PyStr.split query)).
Proof.
  unfold QueryEngine.hits. f_equal. apply list_filter_decide.
  intros token. reflexivity.
Qed.

(** C2. The scoring rule of [QueryEngine.answer], for the query as the loop
    sees it (stripped, in lower case).  The searchable text of a document is
    made of its issuer, product, document type, language, source and file
    name and of its reporting period in ISO form when it has one: those that
    are not empty, joined by single spaces, in lower case.  A document is
    appended to [matches] with the score 0.1 when the query is empty.  When
    it is not, the raw score is the number of tokens of the query that are
    substrings of the searchable text, over the number of tokens; the
    document is appended exactly when the whole query is a substring of the
    searchable text or the raw score is positive, and then with the raw score
    clamped to the interval from 0.05 to 1; otherwise it is left out.  (The
    citation of a kept document carries this score rounded to two decimals,
    see [QueryEngine.snippet].) *)
Theorem scoring_rule (q : string) (document : DocumentIngestionRequest) :
  let query := PyStr.lower (PyStr.strip q) in
  let fields :=
    [issuer document; product document; document_type document;
     language document; source_str (source document); filename document]
    ++ match reporting_period document with
       | Some d => [isoformat d]
       | None => []
       end in
  let text := PyStr.lower (PyStr.join " " (filter (fun s => s <> "") fields)) in
  let tokens := PyStr.split query in
  let found := filter (fun token => PyStr.contains text token = true) tokens in
  let raw := (inject_Z (Z.of_nat (length found))
              / inject_Z (Z.of_nat (length tokens)))%Q in
  match QueryEngine.score_document query document with
  | Some (d, s) =>
      d = document
      /\ (query = "" /\ (s == 1 # 10)%Q
          \/ query <> ""
             /\ (PyStr.contains text query = true \/ (0 < raw)%Q)
             /\ (s == clamp (5 # 100) 1 raw)%Q)
  | None =>
      query <> "" /\ PyStr.contains text query = false /\ ~ (0 < raw)%Q
  end
  /\ (forall token,
        PyStr.contains text token = true
        <-> exists pre post, text = pre +:+ token +:+ post)
  /\ (query = "" \/ (0 < length tokens)%nat)
  /\ (length found <= length tokens)%nat
  /\ Forall (fun token => token <> "" /\ PyStr.has_space token = false) tokens.
Proof.
  intros query fields text tokens found raw.
  split; [|split; [intros token; apply contains_spec|split; [|split]]].
  2: { destruct (decide (query = "")) as [E|E]; [now left|].
       right. exact (query_tokens q E). }
  2: { subst found. apply length_filter. }
  2: { apply split_tokens. }
  assert (Ht : QueryEngine.searchable document = text)
    by apply searchable_fields.
  destruct (PyStr.is_empty query) eqn:Hq.
  - apply is_empty_true in Hq. rewrite Hq, score_document_empty.
    split; [reflexivity|]. left. split; reflexivity.
  - pose proof Hq as Hne. apply is_empty_false in Hne.
    assert (Hraw : QueryEngine.raw_score query text = raw).
    { unfold QueryEngine.raw_score. rewrite Hq, hits_found. subst raw found tokens.
      pose proof (query_tokens q Hne) as Hlen. fold query in Hlen.
      rewrite Z.max_l by lia. reflexivity. }
    unfold QueryEngine.score_document. rewrite Ht, Hraw, Hq.
    cbn [orb].
    destruct (PyStr.contains text query) eqn:Hc; cbn [orb].
    + split; [reflexivity|]. right. split; [exact Hne|]. split; [now left|].
      apply py_min_max_clamp. discriminate.
    + destruct (Qlt_bool 0 raw) eqn:Hs.
      * split; [reflexivity|]. right. split; [exact Hne|].
        split; [right; now apply Qlt_bool_iff|].
        apply py_min_max_clamp. discriminate.
      * split; [exact Hne|]. split; [reflexivity|].
        intros H. apply Qlt_bool_iff in H. congruence.
Qed.

Example searchable_fund_b :
  QueryEngine.searchable fund_b
  = "global investments fund b annual report en upload fund-b-annual.pdf".
Proof. reflexivity. Qed.

(** One token of two is found: the score is a half. *)
Example score_half :
  QueryEngine.score_document "fund z" fund_b = Some (fund_b, (1 # 2)%Q).
Proof. reflexivity. Qed.

Example score_excluded : QueryEngine.score_document "bond" fund_b = None.
Proof. reflexivity. Qed.

(** The tokens are looked for one by one: a query that is not found as a
    whole still scores 1 when each of its tokens is found. *)
Example score_tokens :
  PyStr.contains (QueryEngine.searchable fund_z) "z fund" = false
  /\ QueryEngine.score_document "z fund" fund_z = Some (fund_z, 1%Q).
Proof. split; reflexivity. Qed.

(** ** A query of white space *)

Lemma with_query_same (payload : QueryRequest) :
  with_query payload (query payload) = payload.
Proof. now destruct payload. Qed.

(** C10. A query made of white space only is handled as the empty query:
    the response is that of the empty query, and every document that passes
    the filters is appended to [matches] with the score 0.1, whatever its
    searchable text. *)
Theorem blank_query_is_empty_query (f : file_text) (elapsed : Z)
    (payload : QueryRequest) :
  PyStr.blank (query payload) = true ->
  PyStr.lower (PyStr.strip (query payload)) = ""
  /\ QueryEngine.answer f elapsed payload
     = QueryEngine.answer f elapsed (with_query payload "")
  /\ forall documents,
       omap (QueryEngine.score_document
               (PyStr.lower (PyStr.strip (query payload))))
            (QueryEngine._filter_documents documents (document_filters payload))
       = map (fun d => (d, (1 # 10)%Q))
             (QueryEngine._filter_documents documents (document_filters payload)).
Proof.
  intros Hb. pose proof (strip_blank _ Hb) as Hs.
  split; [now rewrite Hs|]. split.
  - unfold QueryEngine.answer, QueryEngine.ranked. cbn [query with_query
      document_filters max_results]. now rewrite Hs.
  - intros documents. rewrite Hs. cbn [PyStr.lower].
    induction (QueryEngine._filter_documents documents (document_filters payload))
      as [|d l IH]; [reflexivity|].
    cbn [omap list_omap map]. rewrite score_document_empty. cbn. now rewrite <- IH.
Qed.

Lemma blank_query_is_empty_query_witness :
  PyStr.blank "   " = true
  /\ QueryEngine.answer (Encoded (JObj [])) 3
       {| query := "   "; document_filters := None; max_results := 5 |}
     = QueryEngine.answer (Encoded (JObj [])) 3
       {| query := ""; document_filters := None; max_results := 5 |}.
Proof.
  split; [reflexivity|].
  exact (proj1 (proj2 (blank_query_is_empty_query (Encoded (JObj [])) 3
    {| query := "   "; document_filters := None; max_results := 5 |}
    eq_refl))).
Defined.

(** ** Filters *)

Lemma filter_holds_field_text (document : DocumentIngestionRequest)
    (name value : string) :
  QueryEngine.filter_holds (model_dump document) (name, value) = true
  <-> PyStr.lower (field_text document name) = PyStr.lower value.
Proof.
  unfold QueryEngine.filter_holds, field_text. cbn [fst snd].
  rewrite String.eqb_eq.
  now destruct (dict_get name (model_dump document)).
Qed.

Lemma forallb_filters (document : DocumentIngestionRequest)
    (fs : gmap string string) :
  forallb (QueryEngine.filter_holds (model_dump document)) (map_to_list fs) = true
  <-> passes_filters fs document.
Proof.
  unfold passes_filters. rewrite map_Forall_to_list, forallb_forall, Forall_forall.
  split.
  - intros H [name value] Hin. cbn. apply filter_holds_field_text.
    apply H. now apply list_elem_of_In.
  - intros H [name value] Hin. apply filter_holds_field_text.
    apply (H (name, value)). now apply list_elem_of_In.
Qed.

(** Without filters, or with an empty mapping, every document is kept. *)
Lemma filter_documents_none (documents : list DocumentIngestionRequest) :
  QueryEngine._filter_documents documents None = documents
  /\ QueryEngine._filter_documents documents (Some ∅) = documents.
Proof. split; reflexivity. Qed.

(** The text [_filter_documents] compares, spelled out field by field. *)
Lemma field_text_compared (document : DocumentIngestionRequest) (name : string) :
  field_text document name = compared_text document name.
Proof.
  unfold field_text, compared_text, model_dump. cbn [dict_get].
  repeat match goal with
         | |- context [String.eqb name ?k] => destruct (String.eqb name k)
         end;
    try reflexivity.
  - now destruct (document_id document).
  - now destruct (reporting_period document).
  - now destruct (content_url document).
Qed.

(** C3, as the specification states it, fails on a field that is not set.
    [fund_b] has no reporting period.  With the filter that asks for the
    empty text as reporting period the document agrees with every filter in
    the sense of the specification, where an absent field is compared as the
    empty text; yet [_filter_documents] drops it.  It keeps the document
    under the filter that asks for the text NONE, with which the document
    does not agree in that sense: the field is compared as the text None. *)
Lemma filter_on_unset_field :
  reporting_period fund_b = None
  /\ filter_period_empty <> ∅
  /\ map_Forall (fun name value =>
                   PyStr.lower (absent_as_empty fund_b name) = PyStr.lower value)
                filter_period_empty
  /\ QueryEngine._filter_documents [fund_b] (Some filter_period_empty) = []
  /\ filter_period_none <> ∅
  /\ ~ map_Forall (fun name value =>
                     PyStr.lower (absent_as_empty fund_b name) = PyStr.lower value)
                  filter_period_none
  /\ QueryEngine._filter_documents [fund_b] (Some filter_period_none) = [fund_b].
Proof.
  split; [reflexivity|].
  split; [apply insert_non_empty|].
  split; [apply map_Forall_singleton; reflexivity|].
  split; [vm_compute; reflexivity|].
  split; [apply insert_non_empty|].
  split; [|vm_compute; reflexivity].
  intros H. unfold filter_period_none in H.
  apply map_Forall_singleton in H. discriminate.
Qed.

(** C3, amended.  With a mapping of filters that is not empty,
    [_filter_documents] keeps, in their order, exactly the documents that
    agree with every filter: the text of the field of the filter's name
    equals the value of the filter once both are in lower case.  The text of
    a field ([compared_text]) is the field itself for a text, the name of the
    source, the reporting period in ISO form, the version in decimal, and
    the text None for an optional field that is not set; a name that is no
    field of the document has the empty text.  The filters are a conjunction
    and the comparison is of whole texts. *)
Theorem filter_documents_rule (documents : list DocumentIngestionRequest)
    (fs : gmap string string) :
  fs <> ∅ ->
  QueryEngine._filter_documents documents (Some fs)
  = filter (fun document =>
              map_Forall (fun name value =>
                            PyStr.lower (compared_text document name)
                            = PyStr.lower value) fs)
           documents
  /\ forall document,
       document ∈ QueryEngine._filter_documents documents (Some fs)
       <-> document ∈ documents
           /\ forall name value,
                fs !! name = Some value ->
                PyStr.lower (compared_text document name) = PyStr.lower value.
Proof.
  intros Hne.
  assert (E : QueryEngine._filter_documents documents (Some fs)
              = filter (fun document =>
                          map_Forall (fun name value =>
                                        PyStr.lower (compared_text document name)
                                        = PyStr.lower value) fs)
                       documents).
  { unfold QueryEngine._filter_documents.
    rewrite bool_decide_eq_false_2 by exact Hne.
    apply list_filter_decide. intros d. rewrite forallb_filters.
    unfold passes_filters, map_Forall. split; intros H name value Hn.
    - rewrite <- field_text_compared. now apply H.
    - rewrite field_text_compared. now apply H. }
  split; [exact E|].
  intros document. rewrite E, list_elem_of_filter. unfold map_Forall.
  tauto.
Qed.

(** A document without reporting period is kept by the filter that asks for
    the text NONE and dropped by the one that asks for the empty text. *)
Lemma filter_documents_rule_witness :
  filter_period_none <> ∅
  /\ filter_period_empty <> ∅
  /\ (fund_b ∈ QueryEngine._filter_documents [fund_b] (Some filter_period_none))
  /\ (fund_b ∉ QueryEngine._filter_documents [fund_b] (Some filter_period_empty)).
Proof.
  assert (Hn : filter_period_none <> ∅) by apply insert_non_empty.
  assert (He : filter_period_empty <> ∅) by apply insert_non_empty.
  split; [exact Hn|]. split; [exact He|]. split.
  - apply (proj2 (filter_documents_rule [fund_b] filter_period_none Hn)).
    split; [constructor|].
    intros name value H. unfold filter_period_none in H.
    apply lookup_singleton_Some in H as [<- <-]. reflexivity.
  - intros H.
    apply (proj2 (filter_documents_rule [fund_b] filter_period_empty He)) in H
      as [_ H].
    specialize (H "reporting_period" "" eq_refl). discriminate.
Defined.

(** The filters at work: a field that holds [None] is compared as the text
    [str] gives for it, a number as its decimal text, a name that is not a
    field as the empty text. *)
Example field_text_samples :
  field_text fund_b "product" = "Fund B"
  /\ field_text fund_b "version" = "1"
  /\ field_text fund_b "reporting_period" = "None"
  /\ field_text fund_b "no_such_field" = "".
Proof. repeat split; reflexivity. Qed.

Example filter_language_keeps :
  QueryEngine._filter_documents [fund_b] (Some filter_language_en) = [fund_b].
Proof. vm_compute. reflexivity. Qed.

(** ** Dictionaries *)

Section DictFacts.
Context {A : Type}.
Implicit Types (d : list (string * A)) (k : string) (v : A).

Lemma dict_get_set_eq k v d : dict_get k (dict_set k v d) = Some v.
Proof.
  induction d as [|[k' v'] r IH]; cbn.
  - now rewrite String.eqb_refl.
  - destruct (String.eqb k k') eqn:E; cbn.
    + now rewrite String.eqb_refl.
    + now rewrite E.
Qed.

Lemma dict_get_set_ne k k' v d :
  k <> k' -> dict_get k' (dict_set k v d) = dict_get k' d.
Proof.
  intros Hne. induction d as [|[k1 v1] r IH]; cbn.
  - apply String.eqb_neq in Hne. rewrite String.eqb_sym in Hne. now rewrite Hne.
  - destruct (String.eqb k k1) eqn:E; cbn.
    + apply String.eqb_eq in E. subst k1.
      apply String.eqb_neq in Hne. rewrite String.eqb_sym in Hne.
      now rewrite Hne.
    + now rewrite IH.
Qed.

(** Assigning to a key that is present keeps the number of entries. *)
Lemma dict_set_length_present k v d :
  is_Some (dict_get k d) -> length (dict_set k v d) = length d.
Proof.
  induction d as [|[k1 v1] r IH]; cbn.
  - intros [x Hx]. discriminate.
  - destruct (String.eqb k k1); cbn; [reflexivity|].
    intros H. now rewrite IH.
Qed.

Lemma leb_refl k : String.leb k k = true.
Proof.
  destruct (String.leb_total k k) as [H|H]; exact H.
Qed.

Lemma dict_get_insert_item k k1 (v1 : A) d :
  dict_get k (insert_item (k1, v1) d)
  = if String.eqb k k1 then Some v1 else dict_get k d.
Proof.
  induction d as [|[k2 v2] r IH]; cbn; [reflexivity|].
  destruct (String.leb k1 k2) eqn:Hle; cbn; [reflexivity|].
  rewrite IH. destruct (String.eqb k k1) eqn:E1; [|reflexivity].
  apply String.eqb_eq in E1. subst k1.
  destruct (String.eqb k k2) eqn:E2; [|reflexivity].
  apply String.eqb_eq in E2. subst k2. rewrite leb_refl in Hle. discriminate.
Qed.

(** Sorting the items changes no lookup. *)
Lemma dict_get_sort_items k d : dict_get k (sort_items d) = dict_get k d.
Proof.
  induction d as [|[k1 v1] r IH]; [reflexivity|].
  cbn [sort_items foldr]. fold (sort_items r).
  rewrite dict_get_insert_item, IH. reflexivity.
Qed.

Lemma insert_item_length (kv : string * A) d :
  length (insert_item kv d) = S (length d).
Proof.
  induction d as [|kv' r IH]; cbn; [reflexivity|].
  destruct (String.leb kv.1 kv'.1); cbn; [reflexivity | now rewrite IH].
Qed.

Lemma sort_items_length d : length (sort_items d) = length d.
Proof.
  induction d as [|kv r IH]; [reflexivity|].
  cbn [sort_items foldr]. fold (sort_items r).
  now rewrite insert_item_length, IH.
Qed.

Lemma insert_item_perm (kv : string * A) d : Permutation (insert_item kv d) (kv :: d).
Proof.
  induction d as [|kv' r IH]; cbn; [reflexivity|].
  destruct (String.leb kv.1 kv'.1); [reflexivity|].
  rewrite IH. apply perm_swap.
Qed.

Lemma sort_items_perm d : Permutation (sort_items d) d.
Proof.
  induction d as [|kv r IH]; [reflexivity|].
  cbn [sort_items foldr]. fold (sort_items r).
  rewrite insert_item_perm. now constructor.
Qed.

End DictFacts.

Lemma dict_get_map {A B} (f : A -> B) (k : string) (d : list (string * A)) :
  dict_get k (map (fun kv => (fst kv, f (snd kv))) d) = f <$> dict_get k d.
Proof.
  induction d as [|[k1 v1] r IH]; cbn; [reflexivity|].
  destruct (String.eqb k k1); [reflexivity | exact IH].
Qed.

(** What a dictionary read back from the store holds under a key. *)
Lemma dict_get_sort_keys (k : string) (m : list (string * json)) :
  get_method (sort_keys (JObj m)) k = Ok (sort_keys <$> dict_get k m).
Proof.
  cbn [sort_keys get_method]. now rewrite dict_get_sort_items, dict_get_map.
Qed.

Lemma sort_keys_scalar (v : scalar) : sort_keys (json_of_scalar v) = json_of_scalar v.
Proof. now destruct v. Qed.

(** ** Dates *)

Lemma digit_value_digit (n : Z) : 0 <= n < 10 -> digit_value (digit n) = Some n.
Proof.
  intros H. unfold digit_value, digit.
  rewrite N_ascii_embedding by lia.
  rewrite Z2N.id by lia.
  destruct (48 <=? 48 + n) eqn:E1; [|lia].
  destruct (48 + n <=? 57) eqn:E2; [|lia].
  cbn. f_equal. lia.
Qed.

Lemma days_in_month_bound (y m : Z) : days_in_month y m <= 31.
Proof.
  unfold days_in_month.
  repeat match goal with |- context [if ?b then _ else _] => destruct b end; lia.
Qed.

(** A date survives [isoformat] and the parse of the store. *)
Lemma parse_date_isoformat (d : date) :
  date_ok d = true -> parse_date (isoformat d) = Some d.
Proof.
  intros Hok. pose proof Hok as Hok'. unfold date_ok in Hok'.
  repeat (apply andb_prop in Hok' as [Hok' ?]).
  destruct d as [y m a]. cbn [year month day] in *.
  pose proof (days_in_month_bound y m).
  unfold isoformat, parse_date. cbn [year month day].
  rewrite !digit_value_digit
    by (Z.to_euclidean_division_equations; lia).
  cbn [Ascii.eqb Bool.eqb andb].
  replace (1000 * (y / 1000) + 100 * (y / 100 mod 10) + 10 * (y / 10 mod 10) + y mod 10)
    with y by (Z.to_euclidean_division_equations; lia).
  replace (10 * (m / 10) + m mod 10) with m by (Z.to_euclidean_division_equations; lia).
  replace (10 * (a / 10) + a mod 10) with a by (Z.to_euclidean_division_equations; lia).
  now rewrite Hok.
Qed.

Lemma parse_date_ok (s : string) (d : date) : parse_date s = Some d -> date_ok d = true.
Proof.
  unfold parse_date.
  repeat (destruct s as [|? s]; try discriminate).
  repeat match goal with
         | |- context [match digit_value ?c with _ => _ end] =>
             destruct (digit_value c); try discriminate
         end.
  match goal with |- context [date_ok ?x] => destruct (date_ok x) eqn:E end;
    rewrite ?andb_false_r; [|discriminate].
  match goal with |- (if ?b then _ else _) = _ -> _ => destruct b end;
    [|discriminate].
  intros H. injection H as <-. exact E.
Qed.

Example isoformat_ex :
  isoformat {| year := 2023; month := 12; day := 31 |} = "2023-12-31"
  /\ parse_date "2023-02-29" = None
  /\ parse_date "2024-02-29" = Some {| year := 2024; month := 2; day := 29 |}.
Proof. repeat split; reflexivity. Qed.

Lemma source_of_str_source_str (s : DocumentSource) : source_of_str (source_str s) = Some s.
Proof. now destruct s. Qed.

(** ** Dumping and validating a request *)

Lemma model_validate_sorted_dump (p : DocumentIngestionRequest) :
  request_ok p = true ->
  model_validate (sort_keys (model_dump_json p)) = Ok p.
Proof.
  intros Hok. unfold model_dump_json. cbn [sort_keys]. unfold model_validate.
  rewrite !dict_get_sort_items, !dict_get_map.
  destruct p as [i t iss pr ty rp l s ver fn u]. unfold request_ok in Hok.
  cbn -[parse_date isoformat] in Hok |- *.
  rewrite source_of_str_source_str.
  destruct i, rp as [d|], u; cbn -[parse_date isoformat];
    rewrite ?parse_date_isoformat by exact Hok; reflexivity.
Qed.

Lemma model_validate_dump (p : DocumentIngestionRequest) :
  request_ok p = true -> model_validate (model_dump_json p) = Ok p.
Proof.
  intros Hok. unfold model_dump_json, model_validate.
  rewrite !dict_get_map.
  destruct p as [i t iss pr ty rp l s ver fn u]. unfold request_ok in Hok.
  cbn -[parse_date isoformat] in Hok |- *.
  rewrite source_of_str_source_str.
  destruct i, rp as [d|], u; cbn -[parse_date isoformat];
    rewrite ?parse_date_isoformat by exact Hok; reflexivity.
Qed.

Lemma optional_date_ok (o : option json) (d : date) :
  optional_date o = Some (Some d) -> date_ok d = true.
Proof.
  destruct o as [[| | |s| |]|]; cbn; try discriminate.
  destruct (parse_date s) as [d'|] eqn:E; cbn; [|discriminate].
  intros H. injection H as <-. exact (parse_date_ok _ _ E).
Qed.

(** A validated request holds dates of the calendar. *)
Lemma model_validate_request_ok (body : json) (p : DocumentIngestionRequest) :
  model_validate body = Ok p -> request_ok p = true.
Proof.
  unfold model_validate. destruct body as [| | | | |m]; try discriminate.
  destruct (optional_date (dict_get "reporting_period" m)) as [rp|] eqn:E.
  - repeat case_match; try discriminate.
    intros Hp. injection Hp as <-. unfold request_ok. cbn.
    destruct rp as [day0|]; [|reflexivity].
    eapply optional_date_ok. exact E.
  - repeat case_match; discriminate.
Qed.

(** The defaults of the schema: a body without the key gets them. *)
Lemma model_validate_defaults (body : json) (p : DocumentIngestionRequest) :
  model_validate body = Ok p ->
  (getitem body "language" = Raise KeyError -> language p = "en")
  /\ (getitem body "source" = Raise KeyError -> source p = upload)
  /\ (getitem body "version" = Raise KeyError -> version p = 1).
Proof.
  unfold model_validate, getitem. destruct body as [| | | | |m]; try discriminate.
  destruct (dict_get "language" m) eqn:El, (dict_get "source" m) eqn:Es,
    (dict_get "version" m) eqn:Ev;
    repeat case_match; try discriminate;
    intros Hp; injection Hp as <-; cbn in *; repeat split; congruence.
Qed.

Lemma set_document_id_same (p : DocumentIngestionRequest) (i : string) :
  document_id p = Some i -> set_document_id p i = p.
Proof. destruct p. cbn. now intros ->. Qed.

Lemma request_ok_set_document_id (p : DocumentIngestionRequest) (i : string) :
  request_ok (set_document_id p i) = request_ok p.
Proof. reflexivity. Qed.

(** ** The registry *)

Lemma stored_entry_sorted (now : string) (p : DocumentIngestionRequest) :
  sort_keys (stored_entry now p)
  = JObj [("created_at", JStr now); ("document", sort_keys (model_dump_json p))].
Proof. reflexivity. Qed.

Lemma register_dict (m : list (string * json)) (f : file_text)
    (now uuid : string) (p : DocumentIngestionRequest) :
  DocumentRegistry._load f = Ok (JObj m) ->
  DocumentRegistry.register f now uuid p
  = Ok (Encoded (sort_keys
                   (JObj (dict_set (assigned_id uuid p)
                            (stored_entry now (set_document_id p (assigned_id uuid p)))
                            m))),
        {| resp_document_id := assigned_id uuid p; resp_status := received;
           received_at := now |}).
Proof.
  intros Hl. unfold DocumentRegistry.register. rewrite Hl. reflexivity.
Qed.

(** Fetching what the store holds under [i]. *)
Lemma get_stored (m : list (string * json)) (i now : string)
    (p : DocumentIngestionRequest) :
  request_ok p = true ->
  dict_get i m = Some (stored_entry now p) ->
  DocumentRegistry.get (Encoded (sort_keys (JObj m))) i = Ok (Some p).
Proof.
  intros Hok Hget. unfold DocumentRegistry.get.
  cbn [DocumentRegistry._load bind]. rewrite dict_get_sort_keys, Hget.
  cbn [fmap option_fmap option_map bind]. rewrite stored_entry_sorted.
  cbn [truthy negb getitem dict_get String.eqb Ascii.eqb Bool.eqb bind].
  rewrite model_validate_sorted_dump by exact Hok. reflexivity.
Qed.

(** C1. Register, then fetch.  For a validated request [r] and a store that
    loads as a dictionary, [register] succeeds and [get] on the identifier it
    returns gives [r] with that identifier as its [document_id] and every
    other field as in [r].  The identifier is the one of [r] when [r] has one
    that is not empty (the fetched request is then [r] itself), and the fresh
    [uuid] otherwise (also when [r] carries the empty text as identifier).
    The defaults of the schema stand in the fetched request for the keys the
    validated body lacks.  The store keeps [created_at] next to the document;
    the fetched request has no such field. *)
Theorem register_then_get (f : file_text) (m : list (string * json))
    (now uuid : string) (body : json) (r : DocumentIngestionRequest) :
  DocumentRegistry._load f = Ok (JObj m) ->
  model_validate body = Ok r ->
  exists f' resp fetched,
    DocumentRegistry.register f now uuid r = Ok (f', resp)
    /\ resp_status resp = received
    /\ received_at resp = now
    /\ DocumentRegistry.get f' (resp_document_id resp) = Ok (Some fetched)
    /\ document_id fetched = Some (resp_document_id resp)
    /\ tenant_id fetched = tenant_id r
    /\ issuer fetched = issuer r
    /\ product fetched = product r
    /\ document_type fetched = document_type r
    /\ reporting_period fetched = reporting_period r
    /\ language fetched = language r
    /\ source fetched = source r
    /\ version fetched = version r
    /\ filename fetched = filename r
    /\ content_url fetched = content_url r
    /\ (forall i, document_id r = Some i -> i <> "" ->
        resp_document_id resp = i /\ fetched = r)
    /\ (document_id r = None \/ document_id r = Some "" ->
        resp_document_id resp = uuid)
    /\ (getitem body "language" = Raise KeyError -> language fetched = "en")
    /\ (getitem body "source" = Raise KeyError -> source fetched = upload)
    /\ (getitem body "version" = Raise KeyError -> version fetched = 1)
    /\ exists data,
         DocumentRegistry._load f' = Ok data
         /\ get_method data (resp_document_id resp)
            = Ok (Some (JObj [("created_at", JStr now);
                              ("document", sort_keys (model_dump_json fetched))])).
Proof.
  intros Hl Hv.
  pose proof (model_validate_request_ok _ _ Hv) as Hok.
  destruct (model_validate_defaults _ _ Hv) as (Dl & Ds & Dv).
  set (i := assigned_id uuid r).
  eexists _, _, (set_document_id r i).
  split; [exact (register_dict m f now uuid r Hl)|].
  cbn [resp_status received_at resp_document_id]. fold i.
  assert (Hsame : forall j, document_id r = Some j -> j <> "" -> i = j).
  { intros j Hj Hne. subst i. unfold assigned_id. rewrite Hj.
    apply is_empty_false in Hne. now rewrite Hne. }
  split; [reflexivity|]. split; [reflexivity|].
  split; [eapply get_stored; [exact Hok | apply dict_get_set_eq]|].
  do 11 (split; [reflexivity|]).
  split.
  { intros j Hj Hne. rewrite (Hsame j Hj Hne). split; [reflexivity|].
    now apply set_document_id_same. }
  split.
  { intros [Hn|Hn]; subst i; unfold assigned_id; now rewrite Hn. }
  split; [exact Dl|]. split; [exact Ds|]. split; [exact Dv|].
  eexists. split; [reflexivity|].
  rewrite dict_get_sort_keys, dict_get_set_eq. reflexivity.
Qed.

(** A request without identifier, registered in a blank store: the response
    names the fresh identifier and the fetched request carries it. *)
Lemma register_then_get_witness :
  DocumentRegistry._load Whitespace = Ok (JObj [])
  /\ model_validate (model_dump_json sample_request) = Ok sample_request
  /\ exists f' resp fetched,
    DocumentRegistry.register Whitespace "2024-01-01T00:00:00" "uuid-1"
      sample_request = Ok (f', resp)
    /\ resp_document_id resp = "uuid-1"
    /\ DocumentRegistry.get f' "uuid-1" = Ok (Some fetched)
    /\ document_id fetched = Some "uuid-1"
    /\ product fetched = "Fund A".
Proof.
  split; [reflexivity|]. split; [reflexivity|].
  destruct (register_then_get Whitespace [] "2024-01-01T00:00:00" "uuid-1"
              (model_dump_json sample_request) sample_request
              eq_refl eq_refl)
    as (f' & resp & fetched & Hr & _ & _ & Hg & Hi & _ & _ & Hp & _ & _ & _
        & _ & _ & _ & _ & _ & Hu & _).
  specialize (Hu (or_introl eq_refl)). rewrite Hu in Hg, Hi.
  exists f', resp, fetched. repeat split; assumption.
Defined.

Example register_sample :
  DocumentRegistry.register Whitespace "2024-01-01T00:00:00" "uuid-1" sample_request
  = Ok (Encoded
          (JObj [("uuid-1",
                  JObj [("created_at", JStr "2024-01-01T00:00:00");
                        ("document",
                         JObj [("content_url", JNull);
                               ("document_id", JStr "uuid-1");
                               ("document_type", JStr "factsheet");
                               ("filename", JStr "fund-a-factsheet.pdf");
                               ("issuer", JStr "Example Asset Manager");
                               ("language", JStr "en");
                               ("product", JStr "Fund A");
                               ("reporting_period", JStr "2023-12-31");
                               ("source", JStr "upload");
                               ("tenant_id", JStr "tenant-123");
                               ("version", JInt 1)])])]),
        {| resp_document_id := "uuid-1"; resp_status := received;
           received_at := "2024-01-01T00:00:00" |}).
Proof. reflexivity. Qed.

(** C5. Registering under an identifier that the store already holds.  For a
    store that loads as a dictionary with an entry under [i], whatever that
    entry is, and a validated request [r] that carries [i] ([i] is not empty:
    the registry files nothing under the empty text, see
    [reachable_ids_not_empty]), [register] files [r]
    under [i] in place of the entry: the store then holds under [i] the entry
    built from [r] alone, [get] on [i] gives [r], the number of entries is
    the same and the other entries are as they were. *)
Theorem register_overwrites (f : file_text) (m : list (string * json))
    (old : json) (now uuid i : string) (body : json)
    (r : DocumentIngestionRequest) :
  DocumentRegistry._load f = Ok (JObj m) ->
  dict_get i m = Some old ->
  model_validate body = Ok r ->
  document_id r = Some i ->
  i <> "" ->
  exists f' resp data',
    DocumentRegistry.register f now uuid r = Ok (f', resp)
    /\ resp_document_id resp = i
    /\ DocumentRegistry._load f' = Ok data'
    /\ get_method data' i = Ok (Some (sort_keys (stored_entry now r)))
    /\ DocumentRegistry.get f' i = Ok (Some r)
    /\ dict_size data' = dict_size (JObj m)
    /\ forall j, j <> i ->
         get_method data' j = Ok (sort_keys <$> dict_get j m).
Proof.
  intros Hl Hold Hv Hi Hne.
  pose proof (model_validate_request_ok _ _ Hv) as Hok.
  assert (Ha : assigned_id uuid r = i).
  { unfold assigned_id. rewrite Hi. apply is_empty_false in Hne. now rewrite Hne. }
  eexists _, _, _. split; [exact (register_dict m f now uuid r Hl)|].
  rewrite Ha, (set_document_id_same r i Hi).
  cbn [resp_document_id DocumentRegistry._load].
  split; [reflexivity|]. split; [reflexivity|].
  split; [now rewrite dict_get_sort_keys, dict_get_set_eq|].
  split; [eapply get_stored; [exact Hok | apply dict_get_set_eq]|].
  split.
  - cbn [sort_keys dict_size].
    rewrite sort_items_length, length_map. apply dict_set_length_present.
    rewrite Hold. eauto.
  - intros j Hj. rewrite dict_get_sort_keys, dict_get_set_ne by congruence.
    reflexivity.
Qed.

(** The same request with another period, filed under the identifier of
    [fund_b]. *)
Lemma register_overwrites_witness :
  dict_get "d-1" [("d-1", stored_entry "2024-01-01T00:00:00" sample_request)]
  = Some (stored_entry "2024-01-01T00:00:00" sample_request)
  /\ model_validate (model_dump_json fund_b) = Ok fund_b
  /\ document_id fund_b = Some "d-1"
  /\ exists f' resp,
    DocumentRegistry.register
      (Encoded (JObj [("d-1", stored_entry "2024-01-01T00:00:00" sample_request)]))
      "2024-02-02T00:00:00" "uuid-2" fund_b = Ok (f', resp)
    /\ DocumentRegistry.get f' "d-1" = Ok (Some fund_b).
Proof.
  split; [reflexivity|]. split; [reflexivity|]. split; [reflexivity|].
  destruct (register_overwrites
              (Encoded (JObj [("d-1", stored_entry "2024-01-01T00:00:00" sample_request)]))
              [("d-1", stored_entry "2024-01-01T00:00:00" sample_request)]
              (stored_entry "2024-01-01T00:00:00" sample_request)
              "2024-02-02T00:00:00" "uuid-2" "d-1"
              (model_dump_json fund_b) fund_b
              eq_refl eq_refl eq_refl eq_refl ltac:(discriminate))
    as (f' & resp & data' & Hr & _ & _ & _ & Hg & _).
  exists f', resp. split; [exact Hr | exact Hg].
Defined.

(** ** A store that does not parse *)

(** C8, as the specification states it, fails: content that does not parse
    is not always read as the empty dictionary.  [_load] catches
    [JSONDecodeError] only.  On a file whose bytes are no text in the
    encoding, [read_text] raises [UnicodeDecodeError], which no operation of
    the registry catches: [_load], [get], [list] and [register] raise it. *)
Lemma unreadable_store_raises :
  malformed (Unreadable UnicodeDecodeError) = true
  /\ DocumentRegistry._load (Unreadable UnicodeDecodeError)
     = Raise UnicodeDecodeError
  /\ DocumentRegistry._load (Unreadable UnicodeDecodeError) <> Ok (JObj [])
  /\ DocumentRegistry.get (Unreadable UnicodeDecodeError) "d-1"
     = Raise UnicodeDecodeError
  /\ DocumentRegistry.list (Unreadable UnicodeDecodeError)
     = Raise UnicodeDecodeError
  /\ DocumentRegistry.register (Unreadable UnicodeDecodeError)
       "2024-01-01T00:00:00" "uuid-1" sample_request
     = Raise UnicodeDecodeError.
Proof. repeat split; try reflexivity. discriminate. Qed.

(** C8, amended.  A store file whose content is a text that is no JSON
    document (it is blank, or [json.loads] raises [JSONDecodeError] on it) is
    read as the empty dictionary by every operation of the registry, and none
    of them raises: [_load] gives the empty dictionary, [get] finds nothing,
    [list] is empty, and [register] does what it does on an empty store: it
    succeeds and leaves a store of one entry, the new one, so that the next
    read finds a dictionary. *)
Theorem not_json_store_is_empty (f : file_text) (now uuid i : string)
    (r : DocumentIngestionRequest) :
  not_json f = true ->
  DocumentRegistry._load f = Ok (JObj [])
  /\ DocumentRegistry.get f i = Ok None
  /\ DocumentRegistry.list f = Ok []
  /\ DocumentRegistry.register f now uuid r
     = DocumentRegistry.register (Encoded (JObj [])) now uuid r
  /\ exists f' resp,
       DocumentRegistry.register f now uuid r = Ok (f', resp)
       /\ DocumentRegistry._load f'
          = Ok (JObj [(resp_document_id resp,
                       sort_keys (stored_entry now
                         (set_document_id r (resp_document_id resp))))]).
Proof.
  intros Hm. destruct f; try discriminate;
    (repeat split; try reflexivity; eexists _, _; split; reflexivity).
Qed.

Lemma not_json_store_is_empty_witness :
  not_json Undecodable = true
  /\ DocumentRegistry.get Undecodable "d-1" = Ok None
  /\ DocumentRegistry.list Undecodable = Ok [].
Proof.
  split; [reflexivity|].
  destruct (not_json_store_is_empty Undecodable "2024-01-01T00:00:00"
              "uuid-1" "d-1" sample_request eq_refl)
    as (_ & Hg & Hl & _).
  split; [exact Hg | exact Hl].
Defined.

(** An exception of the read other than [JSONDecodeError] gets through
    [_load] and through every operation that loads the store. *)
Lemma unreadable_store_propagates (e : exn) (now uuid i : string)
    (r : DocumentIngestionRequest) (elapsed : Z) (payload : QueryRequest) :
  DocumentRegistry._load (Unreadable e) = Raise e
  /\ DocumentRegistry.get (Unreadable e) i = Raise e
  /\ DocumentRegistry.list (Unreadable e) = Raise e
  /\ DocumentRegistry.register (Unreadable e) now uuid r = Raise e
  /\ QueryEngine.answer (Unreadable e) elapsed payload = Raise e
  /\ ComplianceService.list_alerts (Unreadable e) now = Raise e
  /\ DocumentRegistry.clear (Unreadable e) = Encoded (JObj []).
Proof. repeat split; reflexivity. Qed.

(** A text that parses is returned by [_load] as it is, a dictionary or not:
    on a JSON array the operations of the registry raise. *)
Example store_of_array :
  DocumentRegistry._load (Encoded (JList [])) = Ok (JList [])
  /\ DocumentRegistry.get (Encoded (JList [])) "d-1" = Raise AttributeError
  /\ DocumentRegistry.list (Encoded (JList [])) = Raise AttributeError
  /\ DocumentRegistry.register (Encoded (JList [])) "2024-01-01T00:00:00"
       "uuid-1" sample_request = Raise TypeError.
Proof. repeat split; reflexivity. Qed.

(** ** The stores the registry writes *)

Lemma sort_keys_stored_entry (now : string) (p : DocumentIngestionRequest) :
  sort_keys (sort_keys (stored_entry now p)) = sort_keys (stored_entry now p).
Proof.
  destruct p as [i t iss pr ty rp l s ver fn u].
  destruct i, rp, u; reflexivity.
Qed.

Lemma Forall_dict_set {A} (P : string * A -> Prop) (k : string) (v : A)
    (d : list (string * A)) :
  P (k, v) -> Forall P d -> Forall P (dict_set k v d).
Proof.
  intros Hk Hd. induction Hd as [|[k' v'] r Hx Hr IH]; cbn.
  - now constructor.
  - destruct (String.eqb k k'); constructor; assumption.
Qed.

Lemma assigned_id_not_empty (uuid : string) (p : DocumentIngestionRequest) :
  uuid <> "" -> assigned_id uuid p <> "".
Proof.
  intros Hu. unfold assigned_id. destruct (document_id p) as [i|]; [|exact Hu].
  destruct (PyStr.is_empty i) eqn:E; [exact Hu|]. now apply is_empty_false.
Qed.

Lemma well_kept_register (f f' : file_text) (now uuid : string)
    (r : DocumentIngestionRequest) (resp : DocumentIngestionResponse) :
  well_kept f -> uuid <> "" -> request_ok r = true ->
  DocumentRegistry.register f now uuid r = Ok (f', resp) ->
  well_kept f'.
Proof.
  intros (m & -> & Hm) Hu Hok Hr.
  rewrite (register_dict m (Encoded (JObj m)) now uuid r eq_refl) in Hr.
  injection Hr as <- _. cbn [sort_keys]. eexists. split; [reflexivity|].
  rewrite sort_items_perm. apply Forall_map.
  apply Forall_dict_set.
  - split; [now apply assigned_id_not_empty|].
    exists now, (set_document_id r (assigned_id uuid r)).
    repeat split. exact Hok.
  - eapply Forall_impl; [exact Hm|].
    intros [k v] (Hk & now' & p & Hp & Hi & Hv). cbn [fst snd] in *.
    split; [exact Hk|]. exists now', p. repeat split; try assumption.
    rewrite Hv. apply sort_keys_stored_entry.
Qed.

Lemma well_kept_empty : well_kept (Encoded (JObj [])).
Proof. exists []. split; [reflexivity | constructor]. Qed.

Lemma reachable_well_kept (f : file_text) : reachable f -> well_kept f.
Proof.
  induction 1 as [|f _ _|f now uuid body r f' resp _ IH Hu Hv Hr].
  - exact well_kept_empty.
  - exact well_kept_empty.
  - eapply well_kept_register; eauto using model_validate_request_ok.
Qed.

Lemma kept_entry_decodes (kv : string * json) :
  kept_entry kv ->
  exists p, (try! d := getitem (snd kv) "document" in model_validate d) = Ok p
            /\ document_id p = Some (fst kv).
Proof.
  intros (_ & now & p & Hok & Hi & ->). exists p. split; [|exact Hi].
  rewrite stored_entry_sorted. cbn [getitem dict_get String.eqb Ascii.eqb Bool.eqb bind].
  now apply model_validate_sorted_dump.
Qed.

(** A store the registry wrote lists without an exception, one request for
    each entry. *)
Lemma well_kept_list (f : file_text) :
  well_kept f ->
  exists documents m,
    DocumentRegistry._load f = Ok (JObj m)
    /\ DocumentRegistry.list f = Ok documents
    /\ length documents = length m.
Proof.
  intros (m & -> & Hm). unfold DocumentRegistry.list.
  cbn [DocumentRegistry._load values_method bind dict_size]. unfold dict_values.
  induction Hm as [|kv r Hkv Hr (docs & m' & Hm' & IH & Hlen)]; cbn [map for_each].
  - exists [], []. repeat split; reflexivity.
  - destruct (kept_entry_decodes kv Hkv) as (p & Hp & _).
    injection Hm' as <-.
    exists (p :: docs), (kv :: r). rewrite Hp. cbn [bind]. rewrite IH. cbn [bind].
    split; [reflexivity|]. split; [reflexivity|]. cbn. now rewrite Hlen.
Qed.

(** In every state the registry gets to, [list] returns. *)
Theorem reachable_list (f : file_text) :
  reachable f -> exists documents, DocumentRegistry.list f = Ok documents.
Proof.
  intros H.
  destruct (well_kept_list f (reachable_well_kept f H)) as (d & m & _ & Hd & _).
  eauto.
Qed.

Lemma reachable_is_dict (f : file_text) :
  reachable f -> exists m, DocumentRegistry._load f = Ok (JObj m).
Proof.
  intros H. destruct (reachable_well_kept f H) as (m & -> & _). now exists m.
Qed.

Lemma dict_get_elem_of {A} (k : string) (v : A) (d : list (string * A)) :
  dict_get k d = Some v -> (k, v) ∈ d.
Proof.
  induction d as [|[k' v'] r IH]; cbn; [discriminate|].
  destruct (String.eqb k k') eqn:E.
  - apply String.eqb_eq in E. subst k'. intros Hv. injection Hv as ->. constructor.
  - intros Hv. constructor. now apply IH.
Qed.

(** The registry files nothing under the empty text. *)
Lemma reachable_ids_not_empty (f : file_text) (data : json) (i : string)
    (old : json) :
  reachable f ->
  DocumentRegistry._load f = Ok data ->
  get_method data i = Ok (Some old) ->
  i <> "".
Proof.
  intros H Hl Hg. destruct (reachable_well_kept f H) as (m & -> & Hm).
  injection Hl as <-.
  cbn in Hg. injection Hg as Hg. apply dict_get_elem_of in Hg.
  rewrite Forall_forall in Hm. exact (proj1 (Hm _ Hg)).
Qed.

(** ** Compliance alerts *)

Lemma language_verified_iff (document : DocumentIngestionRequest) :
  ComplianceService.language_verified document = false <-> unverified document.
Proof.
  unfold ComplianceService.language_verified, unverified,
    ComplianceService.verified_languages.
  rewrite <- not_true_iff_false, existsb_exists. split.
  - intros H Hin. apply H. exists (PyStr.lower (language document)).
    split; [now apply list_elem_of_In | apply String.eqb_refl].
  - intros H (x & Hin & Hx). apply String.eqb_eq in Hx. subst x.
    apply H. now apply list_elem_of_In.
Qed.

Lemma of_rule_app (rule : string) (l1 l2 : list ComplianceAlert) :
  of_rule rule (l1 ++ l2) = of_rule rule l1 ++ of_rule rule l2.
Proof. apply filter_app. Qed.

(** The alerts of one document, rule by rule. *)
Lemma document_alerts_by_rule (now : string) (document : DocumentIngestionRequest) :
  of_rule "missing_reporting_period" (ComplianceService.document_alerts now document)
  = (if decide (reporting_period document = None)
     then [ComplianceService.missing_period_alert now document] else [])
  /\ of_rule "unverified_language" (ComplianceService.document_alerts now document)
     = (if decide (unverified document)
        then [ComplianceService.language_alert now document] else []).
Proof.
  unfold ComplianceService.document_alerts.
  destruct (decide (unverified document)) as [Hu|Hu].
  - rewrite (proj2 (language_verified_iff document) Hu).
    destruct (reporting_period document); split; reflexivity.
  - destruct (ComplianceService.language_verified document) eqn:E.
    + destruct (reporting_period document); split; reflexivity.
    + apply language_verified_iff in E. contradiction.
Qed.

Lemma document_alerts_cases (now : string) (document : DocumentIngestionRequest) :
  ComplianceService.document_alerts now document
  = (if decide (reporting_period document = None)
     then [ComplianceService.missing_period_alert now document] else [])
    ++ (if decide (unverified document)
        then [ComplianceService.language_alert now document] else []).
Proof.
  unfold ComplianceService.document_alerts. f_equal.
  - now destruct (reporting_period document).
  - destruct (decide (unverified document)) as [Hu|Hu].
    + now rewrite (proj2 (language_verified_iff document) Hu).
    + destruct (ComplianceService.language_verified document) eqn:E; [reflexivity|].
      apply language_verified_iff in E. contradiction.
Qed.

Lemma of_rule_flat_map_missing (now : string) (documents : list DocumentIngestionRequest) :
  length (of_rule "missing_reporting_period"
            (flat_map (ComplianceService.document_alerts now) documents))
  = length (filter (fun d => reporting_period d = None) documents).
Proof.
  induction documents as [|d l IH]; [reflexivity|].
  cbn [flat_map]. rewrite of_rule_app, length_app, IH.
  rewrite (proj1 (document_alerts_by_rule now d)).
  destruct (decide (reporting_period d = None)) as [H|H].
  - now rewrite filter_cons_True by exact H.
  - now rewrite filter_cons_False by exact H.
Qed.

Lemma of_rule_flat_map_language (now : string) (documents : list DocumentIngestionRequest) :
  length (of_rule "unverified_language"
            (flat_map (ComplianceService.document_alerts now) documents))
  = length (filter unverified documents).
Proof.
  induction documents as [|d l IH]; [reflexivity|].
  cbn [flat_map]. rewrite of_rule_app, length_app, IH.
  rewrite (proj2 (document_alerts_by_rule now d)).
  destruct (decide (unverified d)) as [H|H].
  - now rewrite filter_cons_True by exact H.
  - now rewrite filter_cons_False by exact H.
Qed.

(** C4. [list_alerts] on the documents the registry lists.  The alerts are,
    document after document, one [missing_reporting_period] alert of severity
    medium if the document has no reporting period and one
    [unverified_language] alert of severity low if its language, in lower
    case, is none of en, es, fr, de, it, zh; a document with both faults has
    exactly these two alerts.  So each rule has as many alerts as there are
    documents at fault.  Every alert has the status [new], no assignee and
    the time of the evaluation.  Its identifier is the identifier of the
    document (the text None for a document without one) followed by
    [-missing-reporting-period] or [-unverified-language]: it is fixed by the
    document's identifier and the rule, and differs for documents with
    different identifiers.  [total] is the length of the list. *)
Theorem list_alerts_rule (f : file_text) (now : string)
    (documents : list DocumentIngestionRequest) :
  DocumentRegistry.list f = Ok documents ->
  exists result,
    ComplianceService.list_alerts f now = Ok result
    /\ total result = Z.of_nat (length (alerts result))
    /\ alerts result
       = flat_map
           (fun d =>
              (if decide (reporting_period d = None)
               then [ComplianceService.missing_period_alert now d] else [])
              ++ (if decide (unverified d)
                  then [ComplianceService.language_alert now d] else []))
           documents
    /\ length (of_rule "missing_reporting_period" (alerts result))
       = length (filter (fun d => reporting_period d = None) documents)
    /\ length (of_rule "unverified_language" (alerts result))
       = length (filter unverified documents)
    /\ (forall d, reporting_period d = None -> unverified d ->
        ComplianceService.document_alerts now d
        = [ComplianceService.missing_period_alert now d;
           ComplianceService.language_alert now d])
    /\ (forall d,
          let a := ComplianceService.missing_period_alert now d in
          let b := ComplianceService.language_alert now d in
          rule_id a = "missing_reporting_period" /\ severity a = medium
          /\ status a = new /\ assignee a = None /\ created_at a = now
          /\ rule_id b = "unverified_language" /\ severity b = low
          /\ status b = new /\ assignee b = None /\ created_at b = now)
    /\ (forall d,
          let id := match document_id d with Some i => i | None => "None" end in
          alert_id (ComplianceService.missing_period_alert now d)
          = id +:+ "-missing-reporting-period"
          /\ alert_id (ComplianceService.language_alert now d)
             = id +:+ "-unverified-language"
          /\ alert_document_id (ComplianceService.missing_period_alert now d)
             = alert_document_id (ComplianceService.language_alert now d)
          /\ alert_document_id (ComplianceService.language_alert now d)
             = match document_id d with
               | Some i => if PyStr.is_empty i then "unknown" else i
               | None => "unknown"
               end)
    /\ (forall now' d d',
          document_id d = document_id d' ->
          alert_id (ComplianceService.missing_period_alert now d)
          = alert_id (ComplianceService.missing_period_alert now' d')
          /\ alert_id (ComplianceService.language_alert now d)
             = alert_id (ComplianceService.language_alert now' d'))
    /\ (forall i i' d d',
          document_id d = Some i -> document_id d' = Some i' -> i <> i' ->
          alert_id (ComplianceService.missing_period_alert now d)
          <> alert_id (ComplianceService.missing_period_alert now d')
          /\ alert_id (ComplianceService.language_alert now d)
             <> alert_id (ComplianceService.language_alert now d')).
Proof.
  intros Hl. unfold ComplianceService.list_alerts. rewrite Hl. cbn [bind].
  eexists. split; [reflexivity|]. cbn [alerts total].
  split; [reflexivity|].
  split.
  { induction documents as [|d l IH] in |- *; [reflexivity|].
    cbn [flat_map]. now rewrite document_alerts_cases, IH. }
  split; [apply of_rule_flat_map_missing|].
  split; [apply of_rule_flat_map_language|].
  split.
  { intros d Hp Hu. rewrite document_alerts_cases.
    destruct (decide (reporting_period d = None)); [|contradiction].
    destruct (decide (unverified d)); [reflexivity | contradiction]. }
  split.
  { intros d. repeat split. }
  split.
  { intros d. cbn zeta.
    unfold ComplianceService.missing_period_alert, ComplianceService.language_alert,
      ComplianceService.id_text, ComplianceService.id_or_unknown.
    cbn [alert_id alert_document_id].
    destruct (document_id d); repeat split. }
  split.
  { intros now' d d' Hid.
    unfold ComplianceService.missing_period_alert, ComplianceService.language_alert,
      ComplianceService.id_text. cbn [alert_id]. now rewrite Hid. }
  intros i i' d d' Hi Hi' Hne.
  unfold ComplianceService.missing_period_alert, ComplianceService.language_alert,
    ComplianceService.id_text. cbn [alert_id]. rewrite Hi, Hi'. cbn [opt_str py_str].
  split; intros H; apply append_cancel_r in H; contradiction.
Qed.

Lemma list_alerts_rule_witness :
  DocumentRegistry.list
    (Encoded (JObj [("d-2", sort_keys (stored_entry "2024-01-01T00:00:00" unverified_draft))]))
  = Ok [unverified_draft]
  /\ exists result,
       ComplianceService.list_alerts
         (Encoded (JObj [("d-2", sort_keys (stored_entry "2024-01-01T00:00:00" unverified_draft))]))
         "2024-03-03T00:00:00" = Ok result
       /\ total result = 2
       /\ alert_id <$> alerts result
          = ["d-2-missing-reporting-period"; "d-2-unverified-language"].
Proof.
  split; [reflexivity|].
  destruct (list_alerts_rule
              (Encoded (JObj [("d-2", sort_keys (stored_entry "2024-01-01T00:00:00" unverified_draft))]))
              "2024-03-03T00:00:00" [unverified_draft] eq_refl)
    as (result & Hr & Ht & Ha & _).
  exists result. split; [exact Hr|]. rewrite Ht, Ha. split; reflexivity.
Defined.

(** The scenario of the test suite: a document in English without a
    reporting period yields the one alert. *)
Example alerts_of_fund_b :
  ComplianceService.document_alerts "2024-03-03T00:00:00" fund_b
  = [ {| alert_id := "d-1-missing-reporting-period";
         alert_document_id := "d-1";
         rule_id := "missing_reporting_period";
         severity := medium; status := new;
         summary := "Document metadata is missing a reporting period.";
         created_at := "2024-03-03T00:00:00"; assignee := None |} ].
Proof. reflexivity. Qed.

(** ** Ranking *)

Lemma insert_match_perm (x : DocumentIngestionRequest * Q)
    (l : list (DocumentIngestionRequest * Q)) :
  Permutation (QueryEngine.insert_match x l) (x :: l).
Proof.
  induction l as [|y r IH]; cbn; [reflexivity|].
  destruct (Qle_bool (snd y) (snd x)); [reflexivity|].
  rewrite IH. apply perm_swap.
Qed.

Lemma sort_matches_perm (l : list (DocumentIngestionRequest * Q)) :
  Permutation (QueryEngine.sort_matches l) l.
Proof.
  induction l as [|x r IH]; [reflexivity|].
  cbn [QueryEngine.sort_matches foldr]. fold (QueryEngine.sort_matches r).
  rewrite insert_match_perm. now constructor.
Qed.

Lemma insert_match_descending (x : DocumentIngestionRequest * Q)
    (l : list (DocumentIngestionRequest * Q)) :
  descending l -> descending (QueryEngine.insert_match x l).
Proof.
  unfold descending. induction 1 as [|y r Hr IH Hy]; cbn.
  - repeat constructor.
  - destruct (Qle_bool (snd y) (snd x)) eqn:E.
    + apply Qle_bool_iff in E. constructor; [now constructor|].
      constructor; [exact E|].
      eapply Forall_impl; [exact Hy|]. intros z Hz. cbn in Hz |- *.
      now apply Qle_trans with (snd y).
    + constructor; [exact IH|].
      rewrite (insert_match_perm x r). constructor; [|exact Hy].
      apply Qlt_le_weak, Qlt_bool_iff. unfold Qlt_bool. now rewrite E.
Qed.

Lemma sort_matches_descending (l : list (DocumentIngestionRequest * Q)) :
  descending (QueryEngine.sort_matches l).
Proof.
  induction l as [|x r IH]; [constructor|].
  cbn [QueryEngine.sort_matches foldr]. fold (QueryEngine.sort_matches r).
  now apply insert_match_descending.
Qed.

Lemma descending_take (n : nat) (l : list (DocumentIngestionRequest * Q)) :
  descending l -> descending (take n l).
Proof.
  unfold descending. intros H. revert n.
  induction H as [|x r Hr IH Hx]; intros [|n]; cbn; try constructor.
  - apply IH.
  - rewrite Forall_forall in Hx |- *. intros y Hy. apply Hx.
    eapply subseteq_take. exact Hy.
Qed.

Lemma slice_to_take {A} (l : list A) (n : Z) :
  0 <= n -> slice_to l n = take (Z.to_nat n) l.
Proof. intros H. unfold slice_to. destruct (n <? 0) eqn:E; [lia | reflexivity]. Qed.

Lemma slice_to_subseteq {A} (l : list A) (n : Z) : slice_to l n ⊆ l.
Proof. unfold slice_to. destruct (n <? 0); apply subseteq_take. Qed.

(** *** Rounding *)

Lemma round_half_even_cases (x : Q) :
  round_half_even x = Qfloor x \/ round_half_even x = Qfloor x + 1.
Proof.
  unfold round_half_even.
  destruct (Qcompare _ _); [destruct (Z.even _)|..]; auto.
Qed.

Lemma round_half_even_mono (x y : Q) :
  (x <= y)%Q -> round_half_even x <= round_half_even y.
Proof.
  intros Hxy. pose proof (Qfloor_resp_le _ _ Hxy) as Hf.
  destruct (Z.eq_dec (Qfloor x) (Qfloor y)) as [E|E].
  - unfold round_half_even. rewrite <- E.
    assert (Hr : (x - inject_Z (Qfloor x) <= y - inject_Z (Qfloor x))%Q).
    { apply Qplus_le_compat; [exact Hxy | apply Qle_refl]. }
    destruct (Qcompare (x - inject_Z (Qfloor x)) (1 # 2)) eqn:Cx;
      destruct (Qcompare (y - inject_Z (Qfloor x)) (1 # 2)) eqn:Cy;
      try (destruct (Z.even (Qfloor x))); try lia;
      repeat match goal with
             | H : Qcompare _ _ = Eq |- _ => apply Qeq_alt in H
             | H : Qcompare _ _ = Lt |- _ => apply Qlt_alt in H
             | H : Qcompare _ _ = Gt |- _ => apply Qgt_alt in H
             end;
      exfalso; lra.
  - destruct (round_half_even_cases x) as [-> | ->];
      destruct (round_half_even_cases y) as [-> | ->]; lia.
Qed.

Lemma round_half_even_comp (x y : Q) :
  (x == y)%Q -> round_half_even x = round_half_even y.
Proof.
  intros H. unfold round_half_even. rewrite (Qfloor_comp _ _ H).
  now rewrite H.
Qed.

Lemma round_half_even_Z (z : Z) : round_half_even (inject_Z z) = z.
Proof.
  unfold round_half_even. rewrite Qfloor_Z.
  assert (H : (inject_Z z - inject_Z z == 0)%Q) by ring.
  now rewrite H.
Qed.

(** *** Powers of two *)

Lemma pow2_pos (e : Z) : (0 < pow2 e)%Q.
Proof. apply Qpower_0_lt. reflexivity. Qed.

Lemma pow2_add (a b : Z) : (pow2 (a + b) == pow2 a * pow2 b)%Q.
Proof. apply Qpower_plus. discriminate. Qed.

Lemma pow2_le (a b : Z) : a <= b -> (pow2 a <= pow2 b)%Q.
Proof. intros H. apply Qpower_le_compat_l; [exact H | discriminate]. Qed.

Lemma pow2_lt_inv (a b : Z) : (pow2 a < pow2 b)%Q -> a < b.
Proof. intros H. eapply Qpower_lt_compat_l_inv; [exact H | reflexivity]. Qed.

Lemma pow2_inject (e : Z) : 0 <= e -> (pow2 e == inject_Z (2 ^ e))%Q.
Proof. intros H. unfold pow2. now rewrite Zpower_Qpower. Qed.

(** A power of two is a multiple of every smaller one. *)
Lemma pow2_multiple (a b : Z) :
  a <= b -> (pow2 b == inject_Z (2 ^ (b - a)) * pow2 a)%Q.
Proof.
  intros H. rewrite <- pow2_inject by lia. rewrite <- pow2_add.
  now replace (b - a + a) with b by lia.
Qed.

(** A positive integer lies between two powers of two. *)
Lemma log2_bounds (n : Z) :
  0 < n ->
  (pow2 (Z.log2 n) <= inject_Z n)%Q /\ (inject_Z n < pow2 (Z.log2 n + 1))%Q.
Proof.
  intros Hn. pose proof (Z.log2_spec n Hn) as [Hlo Hhi].
  pose proof (Z.log2_nonneg n) as H0.
  rewrite !pow2_inject by lia. rewrite <- Zle_Qle, <- Zlt_Qlt.
  split; [exact Hlo|]. now rewrite <- Z.add_1_r in Hhi.
Qed.

(** [binade] is the exponent of the power of two at or below [x]. *)
Lemma binade_spec (x : Q) :
  (0 < x)%Q -> (pow2 (binade x) <= x)%Q /\ (x < pow2 (binade x + 1))%Q.
Proof.
  intros Hx. destruct x as [n d].
  assert (Hn : 0 < n) by (unfold Qlt in Hx; cbn in Hx; lia).
  destruct (log2_bounds n Hn) as [Nlo Nhi].
  destruct (log2_bounds (Zpos d) (Pos2Z.is_pos d)) as [Dlo Dhi].
  unfold binade. cbn [Qnum Qden].
  set (a := Z.log2 n) in *. set (b := Z.log2 (Zpos d)) in *.
  assert (Hxd : (inject_Z n == (n # d) * inject_Z (Zpos d))%Q).
  { unfold Qeq, Qmult, inject_Z. cbn. lia. }
  assert (Hup : ((n # d) < pow2 (a - b + 1))%Q).
  { apply (Qmult_lt_r _ _ (pow2 b) (pow2_pos b)).
    rewrite <- pow2_add. replace (a - b + 1 + b) with (a + 1) by lia.
    apply Qle_lt_trans with (inject_Z n); [|exact Nhi].
    rewrite Hxd. apply Qmult_le_l; [exact Hx | exact Dlo]. }
  assert (Hlo : (pow2 (a - b - 1) < (n # d))%Q).
  { apply (Qmult_lt_r _ _ (pow2 (b + 1)) (pow2_pos (b + 1))).
    rewrite <- pow2_add. replace (a - b - 1 + (b + 1)) with a by lia.
    apply Qle_lt_trans with (inject_Z n); [exact Nlo|].
    rewrite Hxd. apply Qmult_lt_l; [exact Hx | exact Dhi]. }
  destruct (Qlt_bool (n # d) (pow2 (a - b))) eqn:E.
  - apply Qlt_bool_iff in E. replace (a - b - 1 + 1) with (a - b) by lia.
    split; [now apply Qlt_le_weak | exact E].
  - apply Qlt_bool_false in E. split; [exact E | exact Hup].
Qed.

Lemma binade_mono (x y : Q) :
  (0 < x)%Q -> (x <= y)%Q -> binade x <= binade y.
Proof.
  intros Hx Hxy.
  destruct (binade_spec x Hx) as [Xlo _].
  destruct (binade_spec y (Qlt_le_trans _ _ _ Hx Hxy)) as [_ Yhi].
  assert (H : (pow2 (binade x) < pow2 (binade y + 1))%Q).
  { eapply Qle_lt_trans; [exact Xlo|]. eapply Qle_lt_trans; [exact Hxy | exact Yhi]. }
  apply pow2_lt_inv in H. lia.
Qed.

(** *** The nearest multiple of a unit *)

Lemma grid_le (u x : Q) (k : Z) :
  (0 < u)%Q -> (x <= inject_Z k * u)%Q ->
  (inject_Z (round_half_even (x / u)) * u <= inject_Z k * u)%Q.
Proof.
  intros Hu H. apply Qmult_le_r; [exact Hu|]. rewrite <- Zle_Qle.
  rewrite <- (round_half_even_Z k). apply round_half_even_mono.
  apply Qle_shift_div_r; assumption.
Qed.

Lemma grid_ge (u x : Q) (k : Z) :
  (0 < u)%Q -> (inject_Z k * u <= x)%Q ->
  (inject_Z k * u <= inject_Z (round_half_even (x / u)) * u)%Q.
Proof.
  intros Hu H. apply Qmult_le_r; [exact Hu|]. rewrite <- Zle_Qle.
  rewrite <- (round_half_even_Z k) at 1. apply round_half_even_mono.
  apply Qle_shift_div_l; assumption.
Qed.

Lemma grid_mono (u x y : Q) :
  (0 < u)%Q -> (x <= y)%Q ->
  (inject_Z (round_half_even (x / u)) * u
   <= inject_Z (round_half_even (y / u)) * u)%Q.
Proof.
  intros Hu H. apply Qmult_le_r; [exact Hu|]. rewrite <- Zle_Qle.
  apply round_half_even_mono.
  apply Qmult_le_r; [now apply Qinv_lt_0_compat | exact H].
Qed.

(** *** The nearest double *)

(** Rounding to the nearest double keeps the order.  Within one binade the
    doubles are the multiples of one unit; between two binades lies a power
    of two, which is a double. *)
Lemma nearest_double_mono (x y : Q) :
  (0 < x)%Q -> (x <= y)%Q -> (nearest_double x <= nearest_double y)%Q.
Proof.
  intros Hx Hxy. pose proof (Qlt_le_trans _ _ _ Hx Hxy) as Hy.
  pose proof (binade_mono x y Hx Hxy) as Hb.
  unfold nearest_double.
  destruct (Z.eq_dec (Z.max (binade x - 52) (-1074)) (Z.max (binade y - 52) (-1074)))
    as [E|E].
  - rewrite E. apply grid_mono; [apply pow2_pos | exact Hxy].
  - set (ex := Z.max (binade x - 52) (-1074)) in *.
    set (ey := Z.max (binade y - 52) (-1074)) in *.
    assert (Hey : ey = binade y - 52 /\ ex < ey /\ binade x < binade y) by lia.
    destruct Hey as (Hey & Hlt & Hbl).
    destruct (binade_spec x Hx) as [_ Xhi].
    destruct (binade_spec y Hy) as [Ylo _].
    assert (Hxp : (x <= pow2 (binade y))%Q).
    { apply Qlt_le_weak. eapply Qlt_le_trans; [exact Xhi|]. apply pow2_le. lia. }
    apply Qle_trans with (pow2 (binade y)).
    + rewrite (pow2_multiple ex (binade y)) by lia.
      apply grid_le; [apply pow2_pos|].
      rewrite <- (pow2_multiple ex (binade y)) by lia. exact Hxp.
    + rewrite (pow2_multiple ey (binade y)) at 1 by lia.
      apply grid_ge; [apply pow2_pos|].
      rewrite <- (pow2_multiple ey (binade y)) by lia. exact Ylo.
Qed.

Lemma to_double_mono (x y : Q) :
  (0 < x)%Q -> (x <= y)%Q -> (to_double x <= to_double y)%Q.
Proof.
  intros Hx Hxy. pose proof (Qlt_le_trans _ _ _ Hx Hxy) as Hy.
  unfold to_double.
  rewrite (proj1 (Qgt_alt x 0) Hx), (proj1 (Qgt_alt y 0) Hy).
  now apply nearest_double_mono.
Qed.

(** The floats of the literals of the scoring rule. *)
Example to_double_literals :
  (to_double (1 # 10) == 3602879701896397 # 36028797018963968)%Q
  /\ (to_double (5 # 100) == 3602879701896397 # 72057594037927936)%Q
  /\ (to_double 1 == 1)%Q /\ (to_double (1 # 2) == 1 # 2)%Q.
Proof. repeat split; vm_compute; reflexivity. Qed.

(** *** Rounding to two decimals *)

Lemma round2_mono (x y : Q) :
  (0 < x)%Q -> (x <= y)%Q -> (round2 x <= round2 y)%Q.
Proof.
  intros Hx H. unfold round2. apply Qmult_le_compat_r; [|discriminate].
  rewrite <- Zle_Qle. apply round_half_even_mono.
  apply Qmult_le_compat_r; [now apply to_double_mono | discriminate].
Qed.

(** Rounding keeps a score between 0.05 and 1. *)
Lemma round2_bounds (x : Q) :
  (5 # 100 <= x)%Q -> (x <= 1)%Q -> (5 # 100 <= round2 x)%Q /\ (round2 x <= 1)%Q.
Proof.
  intros Hlo Hhi. split.
  - apply Qle_trans with (round2 (5 # 100)).
    + vm_compute. discriminate.
    + apply round2_mono; [reflexivity | exact Hlo].
  - apply Qle_trans with (round2 1).
    + apply round2_mono; [lra | exact Hhi].
    + vm_compute. discriminate.
Qed.

(** [round] works on the float, not on the quotient: 3/40 is the decimal
    0.075, the float of it lies below and is rounded down to 0.07, where the
    even neighbour of the decimal would be 0.08; 9/40 goes up to 0.23 and
    7/40 down to 0.17 in the same way.  1/8 and 3/8 are floats and go to the
    even neighbour. *)
Example round2_ex :
  (round2 (1 # 3) == 33 # 100)%Q /\ (round2 (2 # 3) == 67 # 100)%Q
  /\ (round2 (1 # 8) == 12 # 100)%Q /\ (round2 (3 # 8) == 38 # 100)%Q
  /\ (round2 (3 # 40) == 7 # 100)%Q /\ (round2 (9 # 40) == 23 # 100)%Q
  /\ (round2 (7 # 40) == 17 # 100)%Q /\ (round2 (5 # 100) == 5 # 100)%Q
  /\ (round2 (1 # 10) == 1 # 10)%Q /\ (round2 1 == 1)%Q.
Proof. repeat split; vm_compute; reflexivity. Qed.

(** ** The response *)

Lemma answer_ranked (f : file_text) (elapsed : Z) (payload : QueryRequest)
    (documents : list DocumentIngestionRequest) :
  DocumentRegistry.list f = Ok documents ->
  exists response,
    QueryEngine.answer f elapsed payload = Ok response
    /\ citations response = map QueryEngine.snippet (QueryEngine.ranked documents payload)
    /\ latency_ms response = Z.max 1 elapsed
    /\ (QueryEngine.ranked documents payload = [] ->
        answer_text response = QueryEngine.no_match).
Proof.
  intros Hl. unfold QueryEngine.answer. rewrite Hl. cbn [bind].
  destruct (QueryEngine.ranked documents payload) as [|m ms];
    eexists; repeat split; try reflexivity.
  discriminate.
Qed.

Lemma ranked_sorted (documents : list DocumentIngestionRequest)
    (payload : QueryRequest) :
  QueryEngine.ranked documents payload
  = slice_to (QueryEngine.sort_matches (qualifying documents payload))
             (max_results payload).
Proof. reflexivity. Qed.

Lemma py_min_max_bounds (x lo : Q) :
  (5 # 100 <= lo)%Q -> (lo <= 1)%Q ->
  (5 # 100 <= py_min 1 (py_max x lo))%Q /\ (py_min 1 (py_max x lo) <= 1)%Q.
Proof.
  intros Hlo Hhi. unfold py_min, py_max.
  destruct (Qlt_bool x lo) eqn:E1.
  - destruct (Qlt_bool lo 1) eqn:E2; split; try assumption; lra.
  - apply Qlt_bool_false in E1.
    destruct (Qlt_bool x 1) eqn:E2.
    + apply Qlt_bool_iff in E2. split; lra.
    + split; lra.
Qed.

Lemma score_document_bounds (q : string) (d : DocumentIngestionRequest)
    (m : DocumentIngestionRequest * Q) :
  QueryEngine.score_document q d = Some m ->
  (5 # 100 <= snd m)%Q /\ (snd m <= 1)%Q.
Proof.
  unfold QueryEngine.score_document.
  destruct (_ || _ || _); [|discriminate].
  intros H. injection H as <-. cbn [snd].
  destruct (PyStr.is_empty q); apply py_min_max_bounds; lra.
Qed.

(** The scores the loop appends are positive. *)
Lemma qualifying_positive (documents : list DocumentIngestionRequest)
    (payload : QueryRequest) :
  Forall (fun m => (0 < snd m)%Q) (qualifying documents payload).
Proof.
  rewrite Forall_forall. intros m Hm. unfold qualifying in Hm.
  apply list_elem_of_omap in Hm as (d & _ & Hd).
  destruct (score_document_bounds _ _ _ Hd) as [Hlo _]. lra.
Qed.

(** A citation names its document and carries its score, rounded. *)
Lemma snippets_of_matches (l : list (DocumentIngestionRequest * Q)) :
  Forall2 (fun c m =>
             score c = round2 (snd m)
             /\ snip_document_id c
                = match document_id (fst m) with
                  | Some i => if PyStr.is_empty i then "unknown" else i
                  | None => "unknown"
                  end)
          (map QueryEngine.snippet l) l.
Proof.
  induction l as [|m l IH]; cbn [map]; constructor; [|exact IH].
  split; reflexivity.
Qed.

(** Rounding keeps the order of positive scores. *)
Lemma snippets_descending (l : list (DocumentIngestionRequest * Q)) :
  Forall (fun m => (0 < snd m)%Q) l ->
  descending l ->
  StronglySorted (fun a b => (score b <= score a)%Q) (map QueryEngine.snippet l).
Proof.
  unfold descending. intros Hpos.
  induction 1 as [|x r Hr IH Hx]; cbn [map]; constructor.
  - apply IH. now apply Forall_inv_tail in Hpos.
  - apply Forall_inv_tail in Hpos.
    rewrite Forall_map. rewrite Forall_forall in Hx, Hpos |- *.
    intros y Hy. cbn. apply round2_mono; [now apply Hpos | now apply Hx].
Qed.

(** C6. The citations of a response, for a [max_results] from 1 to 20.  The
    documents the scoring loop appended are put in an order of descending
    score, the first [max_results] of them are kept, and the citations are
    those of the kept ones, in that order: each names its document and
    carries the score of its match rounded to two decimals, as [round] rounds
    the float.  So the scores of the citations descend too, and their number
    is the smaller of [max_results] and the number of qualifying documents.
    With [max_results = 1] and some qualifying documents there is exactly one
    citation, of a document of highest score. *)
Theorem ranking_rule (f : file_text) (elapsed : Z) (payload : QueryRequest)
    (documents : list DocumentIngestionRequest) :
  DocumentRegistry.list f = Ok documents ->
  1 <= max_results payload <= 20 ->
  exists sorted response,
    Permutation sorted (qualifying documents payload)
    /\ descending sorted
    /\ QueryEngine.answer f elapsed payload = Ok response
    /\ citations response
       = map QueryEngine.snippet (take (Z.to_nat (max_results payload)) sorted)
    /\ length (citations response)
       = Nat.min (Z.to_nat (max_results payload))
                 (length (qualifying documents payload))
    /\ Forall2 (fun c m =>
                  score c = round2 (snd m)
                  /\ snip_document_id c
                     = match document_id (fst m) with
                       | Some i => if PyStr.is_empty i then "unknown" else i
                       | None => "unknown"
                       end)
               (citations response)
               (take (Z.to_nat (max_results payload)) sorted)
    /\ StronglySorted (fun a b => (score b <= score a)%Q) (citations response)
    /\ (max_results payload = 1 ->
        qualifying documents payload <> [] ->
        exists best,
          citations response = [QueryEngine.snippet best]
          /\ best ∈ qualifying documents payload
          /\ forall m, m ∈ qualifying documents payload -> (snd m <= snd best)%Q).
Proof.
  intros Hl Hn.
  destruct (answer_ranked f elapsed payload documents Hl) as (response & Ha & Hc & _).
  rewrite ranked_sorted, slice_to_take in Hc by lia.
  pose proof (sort_matches_perm (qualifying documents payload)) as Hp.
  pose proof (sort_matches_descending (qualifying documents payload)) as Hs.
  set (sorted := QueryEngine.sort_matches (qualifying documents payload)) in *.
  exists sorted, response.
  split; [exact Hp|]. split; [exact Hs|]. split; [exact Ha|].
  split; [exact Hc|].
  split.
  { rewrite Hc, length_map, length_take. now rewrite (Permutation_length Hp). }
  split.
  { rewrite Hc. apply snippets_of_matches. }
  split.
  { rewrite Hc. apply snippets_descending; [|now apply descending_take].
    apply Forall_take. rewrite Hp. apply qualifying_positive. }
  intros H1 Hq. rewrite H1 in Hc.
  destruct sorted as [|best rest] eqn:Es.
  { apply Permutation_nil in Hp. congruence. }
  exists best. split; [exact Hc|]. split.
  { rewrite <- Hp. constructor. }
  intros m Hm. rewrite <- Hp in Hm. apply elem_of_cons in Hm as [-> | Hm].
  { apply Qle_refl. }
  unfold descending in Hs. apply StronglySorted_inv in Hs as [_ Hb].
  rewrite Forall_forall in Hb. now apply Hb.
Qed.

Lemma ranking_rule_witness :
  DocumentRegistry.list two_funds = Ok [fund_b; fund_z]
  /\ 1 <= max_results both_funds <= 20
  /\ exists response,
       QueryEngine.answer two_funds 0 both_funds = Ok response
       /\ length (citations response) = 1%nat
       /\ snip_document_id <$> citations response = ["d-3"].
Proof.
  split; [reflexivity|]. split; [cbn; lia|].
  destruct (ranking_rule two_funds 0 both_funds [fund_b; fund_z] eq_refl
              ltac:(cbn; lia))
    as (sorted & response & _ & _ & Ha & _ & Hlen & _).
  exists response. split; [exact Ha|]. split; [rewrite Hlen; reflexivity|].
  vm_compute in Ha. injection Ha as <-. reflexivity.
Defined.

(** Both funds qualify for the query ["Fund Z"]; the one with both tokens
    comes first. *)
Example ranked_two_funds :
  QueryEngine.ranked [fund_b; fund_z]
    {| query := "Fund Z"; document_filters := None; max_results := 5 |}
  = [(fund_z, 1%Q); (fund_b, (1 # 2)%Q)].
Proof. vm_compute. reflexivity. Qed.



(** ** The scores of the citations *)

(** C9. Whenever the registry lists, [answer] returns a response, and every
    citation of it has a score from 0.05 to 1; none has the score 0, also
    when no token of the query is found or the query is empty.  The score of
    a citation is the score with which its document was appended, itself
    from 0.05 to 1, rounded to two decimals as [round] rounds the float. *)
Theorem citation_scores_bounded (f : file_text) (elapsed : Z)
    (payload : QueryRequest) (documents : list DocumentIngestionRequest) :
  DocumentRegistry.list f = Ok documents ->
  exists response,
    QueryEngine.answer f elapsed payload = Ok response
    /\ Forall (fun c => (5 # 100 <= score c)%Q /\ (score c <= 1)%Q
                        /\ ~ (score c == 0)%Q
                        /\ exists m,
                             m ∈ qualifying documents payload
                             /\ (5 # 100 <= snd m)%Q /\ (snd m <= 1)%Q
                             /\ score c = round2 (snd m))
              (citations response).
Proof.
  intros Hl.
  destruct (answer_ranked f elapsed payload documents Hl) as (response & Ha & Hc & _).
  exists response. split; [exact Ha|].
  rewrite Hc, Forall_map, Forall_forall.
  intros m Hm. rewrite ranked_sorted in Hm.
  apply slice_to_subseteq in Hm. rewrite sort_matches_perm in Hm.
  pose proof Hm as Hq.
  unfold qualifying in Hm. apply list_elem_of_omap in Hm as (d & _ & Hd).
  destruct (score_document_bounds _ _ _ Hd) as [Hlo Hhi].
  destruct (round2_bounds (snd m) Hlo Hhi) as [Rlo Rhi].
  cbn [QueryEngine.snippet score]. repeat split; try assumption.
  - intros H0. lra.
  - exists m. repeat split; assumption.
Qed.

Lemma citation_scores_bounded_witness :
  DocumentRegistry.list two_funds = Ok [fund_b; fund_z]
  /\ exists response,
       QueryEngine.answer two_funds 0 both_funds = Ok response
       /\ Forall (fun c => (5 # 100 <= score c)%Q /\ (score c <= 1)%Q
                           /\ ~ (score c == 0)%Q)
                 (citations response).
Proof.
  split; [reflexivity|].
  destruct (citation_scores_bounded two_funds 0 both_funds [fund_b; fund_z] eq_refl)
    as (response & Ha & Hs).
  exists response. split; [exact Ha|].
  eapply Forall_impl; [exact Hs|]. intros c (Hlo & Hhi & Hz & _). auto.
Defined.

(** Three tokens of forty are found: the document is appended with the
    score 3/40, and its citation shows 0.07, the float of 3/40 lying below
    the decimal 0.075. *)
Example citation_of_forty_tokens :
  length (PyStr.split (query forty_tokens)) = 40%nat
  /\ QueryEngine.ranked [fund_b] forty_tokens = [(fund_b, (3 # 40)%Q)]
  /\ score <$> (map QueryEngine.snippet (QueryEngine.ranked [fund_b] forty_tokens))
     = [(7 # 100)%Q].
Proof. repeat split; vm_compute; reflexivity. Qed.

(** An empty query: every document gets the floor 0.1, and the first of
    them is kept. *)
Example empty_query_ranked :
  QueryEngine.ranked [fund_b; fund_z]
    {| query := "  "; document_filters := None; max_results := 1 |}
  = [(fund_b, (1 # 10)%Q)].
Proof. vm_compute. reflexivity. Qed.

(** * Further properties of the registry *)

(** ** Reading back a saved store *)

Lemma truthy_sort_keys (v : json) : truthy (sort_keys v) = truthy v.
Proof.
  destruct v as [| | | |l|m]; try reflexivity.
  - now destruct l.
  - cbn [sort_keys truthy].
    pose proof (sort_items_length (map (fun kv => (fst kv, sort_keys (snd kv))) m)) as H.
    rewrite length_map in H.
    destruct m, (sort_items _); cbn in H; try reflexivity; discriminate.
Qed.

Lemma getitem_sort_keys (v : json) (k : string) :
  getitem (sort_keys v) k
  = match getitem v k with Ok x => Ok (sort_keys x) | Raise e => Raise e end.
Proof.
  destruct v as [| | | |l|m]; try reflexivity.
  cbn [sort_keys getitem]. rewrite dict_get_sort_items, dict_get_map.
  now destruct (dict_get k m).
Qed.

Lemma model_validate_sort_keys (v : json) :
  model_validate (sort_keys v) = model_validate v.
Proof.
  destruct v as [| | | |l|m]; try reflexivity.
  cbn [sort_keys]. unfold model_validate.
  rewrite !dict_get_sort_items, !dict_get_map.
  assert (R : forall o, required_str (sort_keys <$> o) = required_str o)
    by (intros [[]|]; reflexivity).
  assert (O : forall o, optional_str (sort_keys <$> o) = optional_str o)
    by (intros [[]|]; reflexivity).
  assert (D : forall o, optional_date (sort_keys <$> o) = optional_date o)
    by (intros [[]|]; reflexivity).
  assert (S : forall x o, str_or x (sort_keys <$> o) = str_or x o)
    by (intros x [[]|]; reflexivity).
  assert (U : forall x o, source_or x (sort_keys <$> o) = source_or x o)
    by (intros x [[]|]; reflexivity).
  assert (I : forall x o, int_or x (sort_keys <$> o) = int_or x o)
    by (intros x [[]|]; reflexivity).
  now rewrite !R, !O, D, S, U, I.
Qed.

(** [get] does not see the order of the keys: it reads the same from a store
    and from the store saved again. *)
Lemma get_sort_keys (v : json) (i : string) :
  DocumentRegistry.get (Encoded (sort_keys v)) i = DocumentRegistry.get (Encoded v) i.
Proof.
  unfold DocumentRegistry.get. cbn [DocumentRegistry._load bind].
  destruct v as [| | | |l|m]; try reflexivity.
  rewrite dict_get_sort_keys. cbn [get_method bind].
  destruct (dict_get i m) as [x|]; [|reflexivity].
  cbn [fmap option_fmap option_map]. rewrite truthy_sort_keys.
  destruct (truthy x); [|reflexivity]. cbn [negb].
  rewrite getitem_sort_keys. destruct (getitem x "document") as [d|e]; [|reflexivity].
  cbn [bind]. now rewrite model_validate_sort_keys.
Qed.

Lemma register_inv (f f' : file_text) (now uuid : string)
    (r : DocumentIngestionRequest) (resp : DocumentIngestionResponse) :
  DocumentRegistry.register f now uuid r = Ok (f', resp) ->
  exists m,
    DocumentRegistry._load f = Ok (JObj m)
    /\ f' = Encoded (sort_keys
                       (JObj (dict_set (assigned_id uuid r)
                                (stored_entry now (set_document_id r (assigned_id uuid r)))
                                m)))
    /\ resp_document_id resp = assigned_id uuid r.
Proof.
  intros H.
  destruct (DocumentRegistry._load f) as [[| | | | |m]|e] eqn:Hl;
    try (unfold DocumentRegistry.register in H; rewrite Hl in H; discriminate).
  rewrite (register_dict m f now uuid r Hl) in H. injection H as <- <-.
  exists m. repeat split.
Qed.

Lemma get_of_load (f : file_text) (v : json) (i : string) :
  DocumentRegistry._load f = Ok v ->
  DocumentRegistry.get f i = DocumentRegistry.get (Encoded v) i.
Proof. intros H. unfold DocumentRegistry.get. now rewrite H. Qed.

Lemma get_other_after_register (f f' : file_text) (now uuid j : string)
    (r : DocumentIngestionRequest) (resp : DocumentIngestionResponse) :
  DocumentRegistry.register f now uuid r = Ok (f', resp) ->
  j <> resp_document_id resp ->
  DocumentRegistry.get f' j = DocumentRegistry.get f j.
Proof.
  intros Hr Hj. destruct (register_inv _ _ _ _ _ _ Hr) as (m & Hl & -> & Hi).
  rewrite Hi in Hj. rewrite get_sort_keys, (get_of_load f (JObj m) j Hl).
  unfold DocumentRegistry.get. cbn [DocumentRegistry._load get_method bind].
  rewrite dict_get_set_ne by congruence. reflexivity.
Qed.

Lemma get_same_after_register (f f' : file_text) (now uuid : string)
    (r : DocumentIngestionRequest) (resp : DocumentIngestionResponse) :
  request_ok r = true ->
  DocumentRegistry.register f now uuid r = Ok (f', resp) ->
  DocumentRegistry.get f' (resp_document_id resp)
  = Ok (Some (set_document_id r (resp_document_id resp))).
Proof.
  intros Hok Hr. destruct (register_inv _ _ _ _ _ _ Hr) as (m & Hl & -> & ->).
  eapply get_stored; [exact Hok | apply dict_get_set_eq].
Qed.

(** X1. Registering a request leaves what [get] returns for every other
    identifier as it was, an exception included. *)
Theorem register_keeps_others (f f' : file_text) (now uuid j : string)
    (r : DocumentIngestionRequest) (resp : DocumentIngestionResponse) :
  DocumentRegistry.register f now uuid r = Ok (f', resp) ->
  j <> resp_document_id resp ->
  DocumentRegistry.get f' j = DocumentRegistry.get f j.
Proof.
  intros Hr Hj. destruct (register_inv _ _ _ _ _ _ Hr) as (m & Hl & -> & Hi).
  rewrite Hi in Hj. rewrite get_sort_keys, (get_of_load f (JObj m) j Hl).
  unfold DocumentRegistry.get. cbn [DocumentRegistry._load get_method bind].
  rewrite dict_get_set_ne by congruence. reflexivity.
Qed.

Lemma register_keeps_others_witness :
  DocumentRegistry.register one_fund "2024-01-02T00:00:00" "d-3" fund_z
  = Ok (two_funds, {| resp_document_id := "d-3"; resp_status := received;
                      received_at := "2024-01-02T00:00:00" |})
  /\ DocumentRegistry.get two_funds "d-1" = DocumentRegistry.get one_fund "d-1".
Proof.
  split; [reflexivity|].
  apply (register_keeps_others one_fund two_funds "2024-01-02T00:00:00" "d-3" "d-1"
           fund_z _ eq_refl).
  discriminate.
Defined.

(** ** The stores the registry writes, again *)

Lemma leb_trans (a b c : string) :
  String.leb a b = true -> String.leb b c = true -> String.leb a c = true.
Proof.
  intros H1 H2. apply Is_true_true.
  apply (@transitivity _ String.le _ a b c); now apply Is_true_true.
Qed.

Lemma leb_false_le (a b : string) : String.leb a b = false -> String.leb b a = true.
Proof.
  intros H. destruct (String.leb_total a b) as [E|E]; [congruence | exact E].
Qed.

Section Keys.
Context {A : Type}.
Implicit Types (d : list (string * A)) (k : string) (v : A).

Lemma dict_get_None_keys k d : dict_get k d = None <-> k ∉ map fst d.
Proof.
  induction d as [|[k' v'] r IH]; cbn.
  - split; [intros _ H; inversion H | reflexivity].
  - rewrite not_elem_of_cons. destruct (String.eqb k k') eqn:E.
    + apply String.eqb_eq in E. split; [discriminate | intros [H _]; contradiction].
    + apply String.eqb_neq in E. rewrite IH. tauto.
Qed.

Lemma dict_set_keys_present k v d :
  k ∈ map fst d -> map fst (dict_set k v d) = map fst d.
Proof.
  induction d as [|[k' v'] r IH]; cbn; [intros H; inversion H|].
  destruct (String.eqb k k') eqn:E; cbn.
  - apply String.eqb_eq in E. now subst k'.
  - apply String.eqb_neq in E. intros H. apply elem_of_cons in H as [H|H]; [contradiction|].
    now rewrite IH.
Qed.

Lemma dict_set_keys_absent k v d :
  k ∉ map fst d -> dict_set k v d = d ++ [(k, v)].
Proof.
  induction d as [|[k' v'] r IH]; cbn; [reflexivity|].
  rewrite not_elem_of_cons. intros [H1 H2].
  apply String.eqb_neq in H1. rewrite H1. now rewrite IH.
Qed.

Lemma dict_set_NoDup k v d : NoDup (map fst d) -> NoDup (map fst (dict_set k v d)).
Proof.
  intros H. destruct (decide (k ∈ map fst d)) as [Hin|Hin].
  - now rewrite dict_set_keys_present.
  - rewrite dict_set_keys_absent, map_app by exact Hin. cbn.
    apply NoDup_app. split; [exact H|]. split; [|repeat constructor; apply not_elem_of_nil].
    intros x Hx Hx'. apply list_elem_of_singleton in Hx'. now subst x.
Qed.

Lemma dict_get_NoDup k v d :
  NoDup (map fst d) -> (k, v) ∈ d -> dict_get k d = Some v.
Proof.
  induction d as [|[k' v'] r IH]; cbn; [intros _ H; inversion H|].
  intros Hn Hin. apply NoDup_cons in Hn as [Hk Hr].
  apply elem_of_cons in Hin as [Heq|Hin].
  - injection Heq as <- <-. now rewrite String.eqb_refl.
  - destruct (String.eqb k k') eqn:E; [|now apply IH].
    apply String.eqb_eq in E. subst k'. exfalso. apply Hk.
    apply list_elem_of_fmap. exists (k, v). split; [reflexivity | exact Hin].
Qed.

(** Assigning to a key the value it has changes nothing. *)
Lemma dict_set_same k v d : dict_get k d = Some v -> dict_set k v d = d.
Proof.
  induction d as [|[k' v'] r IH]; cbn; [discriminate|].
  destruct (String.eqb k k') eqn:E.
  - apply String.eqb_eq in E. subst k'. intros H. now injection H as ->.
  - intros H. now rewrite IH.
Qed.

Lemma insert_item_ascending (kv : string * A) d :
  ascending (map fst d) -> ascending (map fst (insert_item kv d)).
Proof.
  unfold ascending. induction d as [|kv' r IH]; cbn; intros H.
  - repeat constructor.
  - apply StronglySorted_inv in H as [Hr Hx].
    destruct (String.leb kv.1 kv'.1) eqn:E; cbn.
    + constructor; [now constructor|]. constructor; [exact E|].
      eapply Forall_impl; [exact Hx|]. intros z Hz. now apply leb_trans with kv'.1.
    + constructor; [now apply IH|].
      rewrite (Permutation_map fst (insert_item_perm kv r)). cbn.
      constructor; [now apply leb_false_le | exact Hx].
Qed.

Lemma sort_items_ascending d : ascending (map fst (sort_items d)).
Proof.
  induction d as [|kv r IH]; [constructor|].
  cbn [sort_items foldr]. fold (sort_items r). now apply insert_item_ascending.
Qed.

(** Items in ascending order are left as they are. *)
Lemma sort_items_sorted d : ascending (map fst d) -> sort_items d = d.
Proof.
  unfold ascending. induction d as [|kv r IH]; [reflexivity|].
  cbn [map]. intros H. apply StronglySorted_inv in H as [Hr Hx].
  cbn [sort_items foldr]. fold (sort_items r). rewrite IH by exact Hr.
  destruct r as [|kv' r']; [reflexivity|]. cbn.
  apply Forall_cons in Hx as [Hx _]. now rewrite Hx.
Qed.

End Keys.

Lemma map_fst_map {A B} (g : A -> B) (d : list (string * A)) :
  map fst (map (fun kv => (fst kv, g (snd kv))) d) = map fst d.
Proof. induction d as [|[k v] r IH]; cbn; [reflexivity | now rewrite IH]. Qed.

Lemma tidy_empty : tidy (Encoded (JObj [])).
Proof. exists []. repeat split; constructor. Qed.

Lemma tidy_well_kept (f : file_text) : tidy f -> well_kept f.
Proof. intros (m & -> & Hm & _). exists m. split; [reflexivity | exact Hm]. Qed.

Lemma tidy_register (f f' : file_text) (now uuid : string)
    (r : DocumentIngestionRequest) (resp : DocumentIngestionResponse) :
  tidy f -> uuid <> "" -> request_ok r = true ->
  DocumentRegistry.register f now uuid r = Ok (f', resp) ->
  tidy f'.
Proof.
  intros Ht Hu Hok Hr.
  destruct (well_kept_register f f' now uuid r resp (tidy_well_kept f Ht) Hu Hok Hr)
    as (m' & Hf' & Hm').
  destruct Ht as (m & -> & _ & Hn & _).
  destruct (register_inv _ _ _ _ _ _ Hr) as (m0 & Hl & Hf & _).
  cbn in Hl. injection Hl as <-. rewrite Hf in Hf'. cbn [sort_keys] in Hf'.
  injection Hf' as <-. eexists. split; [exact Hf|]. cbn [sort_keys].
  split; [exact Hm'|]. split.
  - rewrite (Permutation_map fst (sort_items_perm _)), map_fst_map.
    now apply dict_set_NoDup.
  - apply sort_items_ascending.
Qed.

Lemma reachable_tidy (f : file_text) : reachable f -> tidy f.
Proof.
  induction 1 as [|f _ _|f now uuid body r f' resp _ IH Hu Hv Hr].
  - exact tidy_empty.
  - exact tidy_empty.
  - eapply tidy_register; eauto using model_validate_request_ok.
Qed.

Lemma kept_entry_holds (kv : string * json) :
  kept_entry kv -> exists p, holds_request kv p.
Proof.
  intros (Hk & now & p & Hok & Hi & Hv). exists p. repeat split; eauto.
Qed.

Lemma holds_request_decodes (kv : string * json) (p : DocumentIngestionRequest) :
  holds_request kv p ->
  (try! d := getitem (snd kv) "document" in model_validate d) = Ok p.
Proof.
  intros (_ & Hok & _ & now & ->).
  rewrite stored_entry_sorted. cbn [getitem dict_get String.eqb Ascii.eqb Bool.eqb bind].
  now apply model_validate_sorted_dump.
Qed.

Lemma holds_request_functional (kv : string * json)
    (p q : DocumentIngestionRequest) :
  holds_request kv p -> holds_request kv q -> p = q.
Proof.
  intros Hp Hq. apply holds_request_decodes in Hp, Hq.
  rewrite Hp in Hq. now injection Hq.
Qed.

(** What [list] returns for a store of kept entries. *)
Lemma list_kept (m : list (string * json)) (documents : list DocumentIngestionRequest) :
  Forall kept_entry m ->
  DocumentRegistry.list (Encoded (JObj m)) = Ok documents ->
  Forall2 holds_request m documents.
Proof.
  unfold DocumentRegistry.list.
  cbn [DocumentRegistry._load values_method bind]. unfold dict_values.
  intros Hm. revert documents.
  induction Hm as [|kv r Hkv Hr IH]; cbn [map for_each]; intros documents H.
  - injection H as <-. constructor.
  - destruct (kept_entry_holds kv Hkv) as (p & Hp).
    rewrite (holds_request_decodes kv p Hp) in H. cbn [bind] in H.
    destruct (for_each _ (map snd r)) as [ds|e] eqn:E; [|discriminate].
    cbn [bind] in H. injection H as <-. constructor; [exact Hp | now apply IH].
Qed.

Lemma holds_keys (m : list (string * json)) (documents : list DocumentIngestionRequest) :
  Forall2 holds_request m documents -> map id_of documents = map fst m.
Proof.
  induction 1 as [|kv p r ds (_ & _ & Hi & _) _ IH]; [reflexivity|].
  cbn. unfold id_of at 1. rewrite Hi. cbn. now rewrite IH.
Qed.

Lemma get_held (m : list (string * json)) (i : string) (v : json)
    (p : DocumentIngestionRequest) :
  dict_get i m = Some v -> holds_request (i, v) p ->
  DocumentRegistry.get (Encoded (JObj m)) i = Ok (Some p).
Proof.
  intros Hg Hp. unfold DocumentRegistry.get.
  cbn [DocumentRegistry._load get_method bind]. rewrite Hg.
  pose proof (holds_request_decodes _ _ Hp) as Hd. cbn [snd] in Hd.
  destruct Hp as (_ & _ & _ & now & Hv). cbn [snd] in Hv.
  assert (Ht : truthy v = true) by (rewrite Hv, stored_entry_sorted; reflexivity).
  rewrite Ht. cbn [negb].
  destruct (getitem v "document") as [d|e]; cbn [bind] in *; [|discriminate].
  now rewrite Hd.
Qed.

(** [get] against the listing, for a store of kept entries under distinct
    keys. *)
Lemma get_listed (m : list (string * json)) (documents : list DocumentIngestionRequest)
    (i : string) :
  Forall2 holds_request m documents -> NoDup (map fst m) ->
  (forall d, DocumentRegistry.get (Encoded (JObj m)) i = Ok (Some d)
             <-> d ∈ documents /\ document_id d = Some i)
  /\ (DocumentRegistry.get (Encoded (JObj m)) i = Ok None
      <-> forall d, d ∈ documents -> document_id d <> Some i).
Proof.
  intros Hh Hn.
  assert (Hin : forall d, d ∈ documents -> document_id d = Some i ->
                exists v, (i, v) ∈ m /\ holds_request (i, v) d).
  { clear Hn. induction Hh as [|[k v] p r ds Hp _ IH]; intros d Hd Hi;
      [inversion Hd|].
    apply elem_of_cons in Hd as [->|Hd].
    - pose proof Hp as (_ & _ & Hk & _). cbn in Hk. rewrite Hi in Hk.
      injection Hk as <-. exists v. split; [constructor | exact Hp].
    - destruct (IH d Hd Hi) as (v' & Hv' & Hp'). exists v'. split; [now constructor | exact Hp']. }
  assert (Hout : forall v, dict_get i m = Some v ->
                 exists p, p ∈ documents /\ holds_request (i, v) p).
  { clear Hn Hin. induction Hh as [|[k v] p r ds Hp _ IH]; cbn; intros v0 Hg;
      [discriminate|].
    destruct (String.eqb i k) eqn:E.
    - apply String.eqb_eq in E. subst k. injection Hg as <-.
      exists p. split; [constructor | exact Hp].
    - destruct (IH v0 Hg) as (p' & Hp' & Hh'). exists p'. split; [now constructor | exact Hh']. }
  destruct (dict_get i m) as [v|] eqn:Hg.
  - destruct (Hout v eq_refl) as (p & Hp & Hh').
    rewrite (get_held m i v p Hg Hh'). split.
    + intros d. split.
      * intros H. injection H as <-. split; [exact Hp|]. now destruct Hh' as (_ & _ & ? & _).
      * intros [Hd Hi]. destruct (Hin d Hd Hi) as (v' & Hv' & Hd').
        rewrite (dict_get_NoDup i v' m Hn Hv') in Hg. injection Hg as ->.
        f_equal. f_equal. exact (holds_request_functional _ _ _ Hh' Hd').
    + split; [discriminate|]. intros H. exfalso. apply (H p Hp).
      now destruct Hh' as (_ & _ & ? & _).
  - assert (Hnone : DocumentRegistry.get (Encoded (JObj m)) i = Ok None).
    { unfold DocumentRegistry.get. cbn [DocumentRegistry._load get_method bind].
      now rewrite Hg. }
    rewrite Hnone. split.
    + intros d. split; [discriminate|]. intros [Hd Hi].
      destruct (Hin d Hd Hi) as (v' & Hv' & _).
      rewrite (dict_get_NoDup i v' m Hn Hv') in Hg. discriminate.
    + split; [|reflexivity]. intros _ d Hd Hi.
      destruct (Hin d Hd Hi) as (v' & Hv' & _).
      rewrite (dict_get_NoDup i v' m Hn Hv') in Hg. discriminate.
Qed.

Lemma reachable_one_fund : reachable one_fund.
Proof.
  apply (reachable_register (DocumentRegistry._ensure_store None)
           "2024-01-01T00:00:00" "uuid-1" (model_dump_json fund_b) fund_b one_fund
           {| resp_document_id := "d-1"; resp_status := received;
              received_at := "2024-01-01T00:00:00" |}).
  - constructor.
  - discriminate.
  - reflexivity.
  - reflexivity.
Qed.

Lemma reachable_two_funds : reachable two_funds.
Proof.
  apply (reachable_register one_fund
           "2024-01-02T00:00:00" "uuid-2" (model_dump_json fund_z) fund_z two_funds
           {| resp_document_id := "d-3"; resp_status := received;
              received_at := "2024-01-02T00:00:00" |}).
  - exact reachable_one_fund.
  - discriminate.
  - reflexivity.
  - reflexivity.
Qed.

Lemma tidy_listing (f : file_text) (documents : list DocumentIngestionRequest) :
  tidy f -> DocumentRegistry.list f = Ok documents ->
  exists m, f = Encoded (JObj m) /\ Forall2 holds_request m documents
            /\ NoDup (map fst m) /\ ascending (map fst m).
Proof.
  intros (m & -> & Hm & Hn & Ha) Hl. exists m.
  split; [reflexivity|]. split; [now apply list_kept|]. now split.
Qed.

Lemma listing_ids_facts (f : file_text) (documents : list DocumentIngestionRequest) :
  reachable f -> DocumentRegistry.list f = Ok documents ->
  exists m, f = Encoded (JObj m) /\ Forall2 holds_request m documents
            /\ NoDup (map fst m)
            /\ Forall (fun d => document_id d = Some (id_of d) /\ id_of d <> "") documents.
Proof.
  intros Hr Hl.
  destruct (tidy_listing f documents (reachable_tidy f Hr) Hl) as (m & Hf & Hh & Hn & _).
  exists m. split; [exact Hf|]. split; [exact Hh|]. split; [exact Hn|].
  clear Hn Hl Hr Hf. induction Hh as [|kv p r ds (Hk & _ & Hi & _) _ IH]; constructor.
  - unfold id_of. rewrite Hi. cbn. split; [reflexivity | exact Hk].
  - exact IH.
Qed.

Lemma listing_ids_distinct_facts (f : file_text)
    (documents : list DocumentIngestionRequest) :
  reachable f -> DocumentRegistry.list f = Ok documents ->
  NoDup (map id_of documents)
  /\ Forall (fun d => document_id d = Some (id_of d) /\ id_of d <> "") documents.
Proof.
  intros Hr Hl. destruct (listing_ids_facts f documents Hr Hl) as (m & _ & Hh & Hn & Hall).
  split; [|exact Hall]. now rewrite (holds_keys m documents Hh).
Qed.

Lemma get_kept_returns (m : list (string * json)) (i : string) :
  Forall kept_entry m ->
  exists o, DocumentRegistry.get (Encoded (JObj m)) i = Ok o.
Proof.
  intros Hk. destruct (dict_get i m) as [v|] eqn:Hd.
  - rewrite Forall_forall in Hk.
    destruct (kept_entry_holds _ (Hk _ (dict_get_elem_of _ _ _ Hd))) as (p & Hp).
    exists (Some p). now apply (get_held m i v p).
  - exists None. unfold DocumentRegistry.get.
    cbn [DocumentRegistry._load get_method bind]. now rewrite Hd.
Qed.

(** X2. In every state the registry gets to, the listed documents carry
    identifiers that are not empty and differ from one another, and the
    listing is in ascending order of identifier (the order of the code
    points), whatever the order of the registrations. *)
Theorem listing_ids_distinct_ascending (f : file_text)
    (documents : list DocumentIngestionRequest) :
  reachable f ->
  DocumentRegistry.list f = Ok documents ->
  NoDup (map id_of documents)
  /\ ascending (map id_of documents)
  /\ Forall (fun d => document_id d = Some (id_of d) /\ id_of d <> "") documents.
Proof.
  intros Hr Hl.
  destruct (tidy_listing f documents (reachable_tidy f Hr) Hl) as (m & _ & Hh & Hn & Ha).
  rewrite (holds_keys m documents Hh). split; [exact Hn|]. split; [exact Ha|].
  clear Hn Ha Hl Hr. induction Hh as [|kv p r ds (Hk & _ & Hi & _) _ IH]; constructor.
  - unfold id_of. rewrite Hi. cbn. split; [reflexivity | exact Hk].
  - exact IH.
Qed.

Lemma listing_ids_distinct_ascending_witness :
  reachable two_funds
  /\ DocumentRegistry.list two_funds = Ok [fund_b; fund_z]
  /\ NoDup (map id_of [fund_b; fund_z]).
Proof.
  split; [exact reachable_two_funds|]. split; [reflexivity|].
  exact (proj1 (listing_ids_distinct_ascending two_funds [fund_b; fund_z]
                  reachable_two_funds eq_refl)).
Defined.

(** X3. In every state the registry gets to, [get] and [list] agree: [get]
    on an identifier returns a document exactly when the listing holds that
    document under that identifier, and returns nothing exactly when no
    listed document has the identifier.  So [get] never raises there. *)
Theorem get_agrees_with_list (f : file_text)
    (documents : list DocumentIngestionRequest) (i : string) :
  reachable f ->
  DocumentRegistry.list f = Ok documents ->
  (forall d, DocumentRegistry.get f i = Ok (Some d)
             <-> d ∈ documents /\ document_id d = Some i)
  /\ (DocumentRegistry.get f i = Ok None
      <-> forall d, d ∈ documents -> document_id d <> Some i).
Proof.
  intros Hr Hl.
  destruct (tidy_listing f documents (reachable_tidy f Hr) Hl) as (m & -> & Hh & Hn & _).
  now apply get_listed.
Qed.

Lemma get_agrees_with_list_witness :
  reachable two_funds
  /\ DocumentRegistry.list two_funds = Ok [fund_b; fund_z]
  /\ (DocumentRegistry.get two_funds "d-3" = Ok (Some fund_z)
      <-> fund_z ∈ [fund_b; fund_z] /\ document_id fund_z = Some "d-3").
Proof.
  split; [exact reachable_two_funds|]. split; [reflexivity|].
  exact (proj1 (get_agrees_with_list two_funds [fund_b; fund_z] "d-3"
                  reachable_two_funds eq_refl) fund_z).
Defined.

(** X4. The route [get_document], in every state the registry gets to: it
    raises the 404 [HTTPException] exactly when no listed document has the
    identifier, and returns a document exactly when the listing holds that
    document under the identifier; no exception of the registry gets
    through. *)
Theorem get_document_404 (f : file_text)
    (documents : list DocumentIngestionRequest) (i : string) :
  reachable f ->
  DocumentRegistry.list f = Ok documents ->
  (Api.get_document f i = inl (HTTPException 404 "Document not found")
   <-> forall d, d ∈ documents -> document_id d <> Some i)
  /\ (forall d, Api.get_document f i = inr d
                <-> d ∈ documents /\ document_id d = Some i)
  /\ (forall e, Api.get_document f i <> inl (Uncaught e)).
Proof.
  intros Hr Hl.
  destruct (tidy_listing f documents (reachable_tidy f Hr) Hl) as (m & -> & Hh & Hn & _).
  assert (Hk : Forall kept_entry m).
  { destruct (reachable_tidy _ Hr) as (m' & Hm' & Hk & _). now injection Hm' as <-. }
  destruct (get_listed m documents i Hh Hn) as [Hsome Hnone].
  unfold Api.get_document.
  destruct (DocumentRegistry.get (Encoded (JObj m)) i) as [[d0|]|e] eqn:Hg.
  - split; [|split].
    + split; [discriminate|]. intros H. apply Hnone in H. discriminate.
    + intros d. rewrite <- Hsome. split; intros H; injection H as ->; reflexivity.
    + discriminate.
  - split; [|split].
    + split; [intros _; now apply Hnone | reflexivity].
    + intros d. rewrite <- Hsome. split; discriminate.
    + discriminate.
  - destruct (get_kept_returns m i Hk) as (o & Ho). congruence.
Qed.

Lemma get_document_404_witness :
  reachable two_funds
  /\ DocumentRegistry.list two_funds = Ok [fund_b; fund_z]
  /\ Api.get_document two_funds "d-2" = inl (HTTPException 404 "Document not found").
Proof.
  split; [exact reachable_two_funds|]. split; [reflexivity|].
  apply (proj1 (get_document_404 two_funds [fund_b; fund_z] "d-2"
                  reachable_two_funds eq_refl)).
  intros d Hd. apply elem_of_cons in Hd as [->|Hd]; [discriminate|].
  apply elem_of_cons in Hd as [->|Hd]; [discriminate|]. now apply elem_of_nil in Hd.
Defined.

Lemma map_dict_set {A B} (g : A -> B) (k : string) (v : A) (d : list (string * A)) :
  map (fun kv => (fst kv, g (snd kv))) (dict_set k v d)
  = dict_set k (g v) (map (fun kv => (fst kv, g (snd kv))) d).
Proof.
  induction d as [|[k' v'] r IH]; cbn; [reflexivity|].
  destruct (String.eqb k k'); cbn; [reflexivity | now rewrite IH].
Qed.

Lemma sort_keys_kept (m : list (string * json)) :
  Forall kept_entry m -> map (fun kv => (fst kv, sort_keys (snd kv))) m = m.
Proof.
  induction 1 as [|[k v] r (_ & now & p & _ & _ & Hv) _ IH]; [reflexivity|].
  cbn [map fst snd] in *. rewrite IH, Hv, sort_keys_stored_entry. reflexivity.
Qed.

Lemma dict_set_length_absent {A} (k : string) (v : A) (d : list (string * A)) :
  dict_get k d = None -> length (dict_set k v d) = S (length d).
Proof.
  intros H. apply dict_get_None_keys in H.
  rewrite dict_set_keys_absent, length_app by exact H. cbn. lia.
Qed.

(** X5. The listing after a registration, in every state the registry gets
    to: it holds the request as registered (with its identifier), and beside
    it exactly the documents listed before under other identifiers.  It is
    as long as before when the identifier was listed, and one longer when it
    was not. *)
Theorem register_then_list (f f' : file_text) (now uuid : string) (body : json)
    (r : DocumentIngestionRequest) (resp : DocumentIngestionResponse)
    (documents : list DocumentIngestionRequest) :
  reachable f ->
  uuid <> "" ->
  model_validate body = Ok r ->
  DocumentRegistry.list f = Ok documents ->
  DocumentRegistry.register f now uuid r = Ok (f', resp) ->
  exists documents',
    DocumentRegistry.list f' = Ok documents'
    /\ (forall d,
          d ∈ documents'
          <-> d = set_document_id r (resp_document_id resp)
              \/ (d ∈ documents /\ document_id d <> Some (resp_document_id resp)))
    /\ (resp_document_id resp ∈ map id_of documents ->
        length documents' = length documents)
    /\ (resp_document_id resp ∉ map id_of documents ->
        length documents' = S (length documents)).
Proof.
  intros Hr Hu Hv Hl Hreg.
  pose proof (model_validate_request_ok _ _ Hv) as Hok.
  assert (Hr' : reachable f') by (eapply reachable_register; eauto).
  destruct (reachable_list f' Hr') as (documents' & Hl').
  exists documents'. split; [exact Hl'|].
  pose proof (get_same_after_register f f' now uuid r resp Hok Hreg) as Hsame.
  destruct (listing_ids_facts f documents Hr Hl) as (m & Hf & Hh & Hn & Hall).
  destruct (listing_ids_facts f' documents' Hr' Hl') as (m' & Hf' & Hh' & Hn' & Hall').
  split.
  - intros d. split.
    + intros Hd. rewrite Forall_forall in Hall'. destruct (Hall' d Hd) as [Hi _].
      subst f'. pose proof (proj2 (proj1 (get_listed m' documents' (id_of d) Hh' Hn') d)
                              (conj Hd Hi)) as Hg.
      destruct (decide (id_of d = resp_document_id resp)) as [E|E].
      * left. rewrite E, Hsame in Hg. now injection Hg.
      * right. rewrite (get_other_after_register f _ now uuid (id_of d) r resp Hreg E) in Hg.
        subst f. apply (get_listed m documents (id_of d) Hh Hn) in Hg as [H1 H2].
        split; [exact H1|]. rewrite Hi. congruence.
    + intros [->|[Hd Hne]].
      * subst f'. now apply (get_listed m' documents' _ Hh' Hn') in Hsame as [H1 _].
      * rewrite Forall_forall in Hall. destruct (Hall d Hd) as [Hi _].
        assert (E : id_of d <> resp_document_id resp) by (rewrite Hi in Hne; congruence).
        pose proof (get_other_after_register f f' now uuid (id_of d) r resp Hreg E) as Hg.
        subst f. rewrite (proj2 (proj1 (get_listed m documents (id_of d) Hh Hn) d)
                            (conj Hd Hi)) in Hg.
        subst f'. now apply (get_listed m' documents' _ Hh' Hn') in Hg as [H1 _].
  - destruct (register_inv _ _ _ _ _ _ Hreg) as (m0 & Hl0 & Hf0 & Hi0).
    subst f. cbn in Hl0. injection Hl0 as <-. rewrite Hf' in Hf0.
    cbn [sort_keys] in Hf0. injection Hf0 as Hm'.
    assert (Hlen : length documents' = length (dict_set (assigned_id uuid r)
                     (stored_entry now (set_document_id r (assigned_id uuid r))) m)).
    { rewrite <- (Forall2_length _ _ _ Hh'), Hm', sort_items_length, length_map.
      reflexivity. }
    rewrite Hlen, <- (Forall2_length _ _ _ Hh), (holds_keys m documents Hh), Hi0.
    split; intros Hin.
    + apply dict_set_length_present.
      destruct (dict_get (assigned_id uuid r) m) eqn:E; [eauto|].
      apply dict_get_None_keys in E. contradiction.
    + apply dict_set_length_absent. now apply dict_get_None_keys.
Qed.

Lemma register_then_list_witness :
  reachable one_fund
  /\ model_validate (model_dump_json fund_z) = Ok fund_z
  /\ DocumentRegistry.list one_fund = Ok [fund_b]
  /\ exists documents',
       DocumentRegistry.list two_funds = Ok documents'
       /\ length documents' = 2%nat.
Proof.
  split; [exact reachable_one_fund|]. split; [reflexivity|]. split; [reflexivity|].
  destruct (register_then_list one_fund two_funds "2024-01-02T00:00:00" "uuid-2"
              (model_dump_json fund_z) fund_z
              {| resp_document_id := "d-3"; resp_status := received;
                 received_at := "2024-01-02T00:00:00" |}
              [fund_b] reachable_one_fund ltac:(discriminate) eq_refl eq_refl eq_refl)
    as (documents' & Hl & _ & _ & Hlen).
  exists documents'. split; [exact Hl|]. apply Hlen. cbn.
  intros H. apply elem_of_cons in H as [H|H]; [discriminate | now apply elem_of_nil in H].
Defined.

(** X6. Registering again what was just registered changes nothing: in every
    state the registry gets to, after a request was registered, registering
    the request with the identifier it was given, at the same instant, gives
    the same file and the same response, whatever [uuid4] would return. *)
Theorem register_twice (f f' : file_text) (now uuid uuid' : string) (body : json)
    (r : DocumentIngestionRequest) (resp : DocumentIngestionResponse) :
  reachable f ->
  uuid <> "" ->
  model_validate body = Ok r ->
  DocumentRegistry.register f now uuid r = Ok (f', resp) ->
  DocumentRegistry.register f' now uuid'
    (set_document_id r (resp_document_id resp)) = Ok (f', resp).
Proof.
  intros Hr Hu Hv Hreg.
  pose proof (model_validate_request_ok _ _ Hv) as Hok.
  assert (Ht' : tidy f') by (apply reachable_tidy; eapply reachable_register; eauto).
  destruct Ht' as (L & HL & Hk & _ & Ha).
  destruct (register_inv _ _ _ _ _ _ Hreg) as (m & Hl & Hf' & Hi).
  set (i := assigned_id uuid r) in *.
  assert (Hne : i <> "") by now apply assigned_id_not_empty.
  assert (Hid : assigned_id uuid' (set_document_id r i) = i).
  { unfold assigned_id. cbn. apply is_empty_false in Hne. now rewrite Hne. }
  rewrite Hi.
  rewrite (register_dict L f' now uuid' (set_document_id r i)) by now rewrite HL.
  rewrite Hid. assert (Hs : set_document_id (set_document_id r i) i = set_document_id r i)
    by reflexivity.
  rewrite Hs.
  assert (Hget : dict_get i L = Some (sort_keys (stored_entry now (set_document_id r i)))).
  { rewrite HL in Hf'. cbn [sort_keys] in Hf'. injection Hf' as ->.
    now rewrite dict_get_sort_items, dict_get_map, dict_get_set_eq. }
  cbn [sort_keys]. rewrite map_dict_set, (sort_keys_kept L Hk).
  rewrite (dict_set_same _ _ _ Hget), (sort_items_sorted L Ha).
  rewrite HL. destruct resp as [ri rs ra].
  cbn in Hi. subst ri.
  destruct (register_inv _ _ _ _ _ _ Hreg) as (m1 & _ & _ & _).
  unfold DocumentRegistry.register in Hreg. rewrite Hl in Hreg. cbn in Hreg.
  injection Hreg as _ <- <-. reflexivity.
Qed.

Lemma register_twice_witness :
  reachable one_fund
  /\ model_validate (model_dump_json fund_z) = Ok fund_z
  /\ DocumentRegistry.register two_funds "2024-01-02T00:00:00" "uuid-9"
       (set_document_id fund_z "d-3")
     = Ok (two_funds, {| resp_document_id := "d-3"; resp_status := received;
                         received_at := "2024-01-02T00:00:00" |}).
Proof.
  split; [exact reachable_one_fund|]. split; [reflexivity|].
  exact (register_twice one_fund two_funds "2024-01-02T00:00:00" "uuid-2" "uuid-9"
           (model_dump_json fund_z) fund_z
           {| resp_document_id := "d-3"; resp_status := received;
              received_at := "2024-01-02T00:00:00" |}
           reachable_one_fund ltac:(discriminate) eq_refl eq_refl).
Defined.

(** * Further properties of the query engine *)

(** ** More on strings *)

Lemma append_assoc (a b c : string) : (a +:+ b) +:+ c = a +:+ b +:+ c.
Proof. induction a as [|x a IH]; [reflexivity|]. rewrite !append_cons. now rewrite IH. Qed.

Lemma append_empty_r (a : string) : a +:+ "" = a.
Proof. induction a as [|x a IH]; [reflexivity|]. rewrite append_cons. now rewrite IH. Qed.

Lemma contains_refl (s : string) : PyStr.contains s s = true.
Proof. apply contains_spec. exists "", "". now rewrite append_empty, append_empty_r. Qed.

(** A part of a part is a part. *)
Lemma contains_trans (a b c : string) :
  PyStr.contains a b = true -> PyStr.contains b c = true -> PyStr.contains a c = true.
Proof.
  rewrite !contains_spec. intros (p1 & q1 & ->) (p2 & q2 & ->).
  exists (p1 +:+ p2), (q2 +:+ q1). now rewrite !append_assoc.
Qed.

Lemma contains_app_l (pre s : string) : PyStr.contains (pre +:+ s) s = true.
Proof. apply contains_spec. exists pre, "". now rewrite append_empty_r. Qed.

Lemma contains_app_r (s post : string) : PyStr.contains (s +:+ post) s = true.
Proof. apply contains_spec. exists "", post. reflexivity. Qed.

(** The first token of a text that starts with a character that is not white
    space is a prefix of the text. *)
Lemma split_first_prefix (s : string) :
  forall c r t ts,
    s = String c r -> PyStr.is_space c = false -> PyStr.split s = t :: ts ->
    exists post, s = t +:+ post.
Proof.
  induction s as [|c0 r0 IH]; intros c r t ts Hs Hc Hsp; [discriminate|].
  injection Hs as -> ->. rewrite split_cons, Hc in Hsp.
  destruct r as [|c' r'].
  - injection Hsp as <- _. exists "". reflexivity.
  - destruct (PyStr.is_space c') eqn:Hc'.
    + injection Hsp as <- _. exists (String c' r'). reflexivity.
    + destruct (PyStr.split (String c' r')) as [|t0 ts0] eqn:E.
      * injection Hsp as <- _. exists (String c' r'). reflexivity.
      * injection Hsp as <- _.
        destruct (IH c' r' t0 ts0 eq_refl Hc' eq_refl) as (post & Hpost).
        exists post. rewrite append_cons. now rewrite <- Hpost.
Qed.

(** Every token of a text is a part of the text. *)
Lemma split_contains (s t : string) :
  t ∈ PyStr.split s -> PyStr.contains s t = true.
Proof.
  induction s as [|c r IH]; [intros H; inversion H|].
  rewrite split_cons. intros Hin.
  assert (Hr : t ∈ PyStr.split r -> PyStr.contains (String c r) t = true).
  { intros H. apply contains_trans with r; [|now apply IH].
    apply (contains_app_l (String c "") r). }
  destruct (PyStr.is_space c) eqn:Hc; [now apply Hr|].
  destruct r as [|c' r'].
  - apply list_elem_of_singleton in Hin. subst t. apply contains_refl.
  - destruct (PyStr.is_space c') eqn:Hc'.
    + apply elem_of_cons in Hin as [->|Hin]; [|now apply Hr].
      apply (contains_app_r (String c "") (String c' r')).
    + destruct (PyStr.split (String c' r')) as [|t0 ts0] eqn:E.
      * apply list_elem_of_singleton in Hin. subst t.
        apply (contains_app_r (String c "") (String c' r')).
      * apply elem_of_cons in Hin as [->|Hin].
        -- destruct (split_first_prefix _ c' r' t0 ts0 eq_refl Hc' E) as (post & Hpost).
           rewrite Hpost. apply (contains_app_r (String c t0) post).
        -- apply Hr. now constructor.
Qed.

Lemma lower_char_idemp (c : ascii) :
  PyStr.lower_char (PyStr.lower_char c) = PyStr.lower_char c.
Proof. destruct c as [[] [] [] [] [] [] [] []]; reflexivity. Qed.

Lemma lower_idemp (s : string) : PyStr.lower (PyStr.lower s) = PyStr.lower s.
Proof.
  induction s as [|c r IH]; [reflexivity|]. cbn. now rewrite lower_char_idemp, IH.
Qed.

Lemma lstrip_lower (s : string) : PyStr.lstrip (PyStr.lower s) = PyStr.lower (PyStr.lstrip s).
Proof.
  induction s as [|c r IH]; [reflexivity|]. cbn.
  rewrite is_space_lower_char. now destruct (PyStr.is_space c).
Qed.

Lemma rstrip_lower (s : string) : PyStr.rstrip (PyStr.lower s) = PyStr.lower (PyStr.rstrip s).
Proof.
  induction s as [|c r IH]; [reflexivity|]. cbn. rewrite IH, is_space_lower_char.
  destruct (PyStr.rstrip r); cbn; [now destruct (PyStr.is_space c) | reflexivity].
Qed.

(** Stripping and lowering commute. *)
Lemma strip_lower (s : string) : PyStr.strip (PyStr.lower s) = PyStr.lower (PyStr.strip s).
Proof. unfold PyStr.strip. now rewrite lstrip_lower, rstrip_lower. Qed.

Lemma lstrip_app_blank (pre s : string) :
  PyStr.blank pre = true -> PyStr.lstrip (pre +:+ s) = PyStr.lstrip s.
Proof.
  induction pre as [|c r IH]; [reflexivity|]. cbn [PyStr.blank]. intros H.
  apply andb_prop in H as [Hc Hr]. rewrite append_cons. cbn. rewrite Hc. now apply IH.
Qed.

Lemma rstrip_blank (s : string) : PyStr.blank s = true -> PyStr.rstrip s = "".
Proof.
  induction s as [|c r IH]; [reflexivity|]. cbn. intros H.
  apply andb_prop in H as [Hc Hr]. now rewrite IH, Hc.
Qed.

Lemma rstrip_app_blank (s post : string) :
  PyStr.blank post = true -> PyStr.rstrip (s +:+ post) = PyStr.rstrip s.
Proof.
  intros Hb. induction s as [|c r IH].
  - rewrite append_empty. now apply rstrip_blank.
  - rewrite append_cons. cbn. now rewrite IH.
Qed.

Lemma lstrip_app_keep (s post : string) :
  PyStr.blank post = true ->
  PyStr.rstrip (PyStr.lstrip (s +:+ post)) = PyStr.rstrip (PyStr.lstrip s).
Proof.
  intros Hb. induction s as [|c r IH].
  - rewrite append_empty. cbn. now rewrite lstrip_blank.
  - rewrite append_cons. cbn [PyStr.lstrip]. destruct (PyStr.is_space c); [exact IH|].
    rewrite <- append_cons. now apply rstrip_app_blank.
Qed.

(** White space around a text does not show after [strip]. *)
Lemma strip_padded (pre s post : string) :
  PyStr.blank pre = true -> PyStr.blank post = true ->
  PyStr.strip (pre +:+ s +:+ post) = PyStr.strip s.
Proof.
  intros Hp Hq. unfold PyStr.strip. rewrite lstrip_app_blank by exact Hp.
  now apply lstrip_app_keep.
Qed.

(** ** Scores *)

Lemma list_filter_all {A} (keep : A -> bool) (l : list A) :
  (forall x, x ∈ l -> keep x = true) -> List.filter keep l = l.
Proof.
  induction l as [|x l IH]; [reflexivity|]. intros H. cbn.
  rewrite (H x) by constructor. rewrite IH; [reflexivity|].
  intros y Hy. apply H. now constructor.
Qed.

Lemma list_filter_length {A} (keep : A -> bool) (l : list A) :
  (length (List.filter keep l) <= length l)%nat.
Proof.
  induction l as [|x l IH]; [reflexivity|]. cbn.
  destruct (keep x); cbn; lia.
Qed.

Lemma Qdiv_same (n : Z) : 0 < n -> (inject_Z n / inject_Z n == 1)%Q.
Proof.
  intros H. apply Qmult_inv_r. intros E.
  assert (E' : (inject_Z n == inject_Z 0)%Q) by exact E.
  rewrite inject_Z_injective in E'. lia.
Qed.

(** The raw score is at most 1. *)
Lemma raw_score_le_1 (query text : string) : (QueryEngine.raw_score query text <= 1)%Q.
Proof.
  unfold QueryEngine.raw_score. destruct (PyStr.is_empty query); [discriminate|].
  set (n := Z.max (Z.of_nat (length (PyStr.split query))) 1).
  assert (Hn : 0 < n) by (unfold n; lia).
  apply Qle_shift_div_r.
  - change 0%Q with (inject_Z 0). rewrite <- Zlt_Qlt. exact Hn.
  - rewrite Qmult_1_l, <- Zle_Qle. unfold QueryEngine.hits.
    pose proof (list_filter_length (fun token => PyStr.contains text token)
                  (PyStr.split query)).
    unfold n. lia.
Qed.

(** X7. A document whose searchable text holds the whole query (stripped, in
    lower case, not empty) holds every token of it: all tokens count, and the
    document is kept with the score 1. *)
Theorem whole_query_scores_one (q : string) (document : DocumentIngestionRequest) :
  let query := PyStr.lower (PyStr.strip q) in
  let text := QueryEngine.searchable document in
  query <> "" ->
  PyStr.contains text query = true ->
  QueryEngine.hits query text = length (PyStr.split query)
  /\ QueryEngine.score_document query document = Some (document, 1%Q).
Proof.
  intros query text Hne Hc.
  assert (Hh : QueryEngine.hits query text = length (PyStr.split query)).
  { unfold QueryEngine.hits. rewrite list_filter_all; [reflexivity|].
    intros t Ht. apply contains_trans with query; [exact Hc | now apply split_contains]. }
  split; [exact Hh|].
  pose proof (query_tokens q Hne) as Hlen. fold query in Hlen.
  assert (Hraw : (QueryEngine.raw_score query text == 1)%Q).
  { unfold QueryEngine.raw_score. apply is_empty_false in Hne. rewrite Hne, Hh.
    rewrite Z.max_l by lia. apply Qdiv_same. lia. }
  unfold QueryEngine.score_document. fold text. rewrite Hc.
  apply is_empty_false in Hne. rewrite Hne. cbn [orb].
  unfold py_min, py_max.
  assert (E1 : Qlt_bool (QueryEngine.raw_score query text) (5 # 100) = false)
    by (apply Qlt_bool_false; rewrite Hraw; discriminate).
  rewrite E1.
  assert (E2 : Qlt_bool (QueryEngine.raw_score query text) 1 = false)
    by (apply Qlt_bool_false; rewrite Hraw; discriminate).
  now rewrite E2.
Qed.

Lemma whole_query_scores_one_witness :
  PyStr.lower (PyStr.strip " Fund Z ") <> ""
  /\ PyStr.contains (QueryEngine.searchable fund_z) (PyStr.lower (PyStr.strip " Fund Z ")) = true
  /\ QueryEngine.score_document "fund z" fund_z = Some (fund_z, 1%Q).
Proof.
  split; [discriminate|]. split; [reflexivity|].
  exact (proj2 (whole_query_scores_one " Fund Z " fund_z ltac:(discriminate) eq_refl)).
Defined.

(** X8. The score of a kept document is its raw score, or the floor (0.1
    for an empty query, 0.05 otherwise) when the raw score is under it.  The
    raw score is at most 1, so the cap of [min(1.0, ...)] never cuts. *)
Theorem score_is_raw_or_floor (query : string)
    (document kept : DocumentIngestionRequest) (s : Q) :
  QueryEngine.score_document query document = Some (kept, s) ->
  let raw := QueryEngine.raw_score query (QueryEngine.searchable document) in
  let floor := if PyStr.is_empty query then (1 # 10)%Q else (5 # 100)%Q in
  kept = document
  /\ (raw <= 1)%Q
  /\ ((raw < floor)%Q -> (s == floor)%Q)
  /\ ((floor <= raw)%Q -> (s == raw)%Q).
Proof.
  intros H raw floor. unfold QueryEngine.score_document in H.
  destruct (_ || _ || _); [|discriminate]. injection H as <- <-.
  fold raw floor. pose proof (raw_score_le_1 query (QueryEngine.searchable document)) as Hr.
  fold raw in Hr. split; [reflexivity|]. split; [exact Hr|].
  assert (Hf : (floor <= 1)%Q) by (unfold floor; destruct (PyStr.is_empty query); discriminate).
  unfold py_min, py_max. split.
  - intros Hlt. rewrite (proj2 (Qlt_bool_iff raw floor) Hlt).
    destruct (Qlt_bool floor 1) eqn:E; [reflexivity|].
    unfold floor in *. destruct (PyStr.is_empty query); discriminate.
  - intros Hle. rewrite (proj2 (Qlt_bool_false raw floor) Hle).
    destruct (Qlt_bool raw 1) eqn:E; [reflexivity|].
    apply Qlt_bool_false in E. now apply Qle_antisym.
Qed.

Lemma score_is_raw_or_floor_witness :
  QueryEngine.score_document "fund z" fund_b = Some (fund_b, (1 # 2)%Q)
  /\ (QueryEngine.raw_score "fund z" (QueryEngine.searchable fund_b) <= 1)%Q.
Proof.
  split; [reflexivity|].
  exact (proj1 (proj2 (score_is_raw_or_floor "fund z" fund_b fund_b (1 # 2) eq_refl))).
Defined.

(** ** The text of the query *)

(** X9. The letter case of the query and white space around it do not
    matter: two queries that are equal once in lower case, one of them padded
    with white space, get the same response. *)
Theorem query_case_and_padding (f : file_text) (elapsed : Z) (payload : QueryRequest)
    (pre q1 post q2 : string) :
  PyStr.blank pre = true ->
  PyStr.blank post = true ->
  PyStr.lower q1 = PyStr.lower q2 ->
  QueryEngine.answer f elapsed (with_query payload (pre +:+ q1 +:+ post))
  = QueryEngine.answer f elapsed (with_query payload q2).
Proof.
  intros Hp Hq Hl.
  assert (E : PyStr.lower (PyStr.strip (pre +:+ q1 +:+ post)) = PyStr.lower (PyStr.strip q2)).
  { rewrite strip_padded by assumption.
    now rewrite <- !strip_lower, Hl. }
  unfold QueryEngine.answer, QueryEngine.ranked.
  cbn [query with_query document_filters max_results]. now rewrite E.
Qed.

Lemma query_case_and_padding_witness :
  PyStr.blank "  " = true
  /\ PyStr.lower "FUND z" = PyStr.lower "Fund Z"
  /\ QueryEngine.answer two_funds 0 (with_query both_funds "  FUND z  ")
     = QueryEngine.answer two_funds 0 (with_query both_funds "Fund Z").
Proof.
  split; [reflexivity|]. split; [reflexivity|].
  exact (query_case_and_padding two_funds 0 both_funds "  " "FUND z" "  " "Fund Z"
           eq_refl eq_refl eq_refl).
Defined.

(** ** Filters, again *)

Lemma filter_documents_filter (documents : list DocumentIngestionRequest)
    (fs : gmap string string) :
  QueryEngine._filter_documents documents (Some fs)
  = filter (passes_filters fs) documents.
Proof.
  unfold QueryEngine._filter_documents.
  destruct (bool_decide (fs = ∅)) eqn:E.
  - apply bool_decide_eq_true in E. subst fs. symmetry.
    induction documents as [|d l IH]; [reflexivity|].
    rewrite filter_cons_True; [now rewrite IH|]. apply map_Forall_empty.
  - apply list_filter_decide. intros d. apply forallb_filters.
Qed.

(** X10. Filtering keeps a sublist of the documents, in their order, and
    filtering the result again with the same filters changes nothing. *)
Theorem filter_documents_sublist (documents : list DocumentIngestionRequest)
    (filters : option (gmap string string)) :
  QueryEngine._filter_documents documents filters `sublist_of` documents
  /\ QueryEngine._filter_documents
       (QueryEngine._filter_documents documents filters) filters
     = QueryEngine._filter_documents documents filters.
Proof.
  destruct filters as [fs|]; [|split; reflexivity].
  rewrite !filter_documents_filter. split; [apply sublist_filter|].
  now apply list_filter_filter_l.
Qed.

(** X11. Filters combine: filtering with one mapping and then with another
    that shares no key with it is filtering once with both. *)
Theorem filter_documents_union (documents : list DocumentIngestionRequest)
    (fs1 fs2 : gmap string string) :
  fs1 ##ₘ fs2 ->
  QueryEngine._filter_documents
    (QueryEngine._filter_documents documents (Some fs1)) (Some fs2)
  = QueryEngine._filter_documents documents (Some (fs1 ∪ fs2)).
Proof.
  intros Hd. rewrite !filter_documents_filter, list_filter_filter.
  apply list_filter_iff. intros d. unfold passes_filters.
  rewrite map_Forall_union by exact Hd. tauto.
Qed.

Lemma filter_documents_union_witness :
  filter_type ##ₘ filter_issuer
  /\ QueryEngine._filter_documents
       (QueryEngine._filter_documents [fund_b; sample_request] (Some filter_type))
       (Some filter_issuer)
     = QueryEngine._filter_documents [fund_b; sample_request]
         (Some (filter_type ∪ filter_issuer)).
Proof.
  assert (H : filter_type ##ₘ filter_issuer).
  { unfold filter_type, filter_issuer. apply map_disjoint_singleton_l_2.
    now apply lookup_singleton_ne. }
  split; [exact H|].
  exact (filter_documents_union [fund_b; sample_request] filter_type filter_issuer H).
Defined.

(** X12. The letter case of the values of the filters does not matter. *)
Theorem filter_documents_case (documents : list DocumentIngestionRequest)
    (fs : gmap string string) :
  QueryEngine._filter_documents documents (Some (PyStr.lower <$> fs))
  = QueryEngine._filter_documents documents (Some fs).
Proof.
  rewrite !filter_documents_filter. apply list_filter_iff. intros d.
  unfold passes_filters. rewrite map_Forall_fmap. unfold map_Forall.
  split; intros H k v Hk; specialize (H k v Hk); cbn in *;
    [now rewrite lower_idemp in H | now rewrite lower_idemp].
Qed.

Lemma field_text_unknown (document : DocumentIngestionRequest) (name : string) :
  name ∉ field_names -> field_text document name = "".
Proof.
  intros H. unfold field_text.
  assert (E : dict_get name (model_dump document) = None)
    by now apply dict_get_None_keys.
  now rewrite E.
Qed.

(** X13. A filter on a name that is no field of the documents raises
    nothing: with a value that is not empty it leaves no document, whatever
    the other filters are. *)
Theorem filter_unknown_name (documents : list DocumentIngestionRequest)
    (fs : gmap string string) (name value : string) :
  fs !! name = Some value ->
  name ∉ field_names ->
  value <> "" ->
  QueryEngine._filter_documents documents (Some fs) = [].
Proof.
  intros Hk Hn Hv. rewrite filter_documents_filter.
  induction documents as [|d l IH]; [reflexivity|].
  rewrite filter_cons_False; [exact IH|].
  intros Hp. specialize (Hp name value Hk). cbn in Hp.
  rewrite field_text_unknown in Hp by exact Hn.
  symmetry in Hp. apply (proj1 (lower_empty value)) in Hp. contradiction.
Qed.

Lemma filter_unknown_name_witness :
  filter_region !! "region" = Some "emea"
  /\ ("region" ∉ field_names)
  /\ QueryEngine._filter_documents [fund_b; fund_z] (Some filter_region) = [].
Proof.
  assert (H1 : filter_region !! "region" = Some "emea") by apply lookup_singleton_eq.
  assert (H2 : "region" ∉ field_names).
  { unfold field_names. rewrite !not_elem_of_cons. repeat split; try discriminate.
    apply not_elem_of_nil. }
  split; [exact H1|]. split; [exact H2|].
  exact (filter_unknown_name [fund_b; fund_z] filter_region "region" "emea" H1 H2
           ltac:(discriminate)).
Defined.

(** ** Ties *)

Lemma insert_match_class (s : Q) (x : DocumentIngestionRequest * Q)
    (l : list (DocumentIngestionRequest * Q)) :
  descending l ->
  List.filter (fun m => Qeq_bool (snd m) s) (QueryEngine.insert_match x l)
  = List.filter (fun m => Qeq_bool (snd m) s) (x :: l).
Proof.
  unfold descending. induction 1 as [|y r Hr IH Hy]; [reflexivity|].
  cbn [QueryEngine.insert_match].
  destruct (Qle_bool (snd y) (snd x)) eqn:E; [reflexivity|].
  cbn [List.filter] in *.
  destruct (Qeq_bool (snd y) s) eqn:Ey.
  - rewrite IH. destruct (Qeq_bool (snd x) s) eqn:Ex; [|reflexivity].
    exfalso. apply Qeq_bool_iff in Ey, Ex.
    assert (Hle : (snd y <= snd x)%Q) by (rewrite Ey, Ex; apply Qle_refl).
    apply Qle_bool_iff in Hle. congruence.
  - rewrite IH. reflexivity.
Qed.

(** X14. The sort of the matches is stable: the matches of one score are in
    the order in which the scoring loop appended them. *)
Theorem ties_keep_order (documents : list DocumentIngestionRequest)
    (payload : QueryRequest) (s : Q) :
  List.filter (fun m => Qeq_bool (snd m) s)
    (QueryEngine.sort_matches (qualifying documents payload))
  = List.filter (fun m => Qeq_bool (snd m) s) (qualifying documents payload).
Proof.
  induction (qualifying documents payload) as [|x l IH]; [reflexivity|].
  cbn [QueryEngine.sort_matches foldr]. fold (QueryEngine.sort_matches l).
  rewrite insert_match_class by apply sort_matches_descending.
  cbn [List.filter]. now rewrite IH.
Qed.

(** ** The response, again *)

Lemma join_contains (sep x : string) (l : list string) :
  x ∈ l -> PyStr.contains (PyStr.join sep l) x = true.
Proof.
  unfold PyStr.join. induction l as [|y l IH]; [intros H; inversion H|].
  intros Hin. destruct l as [|z l'].
  - apply list_elem_of_singleton in Hin. subst y. apply contains_refl.
  - change (String.concat sep (y :: z :: l'))
      with (y +:+ sep +:+ String.concat sep (z :: l')).
    apply elem_of_cons in Hin as [->|Hin].
    + apply contains_app_r.
    + apply contains_trans with (String.concat sep (z :: l')); [|now apply IH].
      rewrite <- append_assoc. apply contains_app_l.
Qed.

Lemma ranked_from_documents (documents : list DocumentIngestionRequest)
    (payload : QueryRequest) (m : DocumentIngestionRequest * Q) :
  m ∈ QueryEngine.ranked documents payload ->
  fst m ∈ documents
  /\ QueryEngine.score_document (PyStr.lower (PyStr.strip (query payload))) (fst m)
     = Some m.
Proof.
  rewrite ranked_sorted. intros Hm. apply slice_to_subseteq in Hm.
  rewrite sort_matches_perm in Hm. unfold qualifying in Hm.
  apply list_elem_of_omap in Hm as (d & Hd & Hs).
  assert (E : fst m = d).
  { unfold QueryEngine.score_document in Hs. destruct (_ || _ || _); [|discriminate].
    now injection Hs as <-. }
  rewrite E. split; [|exact Hs].
  destruct (document_filters payload) as [fs|]; [|exact Hd].
  rewrite filter_documents_filter in Hd. now apply list_elem_of_filter in Hd as [_ Hd].
Qed.

Lemma answer_line_product (m : DocumentIngestionRequest * Q) :
  PyStr.contains (QueryEngine.answer_line m) (product (fst m)) = true.
Proof.
  unfold QueryEngine.answer_line. apply contains_spec.
  exists "- ", (" (" +:+ document_type (fst m) +:+ ") for " +:+ QueryEngine.period_text (fst m)).
  reflexivity.
Qed.

Lemma excerpt_product (m : DocumentIngestionRequest * Q) :
  PyStr.contains (excerpt (QueryEngine.snippet m)) (product (fst m)) = true.
Proof.
  cbn [QueryEngine.snippet excerpt]. apply contains_spec.
  exists ("Issuer: " +:+ issuer (fst m) +:+ ". Product: "),
         (". Filename: " +:+ filename (fst m) +:+ ".").
  now rewrite !append_assoc.
Qed.

(** X15. Every citation of a response is the citation of a listed document
    that the response also names: the product of that document stands in the
    text of the answer and in the excerpt of the citation.  The latency of
    the response is at least 1. *)
Theorem citations_are_named (f : file_text) (elapsed : Z) (payload : QueryRequest)
    (documents : list DocumentIngestionRequest) :
  DocumentRegistry.list f = Ok documents ->
  exists response,
    QueryEngine.answer f elapsed payload = Ok response
    /\ (1 <= latency_ms response)%Z
    /\ forall c, c ∈ citations response ->
         exists d s,
           d ∈ documents
           /\ c = QueryEngine.snippet (d, s)
           /\ PyStr.contains (answer_text response) (product d) = true
           /\ PyStr.contains (excerpt c) (product d) = true.
Proof.
  intros Hl. unfold QueryEngine.answer. rewrite Hl. cbn [bind].
  destruct (QueryEngine.ranked documents payload) as [|m0 ms] eqn:E.
  - eexists. split; [reflexivity|]. cbn [citations latency_ms]. split; [lia|].
    intros c Hc. inversion Hc.
  - eexists. split; [reflexivity|]. cbn [citations latency_ms answer_text].
    split; [lia|]. rewrite <- E. intros c Hc.
    apply list_elem_of_fmap in Hc as ([d s] & -> & Hm).
    destruct (ranked_from_documents documents payload (d, s) Hm) as [Hd _].
    exists d, s. split; [exact Hd|]. split; [reflexivity|]. split.
    + apply contains_trans with (QueryEngine.answer_line (d, s));
        [|apply answer_line_product].
      apply join_contains. constructor. apply list_elem_of_fmap. now exists (d, s).
    + apply excerpt_product.
Qed.

Lemma citations_are_named_witness :
  DocumentRegistry.list two_funds = Ok [fund_b; fund_z]
  /\ exists response,
       QueryEngine.answer two_funds 0 both_funds = Ok response
       /\ (1 <= latency_ms response)%Z.
Proof.
  split; [reflexivity|].
  destruct (citations_are_named two_funds 0 both_funds [fund_b; fund_z] eq_refl)
    as (response & Ha & Hlat & _).
  exists response. split; [exact Ha | exact Hlat].
Defined.

(** X16. In every state the registry gets to, [answer] returns for every
    payload, and every citation points to a stored document: [get] on the
    identifier of the citation returns the document the citation was made
    from.  The identifier is thus never the fallback of the code. *)
Theorem citations_point_to_documents (f : file_text) (elapsed : Z)
    (payload : QueryRequest) :
  reachable f ->
  exists response,
    QueryEngine.answer f elapsed payload = Ok response
    /\ forall c, c ∈ citations response ->
         exists d s,
           c = QueryEngine.snippet (d, s)
           /\ document_id d = Some (snip_document_id c)
           /\ DocumentRegistry.get f (snip_document_id c) = Ok (Some d).
Proof.
  intros Hr. destruct (reachable_list f Hr) as (documents & Hl).
  destruct (answer_ranked f elapsed payload documents Hl) as (response & Ha & Hc & _).
  exists response. split; [exact Ha|]. intros c Hin. rewrite Hc in Hin.
  apply list_elem_of_fmap in Hin as ([d s] & -> & Hm).
  destruct (ranked_from_documents documents payload (d, s) Hm) as [Hd _].
  cbn [fst] in Hd.
  destruct (listing_ids_facts f documents Hr Hl) as (m & -> & Hh & Hn & Hall).
  rewrite Forall_forall in Hall. destruct (Hall d Hd) as [Hi Hne].
  assert (E : snip_document_id (QueryEngine.snippet (d, s)) = id_of d).
  { cbn [QueryEngine.snippet snip_document_id fst]. rewrite Hi.
    apply is_empty_false in Hne. now rewrite Hne. }
  exists d, s. rewrite E. split; [reflexivity|]. split; [exact Hi|].
  now apply (get_listed m documents (id_of d) Hh Hn).
Qed.

Lemma citations_point_to_documents_witness :
  reachable two_funds
  /\ exists response, QueryEngine.answer two_funds 0 both_funds = Ok response.
Proof.
  split; [exact reachable_two_funds|].
  destruct (citations_point_to_documents two_funds 0 both_funds reachable_two_funds)
    as (response & Ha & _).
  exists response. exact Ha.
Defined.

(** * Further properties of the compliance checks *)

Lemma last_char_append (a t : string) : t <> "" -> last_char (a +:+ t) = last_char t.
Proof.
  intros Ht. induction a as [|c a IH]; [reflexivity|].
  rewrite append_cons. cbn [last_char]. rewrite IH.
  destruct (a +:+ t) eqn:E; [|reflexivity].
  destruct a; [rewrite append_empty in E; contradiction | discriminate].
Qed.

(** The identifier of an alert gives back the identifier of the document and
    the rule. *)
Lemma alert_id_injective (i j s t : string) :
  (s = "-missing-reporting-period" \/ s = "-unverified-language") ->
  (t = "-missing-reporting-period" \/ t = "-unverified-language") ->
  i +:+ s = j +:+ t -> i = j /\ s = t.
Proof.
  intros [-> | ->] [-> | ->] H.
  - split; [now apply append_cancel_r in H | reflexivity].
  - apply (f_equal last_char) in H. rewrite !last_char_append in H by discriminate.
    discriminate.
  - apply (f_equal last_char) in H. rewrite !last_char_append in H by discriminate.
    discriminate.
  - split; [now apply append_cancel_r in H | reflexivity].
Qed.

Lemma document_alerts_form (now : string) (d : DocumentIngestionRequest)
    (a : ComplianceAlert) :
  a ∈ ComplianceService.document_alerts now d ->
  (a = ComplianceService.missing_period_alert now d /\ reporting_period d = None)
  \/ (a = ComplianceService.language_alert now d /\ unverified d).
Proof.
  rewrite document_alerts_cases. intros H. apply elem_of_app in H as [H|H].
  - destruct (decide (reporting_period d = None)); [|inversion H].
    apply list_elem_of_singleton in H. now left.
  - destruct (decide (unverified d)); [|inversion H].
    apply list_elem_of_singleton in H. now right.
Qed.

Lemma alert_id_form (now : string) (d : DocumentIngestionRequest) (a : ComplianceAlert) :
  document_id d = Some (id_of d) ->
  a ∈ ComplianceService.document_alerts now d ->
  alert_document_id a = (if PyStr.is_empty (id_of d) then "unknown" else id_of d)
  /\ exists s, (s = "-missing-reporting-period" \/ s = "-unverified-language")
               /\ alert_id a = id_of d +:+ s.
Proof.
  intros Hi Ha. apply document_alerts_form in Ha as [[-> _]|[-> _]];
    cbn [ComplianceService.missing_period_alert ComplianceService.language_alert
         alert_id alert_document_id];
    unfold ComplianceService.id_text, ComplianceService.id_or_unknown;
    rewrite Hi; cbn [opt_str py_str]; (split; [reflexivity|]); eauto.
Qed.

Lemma document_alerts_NoDup (now : string) (d : DocumentIngestionRequest) :
  NoDup (alert_id <$> ComplianceService.document_alerts now d).
Proof.
  rewrite document_alerts_cases.
  destruct (decide (reporting_period d = None)), (decide (unverified d)); cbn;
    repeat constructor; try apply not_elem_of_nil.
  intros H. apply list_elem_of_singleton in H.
  apply String.app_inj in H. discriminate.
Qed.

Lemma alerts_NoDup (now : string) (documents : list DocumentIngestionRequest) :
  NoDup (map id_of documents) ->
  Forall (fun d => document_id d = Some (id_of d) /\ id_of d <> "") documents ->
  NoDup (alert_id <$> flat_map (ComplianceService.document_alerts now) documents).
Proof.
  induction documents as [|d l IH]; [constructor|].
  cbn [map flat_map]. intros Hn Hall.
  apply NoDup_cons in Hn as [Hd Hn]. apply Forall_cons in Hall as [[Hi _] Hall].
  rewrite fmap_app. apply NoDup_app.
  split; [apply document_alerts_NoDup|]. split; [|now apply IH].
  intros x Hx Hx'.
  apply list_elem_of_fmap in Hx as (a & -> & Ha).
  apply list_elem_of_fmap in Hx' as (a' & Heq & Ha').
  apply list_elem_of_In, in_flat_map in Ha' as (d' & Hd' & Ha').
  apply list_elem_of_In in Hd', Ha'.
  rewrite Forall_forall in Hall. destruct (Hall d' Hd') as [Hi' _].
  destruct (alert_id_form now d a Hi Ha) as (_ & s & Hs & Es).
  destruct (alert_id_form now d' a' Hi' Ha') as (_ & s' & Hs' & Es').
  rewrite Es, Es' in Heq. apply alert_id_injective in Heq as [E _]; try assumption.
  apply Hd. rewrite E. apply list_elem_of_fmap. now exists d'.
Qed.

(** X17. In every state the registry gets to, [list_alerts] returns and the
    identifiers of its alerts differ from one another. *)
Theorem alert_ids_distinct (f : file_text) (now : string) :
  reachable f ->
  exists result,
    ComplianceService.list_alerts f now = Ok result
    /\ NoDup (alert_id <$> alerts result).
Proof.
  intros Hr. destruct (reachable_list f Hr) as (documents & Hl).
  unfold ComplianceService.list_alerts. rewrite Hl. cbn [bind].
  eexists. split; [reflexivity|]. cbn [alerts].
  destruct (listing_ids_distinct_facts f documents Hr Hl) as [Hn Hall].
  now apply alerts_NoDup.
Qed.

Lemma alert_ids_distinct_witness :
  reachable two_funds
  /\ exists result, ComplianceService.list_alerts two_funds "2024-03-03T00:00:00" = Ok result.
Proof.
  split; [exact reachable_two_funds|].
  destruct (alert_ids_distinct two_funds "2024-03-03T00:00:00" reachable_two_funds)
    as (result & Hr & _).
  exists result. exact Hr.
Defined.

(** X18. In every state the registry gets to, every alert is about a stored
    document that is at fault: [get] on the document identifier of the alert
    returns a document that has no reporting period (for the first rule) or
    an unverified language (for the second), and the identifier of the alert
    is that of the document followed by the rule. *)
Theorem alerts_point_to_documents (f : file_text) (now : string) :
  reachable f ->
  exists result,
    ComplianceService.list_alerts f now = Ok result
    /\ forall a, a ∈ alerts result ->
         exists d,
           DocumentRegistry.get f (alert_document_id a) = Ok (Some d)
           /\ (rule_id a = "missing_reporting_period"
               /\ reporting_period d = None
               /\ alert_id a = alert_document_id a +:+ "-missing-reporting-period"
               \/ rule_id a = "unverified_language"
                  /\ unverified d
                  /\ alert_id a = alert_document_id a +:+ "-unverified-language").
Proof.
  intros Hr. destruct (reachable_list f Hr) as (documents & Hl).
  unfold ComplianceService.list_alerts. rewrite Hl. cbn [bind].
  eexists. split; [reflexivity|]. cbn [alerts]. intros a Ha.
  apply list_elem_of_In, in_flat_map in Ha as (d & Hd & Ha).
  apply list_elem_of_In in Hd, Ha.
  destruct (listing_ids_facts f documents Hr Hl) as (m & -> & Hh & Hn & Hall).
  rewrite Forall_forall in Hall. destruct (Hall d Hd) as [Hi Hne].
  destruct (alert_id_form now d a Hi Ha) as (Hdoc & _).
  apply is_empty_false in Hne. rewrite Hne in Hdoc.
  exists d. rewrite Hdoc. split.
  - now apply (get_listed m documents (id_of d) Hh Hn).
  - apply document_alerts_form in Ha as [[-> Hp]|[-> Hu]]; [left|right];
      cbn [ComplianceService.missing_period_alert ComplianceService.language_alert
           alert_id rule_id];
      unfold ComplianceService.id_text; rewrite Hi; cbn [opt_str py_str];
      repeat split; assumption.
Qed.

Lemma alerts_point_to_documents_witness :
  reachable two_funds
  /\ exists result, ComplianceService.list_alerts two_funds "2024-03-03T00:00:00" = Ok result.
Proof.
  split; [exact reachable_two_funds|].
  destruct (alerts_point_to_documents two_funds "2024-03-03T00:00:00" reachable_two_funds)
    as (result & Hr & _).
  exists result. exact Hr.
Defined.

(** X19. The number of alerts is at most twice the number of listed
    documents, and it is zero exactly when every listed document has a
    reporting period and a verified language. *)
Theorem alerts_total_bounds (f : file_text) (now : string)
    (documents : list DocumentIngestionRequest) :
  DocumentRegistry.list f = Ok documents ->
  exists result,
    ComplianceService.list_alerts f now = Ok result
    /\ (0 <= total result <= 2 * Z.of_nat (length documents))%Z
    /\ (total result = 0%Z
        <-> forall d, d ∈ documents -> reporting_period d <> None /\ ~ unverified d).
Proof.
  intros Hl. unfold ComplianceService.list_alerts. rewrite Hl. cbn [bind].
  eexists. split; [reflexivity|]. cbn [alerts total]. clear Hl.
  induction documents as [|d l [IH1 IH2]].
  - cbn. split; [lia|]. split; [intros _ d H; inversion H | reflexivity].
  - cbn [flat_map]. rewrite length_app, document_alerts_cases.
    destruct (decide (reporting_period d = None)) as [Hp|Hp],
             (decide (unverified d)) as [Hu|Hu]; cbn [length app] in *.
    all: split; [lia|]; split.
    all: try (intros H; lia).
    all: try (intros H; exfalso; destruct (H d ltac:(constructor)) as [H1 H2]; contradiction).
    + intros H d' Hd'. apply elem_of_cons in Hd' as [->|Hd']; [now split|].
      apply IH2; [lia | exact Hd'].
    + intros H. assert (E : Z.of_nat (length (flat_map (ComplianceService.document_alerts now) l)) = 0%Z).
      { apply IH2. intros d' Hd'. apply H. now constructor. }
      lia.
Qed.

Lemma alerts_total_bounds_witness :
  DocumentRegistry.list two_funds = Ok [fund_b; fund_z]
  /\ exists result,
       ComplianceService.list_alerts two_funds "2024-03-03T00:00:00" = Ok result
       /\ (0 <= total result <= 4)%Z.
Proof.
  split; [reflexivity|].
  destruct (alerts_total_bounds two_funds "2024-03-03T00:00:00" [fund_b; fund_z] eq_refl)
    as (result & Hr & Hb & _).
  exists result. split; [exact Hr | exact Hb].
Defined.

(** * Stores the registry did not write *)

(** X20. A store file that parses to something other than a dictionary makes
    every operation raise: [get] and [list] an [AttributeError], [register] a
    [TypeError], and with [list] also [answer] and [list_alerts].  [clear]
    does not read the file, and after it the registry is empty and works. *)
Theorem non_dict_store_raises (v : json) (now uuid i : string) (elapsed : Z)
    (r : DocumentIngestionRequest) (payload : QueryRequest) :
  is_dict v = false ->
  DocumentRegistry.get (Encoded v) i = Raise AttributeError
  /\ DocumentRegistry.list (Encoded v) = Raise AttributeError
  /\ DocumentRegistry.register (Encoded v) now uuid r = Raise TypeError
  /\ QueryEngine.answer (Encoded v) elapsed payload = Raise AttributeError
  /\ ComplianceService.list_alerts (Encoded v) now = Raise AttributeError
  /\ DocumentRegistry.list (DocumentRegistry.clear (Encoded v)) = Ok []
  /\ DocumentRegistry.get (DocumentRegistry.clear (Encoded v)) i = Ok None.
Proof.
  intros H. destruct v; try discriminate; repeat split.
Qed.

Lemma non_dict_store_raises_witness :
  is_dict (JList [JInt 1]) = false
  /\ DocumentRegistry.list (Encoded (JList [JInt 1])) = Raise AttributeError.
Proof.
  split; [reflexivity|].
  exact (proj1 (proj2 (non_dict_store_raises (JList [JInt 1]) "2024-01-01T00:00:00"
                         "uuid-1" "d-1" 0 fund_b both_funds eq_refl))).
Defined.

Lemma for_each_raises {A B} (g : A -> result B) (l : list A) (x : A) (e : exn) :
  x ∈ l -> g x = Raise e -> exists e', for_each g l = Raise e'.
Proof.
  intros Hin Hx. induction l as [|y l IH]; [inversion Hin|].
  cbn [for_each]. destruct (g y) as [b|e0] eqn:Ey; [|eexists; reflexivity].
  cbn [bind]. apply elem_of_cons in Hin as [->|Hin]; [congruence|].
  destruct (IH Hin) as (e' & ->). eexists. reflexivity.
Qed.

(** X21. One entry without a document (a dictionary that lacks the key
    [document], or a value that is no dictionary, so that [item["document"]]
    raises) makes [list] raise, and with it [answer] and [list_alerts], for
    the whole store; [get] still returns the documents of the sound
    entries. *)
Theorem broken_entry_breaks_listing (m : list (string * json)) (i : string)
    (v : json) (e : exn) :
  (i, v) ∈ m ->
  getitem v "document" = Raise e ->
  (exists e', DocumentRegistry.list (Encoded (JObj m)) = Raise e')
  /\ (forall elapsed payload,
        exists e', QueryEngine.answer (Encoded (JObj m)) elapsed payload = Raise e')
  /\ (forall now,
        exists e', ComplianceService.list_alerts (Encoded (JObj m)) now = Raise e')
  /\ (forall j w p,
        dict_get j m = Some w -> holds_request (j, w) p ->
        DocumentRegistry.get (Encoded (JObj m)) j = Ok (Some p)).
Proof.
  intros Hin He.
  assert (Hl : exists e', DocumentRegistry.list (Encoded (JObj m)) = Raise e').
  { unfold DocumentRegistry.list. cbn [DocumentRegistry._load values_method bind].
    apply (for_each_raises _ _ v e); [|now rewrite He].
    unfold dict_values. apply list_elem_of_fmap. now exists (i, v). }
  destruct Hl as (e' & Hl). split; [eauto|]. split; [|split].
  - intros elapsed payload. exists e'. unfold QueryEngine.answer. now rewrite Hl.
  - intros now. exists e'. unfold ComplianceService.list_alerts. now rewrite Hl.
  - intros j w p. apply get_held.
Qed.

Lemma broken_entry_breaks_listing_witness :
  DocumentRegistry.list broken_store = Raise KeyError
  /\ DocumentRegistry.get broken_store "d-1" = Ok (Some fund_b)
  /\ exists e', ComplianceService.list_alerts broken_store "2024-03-03T00:00:00" = Raise e'.
Proof.
  split; [reflexivity|]. split; [reflexivity|].
  refine (proj1 (proj2 (proj2
    (broken_entry_breaks_listing _ "d-9"
       (JObj [("created_at", JStr "2024-01-01T00:00:00")]) KeyError _ eq_refl))) _).
  apply list_elem_of_In. right. left. reflexivity.
Defined.

(** * What the score does not look at *)

(** X22. The score of a document does not depend on its tenant, identifier,
    version or URL: two documents that agree on issuer, product, type,
    language, source, file name and reporting period get the same score for
    every query, and are kept or left out together. *)
Theorem score_ignores_tenant (query : string) (d d' : DocumentIngestionRequest) :
  issuer d = issuer d' ->
  product d = product d' ->
  document_type d = document_type d' ->
  language d = language d' ->
  source d = source d' ->
  filename d = filename d' ->
  reporting_period d = reporting_period d' ->
  snd <$> QueryEngine.score_document query d
  = snd <$> QueryEngine.score_document query d'.
Proof.
  intros H1 H2 H3 H4 H5 H6 H7.
  assert (E : QueryEngine.searchable d = QueryEngine.searchable d').
  { unfold QueryEngine.searchable. now rewrite H1, H2, H3, H4, H5, H6, H7. }
  unfold QueryEngine.score_document. rewrite E.
  now destruct (_ || _ || _).
Qed.

Lemma score_ignores_tenant_witness :
  tenant_id fund_b <> tenant_id fund_b_elsewhere
  /\ snd <$> QueryEngine.score_document "fund z" fund_b
     = snd <$> QueryEngine.score_document "fund z" fund_b_elsewhere.
Proof.
  split; [discriminate|].
  exact (score_ignores_tenant "fund z" fund_b fund_b_elsewhere
           eq_refl eq_refl eq_refl eq_refl eq_refl eq_refl eq_refl).
Defined.
